(** * The task list of [todolist-parcial.ts]: model and properties

    The program keeps a list of tasks in a JSON file.  [Task] builds a
    task from a payload, [TaskRepository] reads and writes the file,
    a handful of pure helpers test and sort tasks, and [TaskManager]
    keeps the collection in a cache that it writes back after every
    change.

    The model follows the program at run time.  A task is a JavaScript
    object: a finite map from property names to values, kept in a heap
    and known by its reference, so that a change made through one
    reference is seen through every other.  Arrays of tasks are heap
    cells too: [push], index assignment and [sort] change them in
    place, while [filter] and the spread [[...tasks]] allocate.  The
    TypeScript interfaces are assertions about these objects and are
    stated as predicates where a property needs them. *)

From stdpp Require Import gmap strings list fin_maps sorting.

Open Scope string_scope.
Open Scope list_scope.
Open Scope nat_scope.
Open Scope stdpp_scope.

(** ** Values *)

(** Numbers: the integers, with the three values that arithmetic on
    dates adds to them.  (Fractions and the negative zero do not occur
    in the program.) *)
Inductive number :=
| Finite (z : Z)
| NaN
| Infinity
| NegInfinity.

(** A value held by a property or read from a JSON document. *)
#[warnings="-register-all"] Inductive value :=
| VUndefined
| VNull
| VBool (b : bool)
| VNumber (n : number)
| VString (s : string)
| VArray (elems : list value)
| VObject (props : gmap string value).

(** An object: its own properties.  A key bound to [VUndefined] is
    present; reading a key that is absent gives [VUndefined] too. *)
Abbreviation object := (gmap string value).

(** References into the heap. *)
Abbreviation loc := positive.

#[global] Instance number_eq_dec : EqDecision number.
Proof. solve_decision. Defined.

(** [o.k] *)
Definition get_prop (o : object) (k : string) : value :=
  default VUndefined (o !! k).

(** [v.k] for any value: only objects carry the properties read by the
    program (neither texts nor arrays have an [id] or a [title]). *)
Definition prop_of (v : value) (k : string) : value :=
  match v with
  | VObject o => get_prop o k
  | _ => VUndefined
  end.

(** [typeof v] *)
Definition typeof (v : value) : string :=
  match v with
  | VUndefined => "undefined"
  | VNull => "object"
  | VBool _ => "boolean"
  | VNumber _ => "number"
  | VString _ => "string"
  | VArray _ => "object"
  | VObject _ => "object"
  end.

(** Truthiness: what [if (v)], [!v] and [v && w] look at. *)
Definition truthy (v : value) : bool :=
  match v with
  | VUndefined | VNull => false
  | VBool b => b
  | VNumber (Finite z) => negb (Z.eqb z 0)
  | VNumber NaN => false
  | VNumber _ => true
  | VString s => negb (String.eqb s "")
  | VArray _ | VObject _ => true
  end.

(** [v ?? d] *)
Definition nullish (v d : value) : value :=
  match v with
  | VUndefined | VNull => d
  | _ => v
  end.

(** [v === w], for the primitive values.  An array or an object is
    equal to itself only, and the program compares texts. *)
Definition strict_equals (v w : value) : bool :=
  match v, w with
  | VUndefined, VUndefined => true
  | VNull, VNull => true
  | VBool a, VBool b => Bool.eqb a b
  | VNumber NaN, VNumber _ => false
  | VNumber a, VNumber b => bool_decide (a = b)
  | VString a, VString b => String.eqb a b
  | _, _ => false
  end.

(** Subtraction and comparison of numbers. *)
Definition number_sub (a b : number) : number :=
  match a, b with
  | NaN, _ | _, NaN => NaN
  | Finite x, Finite y => Finite (x - y)%Z
  | Finite _, Infinity => NegInfinity
  | Finite _, NegInfinity => Infinity
  | Infinity, Infinity => NaN
  | Infinity, _ => Infinity
  | NegInfinity, NegInfinity => NaN
  | NegInfinity, _ => NegInfinity
  end.

Definition number_lt (a b : number) : bool :=
  match a, b with
  | NaN, _ | _, NaN => false
  | Finite x, Finite y => Z.ltb x y
  | Finite _, Infinity => true
  | Finite _, NegInfinity => false
  | Infinity, _ => false
  | NegInfinity, NegInfinity => false
  | NegInfinity, _ => true
  end.

(** [a >= b] and [n + 1] *)
Definition number_ge (a b : number) : bool :=
  match a, b with
  | NaN, _ | _, NaN => false
  | _, _ => negb (number_lt a b)
  end.

Definition number_succ (n : number) : number :=
  match n with
  | Finite z => Finite (z + 1)%Z
  | _ => n
  end.

(** ** The [sort] of arrays

    [Array.prototype.sort] with a comparison function is stable: [a]
    goes after [b] only when [cmp a b > 0], and a result of [NaN]
    counts as [0].  Any stable sort gives the same array when the
    comparison is consistent; it is written here as an insertion
    sort. *)
Section sort.
Context {A : Type} (cmp : A → A → number).

Definition goes_after (a b : A) : bool := number_lt (Finite 0) (cmp a b).

Fixpoint sort_insert (a : A) (l : list A) : list A :=
  match l with
  | [] => [a]
  | b :: l' => if goes_after a b then b :: sort_insert a l' else a :: b :: l'
  end.

Definition Array_sort (l : list A) : list A := foldr sort_insert [] l.

End sort.

(** ** JSON *)

(** What [JSON.parse (JSON.stringify v)] makes of an array or an object
    [v]: a property that is [undefined] is left out, an element that is
    [undefined] and a number that is not finite become [null]. *)
Fixpoint jsonify (v : value) : value :=
  match v with
  | VUndefined => VNull
  | VNumber (Finite _) => v
  | VNumber _ => VNull
  | VArray elems => VArray (map jsonify elems)
  | VObject props =>
      VObject (omap (λ x, match x with
                          | VUndefined => None
                          | _ => Some (jsonify x)
                          end) props)
  | _ => v
  end.

(** ** The platform

    What the program takes from its runtime: the text of a JSON
    document and its reading, the time value of a date
    ([new Date(v).getTime()], [NaN] for an invalid date) and the
    comparison of texts in the locale. *)
Class Platform := {
  text : Type;
  JSON_stringify : value → text;
  JSON_parse : text → option value;
  Date_getTime : value → number;
  String_localeCompare : value → value → number;
}.

(** ** The state of the program and its effects *)

(** The heap of task objects, the heap of arrays of tasks, the file of
    the repository ([None] when it does not exist) with the number of
    times it has been written, and the cache of the manager ([None]
    for [null]). *)
Record world `{Platform} := World {
  objs : gmap loc object;
  arrs : gmap loc (list loc);
  file : option text;
  writes : nat;
  cache : option loc;
}.

Inductive error :=
| ENOENT
| SyntaxError
| TypeError
| Error (message : string).

Inductive result (A : Type) :=
| Ok (a : A)
| Throw (e : error).
Arguments Ok {A} a.
Arguments Throw {A} e.

(** What the runtime makes of values that the declared types leave
    out: [v >= n] for a [v] that is not a number, the property key of a
    value that is not a text (both may throw), and, for a key [k] that
    [Object.prototype] defines, the value of [(({})[k] || 0) + 1]. *)
Class Coercions := {
  greater_or_equal : value → number → result bool;
  ToPropertyKey : value → result string;
  inherited_plus_one : string → option value;
}.

(** A computation returns or throws, and changes the state either way. *)
Definition M `{Platform} (A : Type) : Type := world → result A * world.

#[global] Instance M_ret `{Platform} : MRet M := λ A a w, (Ok a, w).

#[global] Instance M_bind `{Platform} : MBind M := λ A B f m w,
  match m w with
  | (Ok a, w') => f a w'
  | (Throw e, w') => (Throw e, w')
  end.

Section effects.
Context `{Platform}.

Definition throw {A} (e : error) : M A := λ w, (Throw e, w).

(** [try { m } catch (err) { h err }] *)
Definition try_catch {A} (m : M A) (h : error → M A) : M A := λ w,
  match m w with
  | (Ok a, w') => (Ok a, w')
  | (Throw e, w') => h e w'
  end.

Definition set_objs (f : gmap loc object → gmap loc object) (w : world) : world :=
  {| objs := f (objs w); arrs := arrs w; file := file w;
     writes := writes w; cache := cache w |}.

Definition set_arrs (f : gmap loc (list loc) → gmap loc (list loc)) (w : world) : world :=
  {| objs := objs w; arrs := f (arrs w); file := file w;
     writes := writes w; cache := cache w |}.

Definition set_cache (c : option loc) (w : world) : world :=
  {| objs := objs w; arrs := arrs w; file := file w;
     writes := writes w; cache := c |}.

(** The file gets a new content. *)
Definition set_file (data : text) (w : world) : world :=
  {| objs := objs w; arrs := arrs w; file := Some data;
     writes := S (writes w); cache := cache w |}.

(** The object and the array behind a reference. *)
Definition obj_at (w : world) (l : loc) : object := default ∅ (objs w !! l).
Definition arr_at (w : world) (a : loc) : list loc := default [] (arrs w !! a).

(** The tasks of an array, in order. *)
Definition tasks_of (w : world) (a : loc) : list object := obj_at w <$> arr_at w a.

(** A new object, a new array. *)
Definition new_object (o : object) : M loc := λ w,
  let l := fresh (dom (objs w)) in (Ok l, set_objs <[l := o]> w).

Definition new_array (ls : list loc) : M loc := λ w,
  let a := fresh (dom (arrs w)) in (Ok a, set_arrs <[a := ls]> w).

(** Reading the object behind [l], and [l.k = v]. *)
Definition deref (l : loc) : M object := λ w, (Ok (obj_at w l), w).

Definition assign (l : loc) (k : string) (v : value) : M unit := λ w,
  (Ok (), set_objs <[l := <[k := v]> (obj_at w l)]> w).

(** [a.length], [a[i]], [a[i] = l], [a.push(l)] *)
Definition Array_length (a : loc) : M nat := λ w, (Ok (length (arr_at w a)), w).

Definition Array_get (a : loc) (i : nat) : M (option loc) := λ w,
  (Ok (arr_at w a !! i), w).

Definition Array_set (a : loc) (i : nat) (l : loc) : M unit := λ w,
  (Ok (), set_arrs <[a := <[i := l]> (arr_at w a)]> w).

Definition Array_push (a : loc) (l : loc) : M unit := λ w,
  (Ok (), set_arrs <[a := arr_at w a ++ [l]]> w).

(** [a.find(p)], [a.findIndex(p)] ([None] for [undefined] and [-1]) and
    [a.filter(p)], which makes a new array. *)
Definition Array_find (p : object → bool) (a : loc) : M (option loc) := λ w,
  (Ok (snd <$> list_find (λ l, p (obj_at w l)) (arr_at w a)), w).

Definition Array_findIndex (p : object → bool) (a : loc) : M (option nat) := λ w,
  (Ok (fst <$> list_find (λ l, p (obj_at w l)) (arr_at w a)), w).

Definition Array_filter (p : object → bool) (a : loc) : M loc := λ w,
  new_array (filter (λ l, p (obj_at w l)) (arr_at w a)) w.

(** [[...a]] and [a.sort(cmp)], which sorts [a] itself and returns it. *)
Definition Array_spread (a : loc) : M loc := λ w, new_array (arr_at w a) w.

Definition Array_sort_by (cmp : object → object → number) (a : loc) : M loc := λ w,
  (Ok a, set_arrs <[a := Array_sort (λ x y, cmp (obj_at w x) (obj_at w y)) (arr_at w a)]> w).

(** The objects of an array, and a result that is returned or thrown. *)
Definition Array_elements (a : loc) : M (list object) := λ w, (Ok (tasks_of w a), w).

Definition from_result {A} (r : result A) : M A := λ w, (r, w).

(** [a.filter(p)] for a [p] that may throw: the first exception is the
    one of the call, and no array is returned. *)
Fixpoint filter_result {A} (p : A → result bool) (l : list A) : result (list A) :=
  match l with
  | [] => Ok []
  | x :: l' =>
      match p x with
      | Throw e => Throw e
      | Ok b =>
          match filter_result p l' with
          | Throw e => Throw e
          | Ok r => Ok (if b then x :: r else r)
          end
      end
  end.

Definition Array_filter_with (p : object → result bool) (a : loc) : M loc := λ w,
  match filter_result (λ l, p (obj_at w l)) (arr_at w a) with
  | Ok ls => new_array ls w
  | Throw e => (Throw e, w)
  end.

End effects.

(** ** The enumerations

    A string enumeration of TypeScript is its text at run time, and a
    task read from the file may hold any other text. *)
Module TaskStatus.
Definition TODO : value := VString "todo".
Definition IN_PROGRESS : value := VString "in_progress".
Definition DONE : value := VString "done".
Definition CANCELLED : value := VString "cancelled".
End TaskStatus.

Module TaskDifficulty.
Definition LOW : value := VString "low".
Definition MEDIUM : value := VString "medium".
Definition HIGH : value := VString "high".
End TaskDifficulty.

(** ** class Task *)
Module Task.
Section Task.
Context `{Platform}.

(** [new Task(payload)].  [uuid] and [now] are what [uuidv4()] and
    [new Date().toISOString()] give at the time of the call. *)
Definition constructor (uuid now : string) (payload : object) : M loc :=
  if negb (truthy (get_prop payload "title"))
     || negb (String.eqb (typeof (get_prop payload "title")) "string")
  then throw (Error "Task must have a non-empty title")
  else
    new_object (list_to_map [
      ("id", nullish (get_prop payload "id") (VString uuid));
      ("title", get_prop payload "title");
      ("description", get_prop payload "description");
      ("createdAt", nullish (get_prop payload "createdAt") (VString now));
      ("dueDate", get_prop payload "dueDate");
      ("difficulty", nullish (get_prop payload "difficulty") TaskDifficulty.MEDIUM);
      ("priority", if String.eqb (typeof (get_prop payload "priority")) "number"
                   then get_prop payload "priority"
                   else VNumber (Finite 3));
      ("status", nullish (get_prop payload "status") TaskStatus.TODO);
      ("tags", nullish (get_prop payload "tags") (VArray []));
      ("relatedIds", nullish (get_prop payload "relatedIds") (VArray []));
      ("deleted", nullish (get_prop payload "deleted") (VBool false))
    ]).

Definition complete (this : loc) : M unit :=
  assign this "status" TaskStatus.DONE.

Definition softDelete (this : loc) : M unit :=
  assign this "deleted" (VBool true).

Definition restore (this : loc) : M unit :=
  assign this "deleted" (VBool false).

End Task.
End Task.

(** ** class TaskRepository *)
Module TaskRepository.
Section TaskRepository.
Context `{Platform}.

(** The file system, for the one file of the repository.  Reading a
    file that does not exist fails with [ENOENT]; other failures of
    the disk are not part of the model. *)
Definition fs_readFile : M text := λ w,
  match file w with
  | Some data => (Ok data, w)
  | None => (Throw ENOENT, w)
  end.

Definition fs_mkdir : M unit := mret ().

Definition fs_writeFile (data : text) : M unit := λ w,
  (Ok (), set_file data w).

(** [JSON.parse data] throws on a text that is not JSON. *)
Definition parse (data : text) : M value :=
  match JSON_parse data with
  | Some v => mret v
  | None => throw SyntaxError
  end.

(** [JSON.stringify(tasks, null, 2)] walks the array and its objects. *)
Definition snapshot (w : world) (tasks : loc) : value :=
  VArray (VObject <$> tasks_of w tasks).

Definition stringify (tasks : loc) : M text := λ w,
  (Ok (JSON_stringify (snapshot w tasks)), w).

(** [t && typeof t.id === 'string' && typeof t.title === 'string'] *)
Definition minimal_shape (t : value) : bool :=
  truthy t
  && String.eqb (typeof (prop_of t "id")) "string"
  && String.eqb (typeof (prop_of t "title")) "string".

(** The records kept by the filter become the objects of a new array. *)
Definition as_object (v : value) : option object :=
  match v with
  | VObject o => Some o
  | _ => None
  end.

Fixpoint new_objects (os : list object) : M (list loc) :=
  match os with
  | [] => mret []
  | o :: os' => l ← new_object o; ls ← new_objects os'; mret (l :: ls)
  end.

Definition readAll : M loc :=
  try_catch
    (data ← fs_readFile;
     parsed ← parse data;
     match parsed with
     | VArray elems =>
         ls ← new_objects (omap as_object (filter (λ t, minimal_shape t) elems));
         new_array ls
     | _ => throw TypeError
     end)
    (λ err, match err with
            | ENOENT => new_array []
            | _ => throw err
            end).

Definition writeAll (tasks : loc) : M unit :=
  fs_mkdir;;
  data ← stringify tasks;
  fs_writeFile data.

End TaskRepository.
End TaskRepository.

(** ** The pure helpers *)
Section helpers.
Context `{Platform}.

Definition isOverdue (nowIso : string) (t : object) : bool :=
  if negb (truthy (get_prop t "dueDate")) then false
  else number_lt (Date_getTime (get_prop t "dueDate")) (Date_getTime (VString nowIso)).

Definition isNotDeleted (t : object) : bool :=
  negb (truthy (get_prop t "deleted")).

(** The comparison functions handed to [sort]. *)
Definition byTitle (a b : object) : number :=
  String_localeCompare (get_prop a "title") (get_prop b "title").

Definition byCreation (a b : object) : number :=
  number_sub (Date_getTime (get_prop a "createdAt")) (Date_getTime (get_prop b "createdAt")).

Definition byDueDate (a b : object) : number :=
  let da := if truthy (get_prop a "dueDate")
            then Date_getTime (get_prop a "dueDate") else Infinity in
  let db := if truthy (get_prop b "dueDate")
            then Date_getTime (get_prop b "dueDate") else Infinity in
  number_sub da db.

Definition difficultyRank (d : value) : Z :=
  if strict_equals d TaskDifficulty.LOW then 1
  else if strict_equals d TaskDifficulty.MEDIUM then 2
  else if strict_equals d TaskDifficulty.HIGH then 3
  else 2.

Definition byDifficulty (a b : object) : number :=
  Finite (difficultyRank (get_prop a "difficulty") - difficultyRank (get_prop b "difficulty")).

Definition sortByTitle (tasks : loc) : M loc :=
  copy ← Array_spread tasks; Array_sort_by byTitle copy.

Definition sortByCreation (tasks : loc) : M loc :=
  copy ← Array_spread tasks; Array_sort_by byCreation copy.

Definition sortByDueDate (tasks : loc) : M loc :=
  copy ← Array_spread tasks; Array_sort_by byDueDate copy.

Definition sortByDifficulty (tasks : loc) : M loc :=
  copy ← Array_spread tasks; Array_sort_by byDifficulty copy.

Context `{Coercions}.


(** [v.includes(x)] for a text [x]: the search of an array, the search
    of a text for a part of it, and a [TypeError] for the values that
    have no [includes]. *)
Definition includes (v : value) (x : string) : result bool :=
  match v with
  | VArray elems => Ok (existsb (λ e, strict_equals e (VString x)) elems)
  | VString s => Ok (bool_decide (is_Some (String.index 0 x s)))
  | _ => Throw TypeError
  end.

(** [predicate.hasTag] and [predicate.relatedTo]: [!!t.tags && t.tags.includes(tag)] *)
Definition hasTag (tag : string) (t : object) : result bool :=
  if truthy (get_prop t "tags") then includes (get_prop t "tags") tag else Ok false.

Definition relatedTo (id : string) (t : object) : result bool :=
  if truthy (get_prop t "relatedIds") then includes (get_prop t "relatedIds") id
  else Ok false.

(** [tasks.filter(isNotDeleted).length] *)
Definition statsTotal (tasks : loc) : M nat :=
  kept ← Array_filter isNotDeleted tasks; Array_length kept.

(** [(x || 0) + 1] for a value [x] of the accumulator: the next number,
    or the text of [x] followed by ["1"]. *)
Definition plus_one (x : value) : result value :=
  if negb (truthy x) then Ok (VNumber (Finite 1))
  else match x with
       | VNumber n => Ok (VNumber (number_succ n))
       | VString s => Ok (VString (s ++ "1"))
       | VBool _ => Ok (VNumber (Finite 2))
       | _ => match ToPropertyKey x with
              | Ok s => Ok (VString (s ++ "1"))
              | Throw e => Throw e
              end
       end.

(** [acc[v] = (acc[v] || 0) + 1].  The key is read in the accumulator,
    then in [Object.prototype]; [__proto__] is not a property that an
    assignment of a number or of a text creates. *)
Definition tally (acc : object) (v : value) : result object :=
  match (match v with
         | VString s => Ok s
         | _ => ToPropertyKey v
         end) with
  | Throw e => Throw e
  | Ok k =>
      match (match acc !! k with
             | Some x => plus_one x
             | None => Ok (default (VNumber (Finite 1)) (inherited_plus_one k))
             end) with
      | Throw e => Throw e
      | Ok next => Ok (if String.eqb k "__proto__" then acc else <[k := next]> acc)
      end
  end.

(** [ts.reduce((acc, t) => { acc[t[field]] = ...; return acc; }, acc)] *)
Fixpoint tally_all (field : string) (ts : list object) (acc : object) : result object :=
  match ts with
  | [] => Ok acc
  | t :: ts' =>
      match tally acc (get_prop t field) with
      | Throw e => Throw e
      | Ok acc' => tally_all field ts' acc'
      end
  end.

Definition stats_by (field : string) (tasks : loc) : M object :=
  kept ← Array_filter isNotDeleted tasks;
  ts ← Array_elements kept;
  from_result (tally_all field ts ∅).

Definition statsByStatus (tasks : loc) : M object := stats_by "status" tasks.

Definition statsByDifficulty (tasks : loc) : M object := stats_by "difficulty" tasks.

End helpers.

(** ** class TaskManager *)

(** The options of [list]. *)
Inductive SortBy := by_title | by_createdAt | by_dueDate | by_difficulty.

Record ListOptions := {
  includeDeleted : option bool;
  sortBy : option SortBy;
}.

Module TaskManager.
Section TaskManager.
Context `{Platform}.

(** [this.cache!] and [this.cache = c] *)
Definition this_cache : M loc := λ w,
  match cache w with
  | Some a => (Ok a, w)
  | None => (Throw TypeError, w)
  end.

Definition put_cache (c : loc) : M unit := λ w, (Ok (), set_cache (Some c) w).

Definition loadIfNeeded : M unit := λ w,
  match cache w with
  | None => (c ← TaskRepository.readAll; put_cache c) w
  | Some _ => (Ok (), w)
  end.

Definition reload : M unit :=
  c ← TaskRepository.readAll; put_cache c.

Definition add (uuid now : string) (taskPayload : object) : M loc :=
  loadIfNeeded;;
  t ← Task.constructor uuid now taskPayload;
  c ← this_cache;
  Array_push c t;;
  c ← this_cache;
  TaskRepository.writeAll c;;
  mret t.

Definition has_id (id : string) (t : object) : bool :=
  strict_equals (get_prop t "id") (VString id).

Definition findById (id : string) : M (option loc) :=
  loadIfNeeded;;
  c ← this_cache;
  Array_find (has_id id) c.

Definition update (id : string) (changes : object) : M (option loc) :=
  loadIfNeeded;;
  c ← this_cache;
  idx ← Array_findIndex (has_id id) c;
  match idx with
  | None => mret None
  | Some idx =>
      c ← this_cache;
      current ← Array_get c idx;
      match current with
      | None => throw TypeError
      | Some current =>
          cur ← deref current;
          updated ← new_object (<["id" := get_prop cur "id"]> (changes ∪ cur));
          c ← this_cache;
          Array_set c idx updated;;
          c ← this_cache;
          TaskRepository.writeAll c;;
          mret (Some updated)
      end
  end.

Definition softDelete (id : string) : M bool :=
  loadIfNeeded;;
  c ← this_cache;
  t ← Array_find (has_id id) c;
  match t with
  | None => mret false
  | Some t =>
      assign t "deleted" (VBool true);;
      c ← this_cache;
      TaskRepository.writeAll c;;
      mret true
  end.

Definition hardDelete (id : string) : M bool :=
  loadIfNeeded;;
  c ← this_cache;
  prevLen ← Array_length c;
  c ← this_cache;
  c ← Array_filter (λ x, negb (has_id id x)) c;
  put_cache c;;
  c ← this_cache;
  TaskRepository.writeAll c;;
  c ← this_cache;
  len ← Array_length c;
  mret (Nat.ltb len prevLen).

Definition list (options : option ListOptions) : M loc :=
  loadIfNeeded;;
  result ← this_cache;
  result ← (if negb (default false (options ≫= includeDeleted))
            then Array_filter isNotDeleted result
            else mret result);
  match options ≫= sortBy with
  | Some by_title => sortByTitle result
  | Some by_createdAt => sortByCreation result
  | Some by_dueDate => sortByDueDate result
  | Some by_difficulty => sortByDifficulty result
  | None => mret result
  end.

Context `{Coercions}.

Definition statistics : M value :=
  loadIfNeeded;;
  all ← this_cache;
  total ← statsTotal all;
  byStatus ← statsByStatus all;
  byDifficulty ← statsByDifficulty all;
  mret (VObject {[ "total" := VNumber (Finite (Z.of_nat total));
                   "byStatus" := VObject byStatus;
                   "byDifficulty" := VObject byDifficulty ]}).



Definition relatedTasks (taskId : string) : M loc :=
  loadIfNeeded;;
  c ← this_cache;
  Array_filter_with (relatedTo taskId) c.

End TaskManager.
End TaskManager.

(** ** What the properties speak of *)
Section observations.
Context `{Platform}.

(** The collection of the manager: the references held by the cache,
    and the tasks behind them. *)
Definition collection (w : world) : list loc :=
  from_option (arr_at w) [] (cache w).

Definition records (w : world) : list object := obj_at w <$> collection w.

(** Every reference of the collection is an object of the heap. *)
Definition cache_allocated (w : world) : Prop :=
  Forall (λ l, is_Some (objs w !! l)) (collection w).

(** The declared type of [dueDate] is [string | undefined], and a due
    date is a text that the platform reads as a date. *)
Definition no_dueDate (t : object) : Prop := get_prop t "dueDate" = VUndefined.

Definition dueDate_at (t : object) (z : Z) : Prop :=
  ∃ s, get_prop t "dueDate" = VString s ∧ s ≠ "" ∧ Date_getTime (VString s) = Finite z.

Definition dueDate_ok (t : object) : Prop := no_dueDate t ∨ ∃ z, dueDate_at t z.

(** The order of due dates: a task with a date before a task with a
    later date, and before every task without one. *)
Definition due_le (t u : object) : Prop :=
  dueDate_ok t ∧
  (no_dueDate u ∨ ∃ zt zu, dueDate_at t zt ∧ dueDate_at u zu ∧ (zt ≤ zu)%Z).

(** A JSON value is written and read back as it is. *)
Definition json_value (v : value) : Prop := jsonify v = v.

(** A task that a JSON document can hold: every property is a JSON
    value or [undefined]. *)
Definition serialisable (t : object) : Prop :=
  ∀ k v, t !! k = Some v → v = VUndefined ∨ json_value v.

(** Two objects that read the same at every property. *)
Definition same_props (t u : object) : Prop := ∀ k, get_prop t k = get_prop u k.

(** The object written for a task and read back. *)
Definition reread (t : object) : object :=
  omap (λ x, match x with
             | VUndefined => None
             | _ => Some (jsonify x)
             end) t.

Definition rank (t : object) : Z := difficultyRank (get_prop t "difficulty").

(** The ids of a list of tasks, and the tasks that have a given id. *)
Definition ids (ts : list object) : list value := (λ t, get_prop t "id") <$> ts.

Definition createdAts (ts : list object) : list value :=
  (λ t, get_prop t "createdAt") <$> ts.

Definition with_id (id : string) (ts : list object) : list object :=
  filter (λ t, TaskManager.has_id id t) ts.

End observations.

(** ** More of what the properties speak of *)
Section more_observations.
Context `{Platform}.

(** The file holds what [writeAll] makes of the cache. *)
Definition disk_in_sync (w : world) : Prop :=
  ∃ a, cache w = Some a ∧ file w = Some (JSON_stringify (TaskRepository.snapshot w a)).

(** The same state with another file, as left by another program. *)
Definition with_file (f : option text) (w : world) : world :=
  {| objs := objs w; arrs := arrs w; file := f; writes := writes w; cache := cache w |}.

(** A record with a text [id] and a text [title]. *)
Definition has_shape (t : object) : Prop :=
  ∃ id title, t !! "id" = Some (VString id) ∧ t !! "title" = Some (VString title).

(** The references of the collection are those of distinct objects. *)
Definition cache_distinct (w : world) : Prop := NoDup (collection w).

(** The array of the cache is an array of the heap. *)
Definition cache_array (w : world) : Prop :=
  ∃ a, cache w = Some a ∧ is_Some (arrs w !! a).

(** The comparison function that [list] sorts with, and what [list]
    shows of the collection. *)
Definition comparison (s : SortBy) : object → object → number :=
  match s with
  | by_title => byTitle
  | by_createdAt => byCreation
  | by_dueDate => byDueDate
  | by_difficulty => byDifficulty
  end.

Definition listed (options : option ListOptions) (w : world) : list loc :=
  if default false (options ≫= includeDeleted) then collection w
  else filter (λ l, isNotDeleted (obj_at w l)) (collection w).

(** The tasks that are not deleted, in a list and in the collection. *)
Definition not_deleted (ts : list object) : list object :=
  filter (λ t, isNotDeleted t) ts.

Definition live (w : world) : list object := not_deleted (records w).

(** The time of creation of a task whose [createdAt] is a date, and the
    order of these times. *)
Definition created_at (t : object) (z : Z) : Prop :=
  Date_getTime (get_prop t "createdAt") = Finite z.

Definition created_le (t u : object) : Prop :=
  ∃ zt zu, created_at t zt ∧ created_at u zu ∧ (zt ≤ zu)%Z.

#[global] Instance created_at_dec t z : Decision (created_at t z).
Proof. unfold created_at. apply _. Defined.

(** The number of tasks whose [field] is the text [s]. *)
Definition count_of (field s : string) (ts : list object) : nat :=
  length (filter (λ t, strict_equals (get_prop t field) (VString s)) ts).


(** The declared type of [tags] and [relatedIds] is [string[] | undefined]. *)
Definition texts_or_absent (v : value) : Prop :=
  v = VUndefined ∨ ∃ elems, v = VArray elems.

Definition texts_in (v : value) (x : string) : Prop :=
  ∃ elems, v = VArray elems ∧ VString x ∈ elems.

(** The cache as [readAll] makes it: an array of the heap, of
    distinct references to objects of the heap. *)
Definition well_formed (w : world) : Prop :=
  cache_array w ∧ cache_allocated w ∧ cache_distinct w.

(** The methods of a task. *)
Definition Task_methods : list (loc → M unit) :=
  [Task.complete; Task.softDelete; Task.restore].

End more_observations.

(** A text that, as a key of the accumulator of a count, is a property
    of its own: [Object.prototype] has no property of that name, or the
    text is [__proto__]. *)
Definition own_key `{Coercions} (k : string) : Prop :=
  k = "__proto__" ∨ inherited_plus_one k = None.

Definition keyed_by `{Coercions} (field : string) (t : object) : Prop :=
  ∃ s, get_prop t field = VString s ∧ own_key s.

(** What a count holds at a key. *)
Definition counted (n : nat) : option value :=
  if decide (n = 0) then None else Some (VNumber (Finite (Z.of_nat n))).

(** ** A platform to run the model on

    JSON texts are identified with the documents they hold; dates are
    the UTC timestamps [YYYY-MM-DDTHH:MM:SSZ]. *)
Module Sample.

Definition digit (c : Ascii.ascii) : option Z :=
  let n := (Z.of_N (Ascii.N_of_ascii c) - 48)%Z in
  if (Z.leb 0 n && Z.leb n 9)%bool then Some n else None.

Fixpoint digits (s : string) (acc : Z) : option Z :=
  match s with
  | EmptyString => Some acc
  | String c s' => d ← digit c; digits s' (10 * acc + d)%Z
  end.

Definition field (s : string) (from len : nat) : option Z :=
  digits (String.substring from len s) 0.

(** Days from 1970-01-01 to a day of the civil calendar. *)
Definition days_from_civil (y m d : Z) : Z :=
  let y' := (if Z.leb m 2 then y - 1 else y)%Z in
  let era := (y' / 400)%Z in
  let yoe := (y' - era * 400)%Z in
  let doy := ((153 * (if Z.ltb 2 m then m - 3 else m + 9) + 2) / 5 + d - 1)%Z in
  let doe := (yoe * 365 + yoe / 4 - yoe / 100 + doy)%Z in
  (era * 146097 + doe - 719468)%Z.

Definition timestamp (s : string) : number :=
  if negb (Nat.eqb (String.length s) 20) then NaN
  else if negb (String.eqb (String.substring 4 1 s) "-" && String.eqb (String.substring 7 1 s) "-"
                && String.eqb (String.substring 10 1 s) "T" && String.eqb (String.substring 13 1 s) ":"
                && String.eqb (String.substring 16 1 s) ":" && String.eqb (String.substring 19 1 s) "Z")
  then NaN
  else
    match field s 0 4, field s 5 2, field s 8 2, field s 11 2, field s 14 2, field s 17 2 with
    | Some y, Some mo, Some d, Some h, Some mi, Some sec =>
        if (Z.leb 1 mo && Z.leb mo 12 && Z.leb 1 d && Z.leb d 31
            && Z.leb h 23 && Z.leb mi 59 && Z.leb sec 59)%bool
        then Finite ((((days_from_civil y mo d * 24 + h) * 60 + mi) * 60 + sec) * 1000)%Z
        else NaN
    | _, _, _, _, _, _ => NaN
    end.

Definition getTime (v : value) : number :=
  match v with
  | VString s => timestamp s
  | VNumber n => n
  | _ => NaN
  end.

Definition localeCompare (a b : value) : number :=
  match a, b with
  | VString x, VString y =>
      match String.compare x y with
      | Lt => Finite (-1)
      | Eq => Finite 0
      | Gt => Finite 1
      end
  | _, _ => NaN
  end.

Definition platform : Platform := {|
  text := value;
  JSON_stringify := jsonify;
  JSON_parse := Some;
  Date_getTime := getTime;
  String_localeCompare := localeCompare;
|}.

(** A manager that has not read anything yet, and no file. *)
Definition start : @world platform :=
  {| objs := ∅; arrs := ∅; file := None; writes := 0; cache := None |}.

Definition payload (id title : string) : object :=
  {[ "id" := VString id; "title" := VString title ]}.

End Sample.

(** Some states of the manager on that platform: after a first task
    has been added, after a second one with the id of the first, and
    after three tasks with and without due dates. *)
Module Run.

Definition now : string := "2025-01-01T00:00:00Z".

Definition one : @world Sample.platform :=
  (TaskManager.add "u1" now {[ "title" := VString "first" ]} Sample.start).2.

Definition twins : @world Sample.platform :=
  (TaskManager.add "u2" now (Sample.payload "u1" "second") one).2.

Definition three : @world Sample.platform :=
  let w1 := (TaskManager.add "a" now
               {[ "title" := VString "later"; "dueDate" := VString "2025-01-02T00:00:00Z";
                  "difficulty" := TaskDifficulty.HIGH ]} Sample.start).2 in
  let w2 := (TaskManager.add "b" now
               {[ "title" := VString "some day"; "difficulty" := VString "unknown" ]} w1).2 in
  (TaskManager.add "c" now
     {[ "title" := VString "late"; "dueDate" := VString "2024-12-31T00:00:00Z";
        "difficulty" := TaskDifficulty.LOW ]} w2).2.

(** Three tasks of which the second has a due date that is not a date. *)
Definition undated : @world Sample.platform :=
  let w1 := (TaskManager.add "a" now {[ "title" := VString "no date" ]} Sample.start).2 in
  let w2 := (TaskManager.add "b" now
               {[ "title" := VString "bad date"; "dueDate" := VString "garbage" ]} w1).2 in
  (TaskManager.add "c" now
     {[ "title" := VString "dated"; "dueDate" := VString "2025-01-02T00:00:00Z" ]} w2).2.

(** One task whose priority is not a number that JSON can write. *)
Definition unrated : @world Sample.platform :=
  (TaskManager.add "a" now
     {[ "title" := VString "no priority"; "priority" := VNumber NaN ]} Sample.start).2.

(** A manager that starts on the file left by [twins]. *)
Definition restarted : @world Sample.platform :=
  {| objs := ∅; arrs := ∅; file := file twins; writes := 0; cache := None |}.

Definition reloaded : @world Sample.platform :=
  (TaskManager.loadIfNeeded restarted).2.

End Run.

From stdpp Require Import pretty.

(** ** A runtime for the runs

    The coercions as V8 has them, on the values of a JSON document.
    The texts that are read as numbers are those of decimal digits,
    with or without a sign. *)
Module Runtime.

(** [String(v)] *)
Fixpoint to_text (v : value) : string :=
  match v with
  | VUndefined => "undefined"
  | VNull => "null"
  | VBool b => if b then "true" else "false"
  | VNumber (Finite z) => pretty.pretty z
  | VNumber NaN => "NaN"
  | VNumber Infinity => "Infinity"
  | VNumber NegInfinity => "-Infinity"
  | VString s => s
  | VArray elems =>
      String.concat ","
        (map (λ e, match e with
                   | VUndefined | VNull => ""
                   | _ => to_text e
                   end) elems)
  | VObject _ => "[object Object]"
  end.

(** [Number(v)] *)
Definition text_to_number (s : string) : number :=
  if String.eqb s "Infinity" then Infinity
  else if String.eqb s "-Infinity" then NegInfinity
  else if String.prefix "-" s && negb (String.eqb s "-")
       then match Sample.digits (String.substring 1 (String.length s - 1) s) 0 with
            | Some z => Finite (- z)
            | None => NaN
            end
       else match Sample.digits s 0 with
            | Some z => Finite z
            | None => NaN
            end.

Definition to_number (v : value) : number :=
  match v with
  | VUndefined => NaN
  | VNull => Finite 0
  | VBool b => Finite (if b then 1 else 0)
  | VNumber n => n
  | VString s => text_to_number s
  | VArray _ | VObject _ => text_to_number (to_text v)
  end.

(** The functions of [Object.prototype]. *)
Definition inherited : list string :=
  ["constructor"; "hasOwnProperty"; "isPrototypeOf"; "propertyIsEnumerable";
   "toLocaleString"; "toString"; "valueOf"; "__defineGetter__"; "__defineSetter__";
   "__lookupGetter__"; "__lookupSetter__"].

Definition coercions : Coercions := {|
  greater_or_equal := λ v n, Ok (number_ge (to_number v) n);
  ToPropertyKey := λ v, Ok (to_text v);
  inherited_plus_one := λ k,
    if String.eqb k "__proto__" then Some (VString "[object Object]1")
    else if bool_decide (k ∈ inherited)
         then Some (VString ("function " ++ (if String.eqb k "constructor" then "Object" else k)
                             ++ "() { [native code] }1"))
         else None;
|}.

End Runtime.

(** More states of the manager: the three tasks of the end-to-end
    property of the specification, with priorities 5, 2 and 4, due the
    day after [Run.now], never, and the day before, the third being
    related to the first; the same once the second is deleted; and two
    managers that start on a file written by hand. *)
Module Scenario.

Definition tasks : @world Sample.platform :=
  let w1 := (TaskManager.add "a" Run.now
               {[ "title" := VString "tomorrow"; "dueDate" := VString "2025-01-02T00:00:00Z";
                  "priority" := VNumber (Finite 5);
                  "createdAt" := VString "2024-12-03T00:00:00Z" ]} Sample.start).2 in
  let w2 := (TaskManager.add "b" Run.now
               {[ "title" := VString "never"; "priority" := VNumber (Finite 2);
                  "createdAt" := VString "2024-12-01T00:00:00Z" ]} w1).2 in
  (TaskManager.add "c" Run.now
     {[ "title" := VString "yesterday"; "dueDate" := VString "2024-12-31T00:00:00Z";
        "priority" := VNumber (Finite 4);
        "createdAt" := VString "2024-12-02T00:00:00Z";
        "relatedIds" := VArray [VString "a"] ]} w2).2.

Definition trimmed : @world Sample.platform :=
  (TaskManager.softDelete "b" tasks).2.

(** A document of four elements: a task, [null], a record without an
    id, and a task whose [relatedIds] is a number. *)
Definition document : value :=
  VArray [VObject {[ "id" := VString "a"; "title" := VString "kept" ]};
          VNull;
          VObject {[ "title" := VString "no id" ]};
          VObject {[ "id" := VString "b"; "title" := VString "";
                     "relatedIds" := VNumber (Finite 5) ]}].

Definition by_hand : @world Sample.platform :=
  {| objs := ∅; arrs := ∅; file := Some (document : @text Sample.platform); writes := 0; cache := None |}.

Definition read : @world Sample.platform :=
  (TaskManager.loadIfNeeded by_hand).2.

(** A file that holds a text where the array should be. *)
Definition garbled : @world Sample.platform :=
  {| objs := ∅; arrs := ∅; file := Some (VString "tasks" : @text Sample.platform); writes := 0; cache := None |}.

End Scenario.

(** * Properties *)

(** ** Running computations *)
Section running.
Context `{Platform}.

Lemma run_bind {A B} (m : M A) (f : A → M B) w a w' :
  m w = (Ok a, w') → (m ≫= f) w = f a w'.
Proof. intros Hm. unfold mbind, M_bind. by rewrite Hm. Qed.

Lemma run_bind_throw {A B} (m : M A) (f : A → M B) w e w' :
  m w = (Throw e, w') → (m ≫= f) w = (Throw e, w').
Proof. intros Hm. unfold mbind, M_bind. by rewrite Hm. Qed.

Lemma run_ret {A} (a : A) w : (mret a : M A) w = (Ok a, w).
Proof. reflexivity. Qed.

Lemma fresh_object (w : world) : objs w !! fresh (dom (objs w)) = None.
Proof. apply not_elem_of_dom, is_fresh. Qed.

Lemma fresh_array (w : world) : arrs w !! fresh (dom (arrs w)) = None.
Proof. apply not_elem_of_dom, is_fresh. Qed.

Lemma obj_at_new (w : world) l o : obj_at (set_objs <[l := o]> w) l = o.
Proof. unfold obj_at. simpl. by rewrite lookup_insert_eq. Qed.

Lemma obj_at_old (w : world) l l' o :
  l ≠ l' → obj_at (set_objs <[l := o]> w) l' = obj_at w l'.
Proof. intros. unfold obj_at. simpl. by rewrite lookup_insert_ne. Qed.

Lemma arr_at_new (w : world) a ls : arr_at (set_arrs <[a := ls]> w) a = ls.
Proof. unfold arr_at. simpl. by rewrite lookup_insert_eq. Qed.

Lemma arr_at_old (w : world) a a' ls :
  a ≠ a' → arr_at (set_arrs <[a := ls]> w) a' = arr_at w a'.
Proof. intros. unfold arr_at. simpl. by rewrite lookup_insert_ne. Qed.

(** Reading the heaps through a change of another part of the state. *)
Lemma obj_at_set_file d (w : world) : obj_at (set_file d w) = obj_at w.
Proof. reflexivity. Qed.

Lemma obj_at_set_cache c (w : world) : obj_at (set_cache c w) = obj_at w.
Proof. reflexivity. Qed.

Lemma obj_at_set_arrs f (w : world) : obj_at (set_arrs f w) = obj_at w.
Proof. reflexivity. Qed.

Lemma arr_at_set_file d (w : world) : arr_at (set_file d w) = arr_at w.
Proof. reflexivity. Qed.

Lemma arr_at_set_cache c (w : world) : arr_at (set_cache c w) = arr_at w.
Proof. reflexivity. Qed.

Lemma arr_at_set_objs f (w : world) : arr_at (set_objs f w) = arr_at w.
Proof. reflexivity. Qed.

(** An object that shows a property is an object of the heap. *)
Lemma obj_at_allocated (w : world) l k v :
  get_prop (obj_at w l) k = v → v ≠ VUndefined → is_Some (objs w !! l).
Proof.
  unfold obj_at. destruct (objs w !! l) as [o|]; [eauto|].
  simpl. unfold get_prop. rewrite lookup_empty. simpl. congruence.
Qed.

Lemma allocated_not_fresh (w : world) l :
  is_Some (objs w !! l) → l ≠ fresh (dom (objs w)).
Proof. intros [o Ho] ->. by rewrite fresh_object in Ho. Qed.

End running.

Create Rewrite HintDb heap.
#[global] Hint Rewrite @obj_at_set_file @obj_at_set_cache @obj_at_set_arrs
  @arr_at_set_file @arr_at_set_cache @arr_at_set_objs
  @obj_at_new @arr_at_new : heap.

(** ** Sorting *)
Section sort_facts.
Context {A : Type} (cmp : A → A → number).

Lemma sort_insert_perm a l : sort_insert cmp a l ≡ₚ a :: l.
Proof.
  induction l as [|b l IH]; simpl; [done|].
  destruct (goes_after cmp a b); [|done].
  rewrite IH. apply Permutation_swap.
Qed.

Lemma Array_sort_perm l : Array_sort cmp l ≡ₚ l.
Proof.
  induction l as [|a l IH]; simpl; [done|].
  rewrite sort_insert_perm. by rewrite IH.
Qed.

Lemma Array_sort_length l : length (Array_sort cmp l) = length l.
Proof. by rewrite Array_sort_perm. Qed.

(** A transitive order that the comparison decides is an order of the
    sorted array. *)
Context (R : A → A → Prop) `{!Transitive R}.

Lemma sort_insert_sorted a l :
  (∀ b, b ∈ l → if goes_after cmp a b then R b a else R a b) →
  StronglySorted R l → StronglySorted R (sort_insert cmp a l).
Proof.
  induction l as [|b l IH]; intros Hcmp Hl; simpl.
  - repeat constructor.
  - apply StronglySorted_cons in Hl as [Hb Hl].
    pose proof (Hcmp b (list_elem_of_here _ _)) as Hab.
    destruct (goes_after cmp a b).
    + apply StronglySorted_cons. split.
      * rewrite sort_insert_perm. by constructor.
      * apply IH; [|done]. intros c Hc. apply Hcmp. by right.
    + apply StronglySorted_cons. split.
      * constructor; [done|]. eapply Forall_impl; [exact Hb|].
        intros c Hbc. by transitivity b.
      * by apply StronglySorted_cons.
Qed.

Lemma Array_sort_sorted l :
  (∀ a b, a ∈ l → b ∈ l → if goes_after cmp a b then R b a else R a b) →
  StronglySorted R (Array_sort cmp l).
Proof.
  induction l as [|a l IH]; intros Hcmp; simpl; [constructor|].
  apply sort_insert_sorted.
  - intros b Hb. rewrite Array_sort_perm in Hb.
    apply Hcmp; [left|by right].
  - apply IH. intros b c Hb Hc. apply Hcmp; by right.
Qed.

End sort_facts.

Lemma StronglySorted_fmap {A B} (f : A → B) (R : B → B → Prop) (l : list A) :
  StronglySorted (λ x y, R (f x) (f y)) l → StronglySorted R (f <$> l).
Proof.
  induction 1 as [|a l Hl IH Ha]; simpl; constructor; [done|].
  by apply Forall_fmap.
Qed.

Lemma StronglySorted_lookup {A} (R : A → A → Prop) (l : list A) i j x y :
  StronglySorted R l → l !! i = Some x → l !! j = Some y → i < j → R x y.
Proof.
  intros Hl. revert i j. induction Hl as [|a l Hl IH Ha]; intros i j Hi Hj Hij.
  - done.
  - destruct j as [|j]; [lia|]. destruct i as [|i]; simpl in *.
    + simplify_eq. rewrite Forall_forall in Ha. apply Ha.
      by eapply list_elem_of_lookup_2.
    + eapply IH; eauto. lia.
Qed.

(** ** The pure helpers *)
Section helper_facts.
Context `{Platform}.

Lemma strict_equals_string d s : strict_equals d (VString s) = true ↔ d = VString s.
Proof.
  destruct d as [| |b|n|s'|l|o]; simpl; try (split; [done|congruence]).
  - destruct n; split; (done || congruence).
  - rewrite String.eqb_eq. split; congruence.
Qed.

Lemma strict_equals_string_false d s : strict_equals d (VString s) = false ↔ d ≠ VString s.
Proof. rewrite <- strict_equals_string. by destruct (strict_equals _ _). Qed.

Lemma difficultyRank_range d : (1 ≤ difficultyRank d ≤ 3)%Z.
Proof. unfold difficultyRank. repeat case_match; lia. Qed.

(** The sorting helpers copy the array and sort the copy. *)
Lemma sort_copy_run (cmp : object → object → number) (tasks : loc) (w : world) :
  (copy ← Array_spread tasks; Array_sort_by cmp copy) w
  = (Ok (fresh (dom (arrs w))),
     set_arrs <[fresh (dom (arrs w)) :=
                  Array_sort (λ x y, cmp (obj_at w x) (obj_at w y)) (arr_at w tasks)]> w).
Proof.
  unfold mbind, M_bind, Array_spread, new_array, Array_sort_by. simpl.
  rewrite arr_at_new. unfold set_arrs. simpl. by rewrite insert_insert_eq.
Qed.

Lemma sort_copy_fresh (w : world) (tasks : loc) ls :
  is_Some (arrs w !! tasks) →
  fresh (dom (arrs w)) ≠ tasks
  ∧ arrs (set_arrs <[fresh (dom (arrs w)) := ls]> w) !! tasks = arrs w !! tasks.
Proof.
  intros [l Hl].
  assert (fresh (dom (arrs w)) ≠ tasks) as Hne.
  { intros Heq. rewrite <- Heq, fresh_array in Hl. done. }
  split; [done|]. simpl. by rewrite lookup_insert_ne.
Qed.

Lemma tasks_of_sorted (w : world) a ls :
  tasks_of (set_arrs <[a := ls]> w) a = obj_at w <$> ls.
Proof. unfold tasks_of. by rewrite arr_at_new. Qed.

Lemma dueDate_at_inj t z z' : dueDate_at t z → dueDate_at t z' → z = z'.
Proof. intros (s & Hs & _ & Hz) (s' & Hs' & _ & Hz'). congruence. Qed.

Lemma dueDate_at_not_none t z : dueDate_at t z → ¬ no_dueDate t.
Proof. intros (s & Hs & _) Hn. unfold no_dueDate in Hn. congruence. Qed.

#[local] Instance due_le_trans : Transitive due_le.
Proof.
  intros t u v [Ht Htu] [Hu Huv]. split; [done|].
  destruct Huv as [Hv|(zu & zv & Hzu & Hzv & Hle)]; [by left|].
  destruct Htu as [Hnu|(zt & zu' & Hzt & Hzu' & Hle')].
  - by apply dueDate_at_not_none in Hzu.
  - right. exists zt, zv. repeat split; try done.
    rewrite (dueDate_at_inj _ _ _ Hzu Hzu') in Hle. lia.
Qed.

(** The key that [sortByDueDate] compares. *)
Lemma due_key_none t :
  no_dueDate t →
  (if truthy (get_prop t "dueDate") then Date_getTime (get_prop t "dueDate") else Infinity)
  = Infinity.
Proof. unfold no_dueDate. by intros ->. Qed.

Lemma due_key_at t z :
  dueDate_at t z →
  (if truthy (get_prop t "dueDate") then Date_getTime (get_prop t "dueDate") else Infinity)
  = Finite z.
Proof.
  intros (s & -> & Hs & Hz). simpl.
  destruct (String.eqb_spec s ""); [done|]. simpl. done.
Qed.

Lemma byDueDate_decides t u :
  dueDate_ok t → dueDate_ok u →
  if goes_after byDueDate t u then due_le u t else due_le t u.
Proof.
  intros Ht Hu. unfold goes_after, byDueDate. cbv zeta.
  destruct Ht as [Ht|[zt Ht]], Hu as [Hu|[zu Hu]].
  - rewrite !due_key_none by done. simpl. split; [by left|by left].
  - rewrite (due_key_none t), (due_key_at u zu) by done. simpl.
    split; [right; by exists zu|by left].
  - rewrite (due_key_at t zt), (due_key_none u) by done. simpl.
    split; [right; by exists zt|by left].
  - rewrite (due_key_at t zt), (due_key_at u zu) by done. simpl.
    destruct (Z.ltb_spec 0 (zt - zu)).
    + split; [right; by exists zu|]. right. exists zu, zt. repeat split; (done || lia).
    + split; [right; by exists zt|]. right. exists zt, zu. repeat split; (done || lia).
Qed.

Lemma byDifficulty_decides t u :
  if goes_after byDifficulty t u then (rank u ≤ rank t)%Z else (rank t ≤ rank u)%Z.
Proof.
  unfold goes_after, byDifficulty, rank. simpl.
  destruct (Z.ltb_spec 0 (difficultyRank (get_prop t "difficulty")
                          - difficultyRank (get_prop u "difficulty"))); lia.
Qed.

End helper_facts.

Section helper_claims.
Context `{Platform}.

(** C6. [isOverdue now t] holds exactly when [t] has a due date that is
    strictly earlier than [now]; a task without a due date is never
    overdue, whatever [now] is.  The due date of a task is a text or is
    absent, as [ITask] declares, and the empty text is not a date. *)
Theorem isOverdue_iff (nowIso : string) (t : object) :
  Date_getTime (VString "") = NaN →
  (no_dueDate t ∨ ∃ s, get_prop t "dueDate" = VString s) →
  (isOverdue nowIso t = true ↔
     ∃ s, get_prop t "dueDate" = VString s
          ∧ number_lt (Date_getTime (VString s)) (Date_getTime (VString nowIso)) = true)
  ∧ (no_dueDate t → ∀ now, isOverdue now t = false).
Proof.
  intros Hempty Hty. split.
  - unfold isOverdue. destruct Hty as [Hno|[s Hs]].
    + rewrite Hno. simpl. split; [done|]. intros (s & Hs & _).
      unfold no_dueDate in Hno. congruence.
    + rewrite Hs. simpl. destruct (String.eqb_spec s "") as [->|Hne]; simpl.
      * split; [done|]. intros (s' & Hs' & Hlt).
        assert (s' = "") as -> by congruence.
        rewrite Hempty in Hlt. done.
      * split; [by exists s|]. intros (s' & Hs' & Hlt).
        by assert (s' = s) as -> by congruence.
  - intros Hno now. unfold isOverdue. by rewrite Hno.
Qed.

(** C7, as the program has it.  When the due date of every task is
    absent or is a text that is a date, [sortByDueDate] returns a new
    array and leaves its argument as it was; the new array holds the
    same tasks, every task without a due date comes after all the
    tasks that have one, and the tasks that have one are in ascending
    order of their dates. *)
Theorem sortByDueDate_copy_sorted (w : world) (tasks : loc) :
  is_Some (arrs w !! tasks) →
  Forall dueDate_ok (tasks_of w tasks) →
  ∃ copy w',
    sortByDueDate tasks w = (Ok copy, w')
    ∧ copy ≠ tasks
    ∧ arrs w !! copy = None
    ∧ arrs w' !! tasks = arrs w !! tasks
    ∧ objs w' = objs w
    ∧ arr_at w' copy ≡ₚ arr_at w tasks
    ∧ (∀ i j t u,
         tasks_of w' copy !! i = Some t → tasks_of w' copy !! j = Some u →
         no_dueDate t → (∃ z, dueDate_at u z) → j < i)
    ∧ (∀ i j t u zt zu,
         tasks_of w' copy !! i = Some t → tasks_of w' copy !! j = Some u →
         dueDate_at t zt → dueDate_at u zu → i < j → (zt ≤ zu)%Z).
Proof.
  intros Harr Hok. eexists _, _. unfold sortByDueDate.
  split; [apply sort_copy_run|].
  destruct (sort_copy_fresh w tasks
              (Array_sort (λ x y, byDueDate (obj_at w x) (obj_at w y)) (arr_at w tasks))
              Harr) as [Hne Hsame].
  split; [done|]. split; [apply fresh_array|]. split; [done|]. split; [done|].
  split; [rewrite arr_at_new; apply Array_sort_perm|].
  rewrite tasks_of_sorted.
  assert (StronglySorted due_le
            (obj_at w <$> Array_sort (λ x y, byDueDate (obj_at w x) (obj_at w y))
                                     (arr_at w tasks))) as Hsorted.
  { apply StronglySorted_fmap, Array_sort_sorted.
    - intros x y z. apply due_le_trans.
    - intros a b Ha Hb. apply byDueDate_decides.
      + rewrite Forall_forall in Hok. apply Hok. unfold tasks_of.
        by apply list_elem_of_fmap_2.
      + rewrite Forall_forall in Hok. apply Hok. unfold tasks_of.
        by apply list_elem_of_fmap_2. }
  split.
  - intros i j t u Hi Hj Hno [zu Hzu].
    destruct (decide (j < i)) as [|Hge]; [done|]. exfalso.
    destruct (decide (i = j)) as [->|Hij].
    + rewrite Hi in Hj. simplify_eq. by apply dueDate_at_not_none in Hzu.
    + assert (i < j) as Hlt by lia.
      destruct (StronglySorted_lookup _ _ _ _ _ _ Hsorted Hi Hj Hlt) as [_ Hle].
      destruct Hle as [Hnu|(zt & _ & Hzt & _)].
      * by apply dueDate_at_not_none in Hzu.
      * by apply dueDate_at_not_none in Hzt.
  - intros i j t u zt zu Hi Hj Hzt Hzu Hlt.
    destruct (StronglySorted_lookup _ _ _ _ _ _ Hsorted Hi Hj Hlt) as [_ Hle].
    destruct Hle as [Hnu|(zt' & zu' & Hzt' & Hzu' & Hle)].
    + by apply dueDate_at_not_none in Hzu.
    + rewrite (dueDate_at_inj _ _ _ Hzt Hzt'), (dueDate_at_inj _ _ _ Hzu Hzu'). done.
Qed.

(** C8. [sortByDifficulty] returns a copy in ascending order of the rank
    of the difficulty, where low is 1, medium is 2, high is 3, and any
    other value of the difficulty ranks as medium, 2. *)
Theorem sortByDifficulty_copy_sorted (w : world) (tasks : loc) :
  is_Some (arrs w !! tasks) →
  ∃ copy w',
    sortByDifficulty tasks w = (Ok copy, w')
    ∧ copy ≠ tasks
    ∧ arrs w !! copy = None
    ∧ arrs w' !! tasks = arrs w !! tasks
    ∧ objs w' = objs w
    ∧ arr_at w' copy ≡ₚ arr_at w tasks
    ∧ StronglySorted (λ t u, (rank t ≤ rank u)%Z) (tasks_of w' copy)
    ∧ difficultyRank TaskDifficulty.LOW = 1%Z
    ∧ difficultyRank TaskDifficulty.MEDIUM = 2%Z
    ∧ difficultyRank TaskDifficulty.HIGH = 3%Z
    ∧ (∀ d, d ≠ TaskDifficulty.LOW → d ≠ TaskDifficulty.MEDIUM →
            d ≠ TaskDifficulty.HIGH → difficultyRank d = 2%Z).
Proof.
  intros Harr. eexists _, _. unfold sortByDifficulty.
  split; [apply sort_copy_run|].
  destruct (sort_copy_fresh w tasks
              (Array_sort (λ x y, byDifficulty (obj_at w x) (obj_at w y)) (arr_at w tasks))
              Harr) as [Hne Hsame].
  split; [done|]. split; [apply fresh_array|]. split; [done|]. split; [done|].
  split; [rewrite arr_at_new; apply Array_sort_perm|].
  split.
  { rewrite tasks_of_sorted. apply StronglySorted_fmap, Array_sort_sorted.
    - intros x y z ??. lia.
    - intros a b _ _. apply byDifficulty_decides. }
  do 3 (split; [done|]).
  intros d Hl Hm Hh. unfold difficultyRank.
  apply strict_equals_string_false in Hl, Hm, Hh. 
  unfold TaskDifficulty.LOW, TaskDifficulty.MEDIUM, TaskDifficulty.HIGH.
  by rewrite Hl, Hm, Hh.
Qed.

End helper_claims.

(** ** class Task *)
Section Task_claims.
Context `{Platform}.

Lemma get_prop_absent (o : object) k : o !! k = None → get_prop o k = VUndefined.
Proof. unfold get_prop. by intros ->. Qed.

Lemma get_prop_present (o : object) k v : o !! k = Some v → get_prop o k = v.
Proof. unfold get_prop. by intros ->. Qed.

Lemma get_prop_insert (o : object) k v : get_prop (<[k := v]> o) k = v.
Proof. unfold get_prop. by rewrite lookup_insert_eq. Qed.

Lemma get_prop_insert_ne (o : object) k k' v :
  k ≠ k' → get_prop (<[k := v]> o) k' = get_prop o k'.
Proof. intros. unfold get_prop. by rewrite lookup_insert_ne. Qed.

(** C1. A payload without a title, or with the empty title, is refused
    with the validation error and nothing is built.  A payload with a
    title that is a non-empty text gives a new task with that title,
    in which every field the payload leaves out has its default:
    difficulty medium, priority 3, status todo, deleted false, no tags
    and no related tasks. *)
Theorem Task_constructor_title_and_defaults (uuid now : string) (payload : object) (w : world) :
  ((payload !! "title" = None ∨ payload !! "title" = Some (VString "")) →
   Task.constructor uuid now payload w
   = (Throw (Error "Task must have a non-empty title"), w))
  ∧ (∀ s, payload !! "title" = Some (VString s) → s ≠ "" →
     ∃ t o,
       Task.constructor uuid now payload w = (Ok t, set_objs <[t := o]> w)
       ∧ objs w !! t = None
       ∧ get_prop o "title" = VString s
       ∧ (payload !! "difficulty" = None → get_prop o "difficulty" = TaskDifficulty.MEDIUM)
       ∧ (payload !! "priority" = None → get_prop o "priority" = VNumber (Finite 3))
       ∧ (payload !! "status" = None → get_prop o "status" = TaskStatus.TODO)
       ∧ (payload !! "deleted" = None → get_prop o "deleted" = VBool false)
       ∧ (payload !! "tags" = None → get_prop o "tags" = VArray [])
       ∧ (payload !! "relatedIds" = None → get_prop o "relatedIds" = VArray [])).
Proof.
  split.
  - intros [Ht|Ht]; unfold Task.constructor.
    + by rewrite (get_prop_absent _ _ Ht).
    + by rewrite (get_prop_present _ _ _ Ht).
  - intros s Ht Hs. unfold Task.constructor.
    rewrite (get_prop_present _ _ _ Ht). simpl.
    destruct (String.eqb_spec s ""); [done|]. simpl.
    eexists _, _. split; [reflexivity|]. split; [apply fresh_object|].
    simpl. split.
    { by rewrite get_prop_insert_ne, get_prop_insert. }
    repeat split; intros Hd; rewrite (get_prop_absent _ _ Hd);
      rewrite !get_prop_insert_ne by done; by rewrite get_prop_insert.
Qed.

End Task_claims.

(** ** class TaskRepository *)
Section TaskRepository_claims.
Context `{Platform}.

(** The objects made for the records of a document are new, hold the
    records in order, and nothing else changes. *)
Lemma new_objects_run (os : list object) (w : world) :
  ∃ ls w',
    TaskRepository.new_objects os w = (Ok ls, w')
    ∧ arrs w' = arrs w ∧ file w' = file w ∧ writes w' = writes w ∧ cache w' = cache w
    ∧ objs w ⊆ objs w'
    ∧ obj_at w' <$> ls = os
    ∧ Forall (λ l, objs w !! l = None ∧ is_Some (objs w' !! l)) ls.
Proof.
  revert w. induction os as [|o os IH]; intros w; simpl.
  - exists [], w. by repeat split.
  - destruct (IH (set_objs <[fresh (dom (objs w)) := o]> w))
      as (ls & w' & Hrun & Ha & Hf & Hw & Hc & Hsub & Hos & Hnew).
    exists (fresh (dom (objs w)) :: ls), w'.
    split.
    { unfold mbind, M_bind, new_object. simpl. by rewrite Hrun. }
    simpl in *. repeat (split; [done|]).
    assert (objs w ⊆ <[fresh (dom (objs w)) := o]> (objs w)) as Hstep
      by apply insert_subseteq, fresh_object.
    split; [by etrans|]. split.
    + f_equal; [|done]. unfold obj_at.
      erewrite lookup_weaken; [| |exact Hsub]; [done|]. apply lookup_insert_eq.
    + constructor.
      * split; [apply fresh_object|]. exists o.
        eapply lookup_weaken; [|exact Hsub]. apply lookup_insert_eq.
      * eapply Forall_impl; [exact Hnew|]. simpl. intros l [Hl Hl'].
        split; [|done]. eapply lookup_weaken_None; [exact Hl|exact Hstep].
Qed.

Lemma readAll_array (w : world) data elems :
  file w = Some data →
  JSON_parse data = Some (VArray elems) →
  TaskRepository.readAll w
  = (ls ← TaskRepository.new_objects
            (omap TaskRepository.as_object
               (filter (λ t, TaskRepository.minimal_shape t) elems));
     new_array ls) w.
Proof.
  intros Hfile Hparse.
  unfold TaskRepository.readAll, try_catch, TaskRepository.fs_readFile,
    TaskRepository.parse.
  unfold mbind at 1 2, M_bind at 1 2. rewrite Hfile, Hparse. simpl.
  destruct (new_objects_run
              (omap TaskRepository.as_object
                 (filter (λ t, TaskRepository.minimal_shape t) elems)) w)
    as (ls & w' & Hrun & _).
  unfold mbind, M_bind. rewrite Hrun. reflexivity.
Qed.

(** What is read back of one task. *)
Lemma lookup_reread (t : object) k :
  reread t !! k = match t !! k with
                  | Some VUndefined | None => None
                  | Some v => Some (jsonify v)
                  end.
Proof.
  unfold reread. rewrite lookup_omap.
  destruct (t !! k) as [v|]; [|done]. by destruct v.
Qed.

Lemma typeof_jsonify_string v :
  String.eqb (typeof (jsonify v)) "string" = String.eqb (typeof v) "string".
Proof. destruct v as [| |b|n|s|l|o]; try done. by destruct n. Qed.

Lemma typeof_reread_string (t : object) k :
  String.eqb (typeof (get_prop (reread t) k)) "string"
  = String.eqb (typeof (get_prop t k)) "string".
Proof.
  unfold get_prop. rewrite lookup_reread.
  destruct (t !! k) as [v|]; [|done].
  destruct v; try done. simpl. apply (typeof_jsonify_string (VNumber n)).
Qed.

Lemma minimal_shape_reread (t : object) :
  TaskRepository.minimal_shape (VObject (reread t))
  = TaskRepository.minimal_shape (VObject t).
Proof.
  unfold TaskRepository.minimal_shape. simpl.
  by rewrite !typeof_reread_string.
Qed.

Lemma kept_records (ts : list object) :
  omap TaskRepository.as_object
    (filter (λ t, TaskRepository.minimal_shape t) (jsonify <$> (VObject <$> ts)))
  = reread <$> filter (λ t, TaskRepository.minimal_shape (VObject t)) ts.
Proof.
  induction ts as [|t ts IH]; [done|].
  rewrite !fmap_cons. rewrite !filter_cons.
  change (jsonify (VObject t)) with (VObject (reread t)).
  rewrite minimal_shape_reread.
  destruct (TaskRepository.minimal_shape (VObject t)) eqn:Hshape; simpl.
  - f_equal. exact IH.
  - exact IH.
Qed.

Lemma same_props_reread (t : object) : serialisable t → same_props t (reread t).
Proof.
  intros Ht k. unfold get_prop. rewrite lookup_reread.
  destruct (t !! k) as [v|] eqn:Hk; [|done].
  destruct (Ht k v Hk) as [->|Hv]; [done|].
  unfold json_value in Hv. destruct v; try (simpl in Hv; discriminate); exact (eq_sym Hv).
Qed.

(** C9, as the program has it.  Writing an array of tasks and reading
    the file back gives a new array of the tasks that have a text [id]
    and a text [title], in the order they were written; the others are
    left out and no error is raised.  Each task whose properties are
    values that a JSON document can hold is read back with the same
    value at every property; what is read back of any task is given
    by [reread]. *)
Theorem writeAll_readAll_roundtrip (w : world) (tasks : loc) :
  (∀ l, JSON_parse (JSON_stringify (VArray l)) = Some (jsonify (VArray l))) →
  ∃ r w',
    (TaskRepository.writeAll tasks;; TaskRepository.readAll) w = (Ok r, w')
    ∧ tasks_of w' r
      = reread <$> filter (λ t, TaskRepository.minimal_shape (VObject t)) (tasks_of w tasks)
    ∧ (Forall serialisable (tasks_of w tasks) →
       Forall2 same_props
         (filter (λ t, TaskRepository.minimal_shape (VObject t)) (tasks_of w tasks))
         (tasks_of w' r))
    ∧ objs w ⊆ objs w'
    ∧ arrs w ⊆ arrs w'.
Proof.
  intros Hjson.
  set (w1 := set_file (JSON_stringify (TaskRepository.snapshot w tasks)) w).
  assert (TaskRepository.writeAll tasks w = (Ok (), w1)) as Hwrite by reflexivity.
  pose proof (readAll_array w1 _ (jsonify <$> (VObject <$> tasks_of w tasks))
                eq_refl (Hjson _)) as Hread.
  destruct (new_objects_run
              (omap TaskRepository.as_object
                 (filter (λ t, TaskRepository.minimal_shape t)
                    (jsonify <$> (VObject <$> tasks_of w tasks)))) w1)
    as (ls & w2 & Hrun & Ha & Hf & Hw & Hc & Hsub & Hos & Hnew).
  rewrite (run_bind _ _ _ _ _ Hrun) in Hread.
  exists (fresh (dom (arrs w2))), (set_arrs <[fresh (dom (arrs w2)) := ls]> w2).
  assert (tasks_of (set_arrs <[fresh (dom (arrs w2)) := ls]> w2) (fresh (dom (arrs w2)))
          = reread <$> filter (λ t, TaskRepository.minimal_shape (VObject t))
                         (tasks_of w tasks)) as Hback.
  { rewrite tasks_of_sorted, Hos. apply kept_records. }
  split; [by rewrite (run_bind _ _ _ _ _ Hwrite)|].
  split; [done|]. split.
  - intros Hser. rewrite Hback. apply Forall2_fmap_r, Forall_Forall2_diag.
    apply Forall_forall. intros t Ht. apply list_elem_of_filter in Ht as [_ Ht].
    apply same_props_reread. rewrite Forall_forall in Hser. by apply Hser.
  - split; [done|]. simpl. rewrite Ha. apply insert_subseteq.
    rewrite <- Ha. apply fresh_array.
Qed.

End TaskRepository_claims.

(** ** class TaskManager *)
Section TaskManager_facts.
Context `{Platform}.

Lemma loadIfNeeded_loaded (w : world) a :
  cache w = Some a → TaskManager.loadIfNeeded w = (Ok (), w).
Proof. unfold TaskManager.loadIfNeeded. by intros ->. Qed.

(** Once [loadIfNeeded] has returned, the cache holds an array. *)
Lemma loadIfNeeded_Ok (w w1 : world) :
  TaskManager.loadIfNeeded w = (Ok (), w1) → ∃ a, cache w1 = Some a.
Proof.
  unfold TaskManager.loadIfNeeded. destruct (cache w) as [a|] eqn:Hc.
  - intros [= <-]. eauto.
  - unfold mbind, M_bind. destruct (TaskRepository.readAll w) as [[c|e] w2]; [|done].
    unfold TaskManager.put_cache. intros [= <-]. eauto.
Qed.

Lemma this_cache_run (w : world) a :
  cache w = Some a → TaskManager.this_cache w = (Ok a, w).
Proof. unfold TaskManager.this_cache. by intros ->. Qed.

Lemma collection_loaded (w : world) a : cache w = Some a → collection w = arr_at w a.
Proof. unfold collection. by intros ->. Qed.

Lemma writeAll_run (w : world) c :
  TaskRepository.writeAll c w
  = (Ok (), set_file (JSON_stringify (TaskRepository.snapshot w c)) w).
Proof. reflexivity. Qed.

(** Counting the tasks with an id. *)
Lemma filter_complement_length {A} (P : A → Prop) `{!∀ x, Decision (P x)} (l : list A) :
  length (filter (λ x, ¬ P x) l) + length (filter P l) = length l.
Proof.
  induction l as [|x l IH]; [done|].
  rewrite !filter_cons. destruct (decide (P x)).
  - rewrite decide_False by tauto. simpl. lia.
  - rewrite decide_True by done. simpl. lia.
Qed.

Lemma filter_fmap_comm {A B} (f : A → B) (P : B → Prop) `{!∀ x, Decision (P x)}
    (l : list A) :
  f <$> filter (λ x, P (f x)) l = filter P (f <$> l).
Proof.
  induction l as [|x l IH]; [done|].
  rewrite fmap_cons, !filter_cons.
  destruct (decide (P (f x))); [rewrite fmap_cons|]; by rewrite IH.
Qed.

Lemma filter_all {A} (P : A → Prop) `{!∀ x, Decision (P x)} (l : list A) :
  length (filter P l) = length l → filter P l = l.
Proof.
  induction l as [|x l IH]; [done|].
  rewrite filter_cons. destruct (decide (P x)); simpl.
  - intros [= Hlen]. by rewrite IH.
  - intros Hlen. pose proof (length_filter P l). lia.
Qed.

Lemma records_without id (w : world) (ls : list loc) :
  obj_at w <$> filter (λ l, negb (TaskManager.has_id id (obj_at w l))) ls
  = filter (λ t, ¬ TaskManager.has_id id t) (obj_at w <$> ls).
Proof.
  rewrite <- (filter_fmap_comm (obj_at w) (λ t, ¬ TaskManager.has_id id t)).
  f_equal. apply list_filter_iff. intros l. apply negb_True.
Qed.

Lemma with_id_NoDup id (ts : list object) :
  NoDup (ids ts) → length (with_id id ts) ≤ 1.
Proof.
  unfold with_id, ids. induction ts as [|t ts IH]; [simpl; lia|].
  rewrite fmap_cons, NoDup_cons, filter_cons. intros [Hnotin Hnd].
  destruct (decide (TaskManager.has_id id t)) as [Ht|Ht]; [|by apply IH].
  assert (filter (λ t, TaskManager.has_id id t) ts = []) as ->; [|simpl; lia].
  destruct (filter _ ts) as [|u us] eqn:Hf; [done|]. exfalso.
  assert (u ∈ filter (λ t, TaskManager.has_id id t) ts) as Hu by (rewrite Hf; left).
  apply list_elem_of_filter in Hu as [Hu Hin]. apply Hnotin.
  apply Is_true_true, strict_equals_string in Ht, Hu.
  rewrite Ht, <- Hu. apply list_elem_of_fmap. by exists u.
Qed.

End TaskManager_facts.

(** The runs of the operations of the manager, from a state in which
    the collection is loaded. *)
Section TaskManager_runs.
Context `{Platform}.

Ltac unfold_run :=
  unfold mbind, M_bind, TaskManager.this_cache, Array_length, Array_filter,
    Array_find, Array_findIndex, Array_get, Array_set, Array_push, assign, deref,
    new_array, new_object, TaskManager.put_cache, TaskRepository.writeAll,
    TaskRepository.fs_mkdir, TaskRepository.stringify, TaskRepository.fs_writeFile,
    mret, M_ret.

(** The state once the collection has been written to the file. *)
Lemma hardDelete_run (id : string) (w w1 : world) a :
  TaskManager.loadIfNeeded w = (Ok (), w1) →
  cache w1 = Some a →
  let c := fresh (dom (arrs w1)) in
  let kept := filter (λ l, negb (TaskManager.has_id id (obj_at w1 l))) (arr_at w1 a) in
  let w2 := set_cache (Some c) (set_arrs <[c := kept]> w1) in
  TaskManager.hardDelete id w
  = (Ok (Nat.ltb (length kept) (length (arr_at w1 a))),
     set_file (JSON_stringify (TaskRepository.snapshot w2 c)) w2).
Proof.
  intros Hload Ha. unfold TaskManager.hardDelete.
  rewrite (run_bind _ _ _ _ _ Hload). unfold_run.
  rewrite Ha. simpl. rewrite Ha. simpl. autorewrite with heap. reflexivity.
Qed.

Lemma update_run_none (id : string) (changes : object) (w w1 : world) a :
  TaskManager.loadIfNeeded w = (Ok (), w1) →
  cache w1 = Some a →
  list_find (λ l, TaskManager.has_id id (obj_at w1 l)) (arr_at w1 a) = None →
  TaskManager.update id changes w = (Ok None, w1).
Proof.
  intros Hload Ha Hfind. unfold TaskManager.update.
  rewrite (run_bind _ _ _ _ _ Hload). unfold_run.
  rewrite Ha. simpl. by rewrite Hfind.
Qed.

Lemma update_run_some (id : string) (changes : object) (w w1 : world) a idx current :
  TaskManager.loadIfNeeded w = (Ok (), w1) →
  cache w1 = Some a →
  list_find (λ l, TaskManager.has_id id (obj_at w1 l)) (arr_at w1 a) = Some (idx, current) →
  let updated := fresh (dom (objs w1)) in
  let w2 := set_arrs <[a := <[idx := updated]> (arr_at w1 a)]>
              (set_objs <[updated := <["id" := get_prop (obj_at w1 current) "id"]>
                                       (changes ∪ obj_at w1 current)]> w1) in
  TaskManager.update id changes w
  = (Ok (Some updated), set_file (JSON_stringify (TaskRepository.snapshot w2 a)) w2).
Proof.
  intros Hload Ha Hfind. unfold TaskManager.update.
  rewrite (run_bind _ _ _ _ _ Hload). unfold_run.
  rewrite Ha. simpl. rewrite Hfind. simpl. rewrite Ha. simpl.
  apply list_find_Some in Hfind as (Hidx & _ & _). rewrite Hidx. simpl.
  repeat (rewrite Ha; simpl). reflexivity.
Qed.

Lemma softDelete_run_none (id : string) (w w1 : world) a :
  TaskManager.loadIfNeeded w = (Ok (), w1) →
  cache w1 = Some a →
  list_find (λ l, TaskManager.has_id id (obj_at w1 l)) (arr_at w1 a) = None →
  TaskManager.softDelete id w = (Ok false, w1).
Proof.
  intros Hload Ha Hfind. unfold TaskManager.softDelete.
  rewrite (run_bind _ _ _ _ _ Hload). unfold_run.
  rewrite Ha. simpl. by rewrite Hfind.
Qed.

Lemma softDelete_run_some (id : string) (w w1 : world) a idx t :
  TaskManager.loadIfNeeded w = (Ok (), w1) →
  cache w1 = Some a →
  list_find (λ l, TaskManager.has_id id (obj_at w1 l)) (arr_at w1 a) = Some (idx, t) →
  let w2 := set_objs <[t := <["deleted" := VBool true]> (obj_at w1 t)]> w1 in
  TaskManager.softDelete id w
  = (Ok true, set_file (JSON_stringify (TaskRepository.snapshot w2 a)) w2).
Proof.
  intros Hload Ha Hfind. unfold TaskManager.softDelete.
  rewrite (run_bind _ _ _ _ _ Hload). unfold_run.
  rewrite Ha. simpl. rewrite Hfind. simpl. rewrite Ha. simpl. reflexivity.
Qed.

(** [add] refuses the payload, or appends a new object to the cache. *)
Lemma add_run (uuid now : string) (payload : object) (w w1 : world) a :
  TaskManager.loadIfNeeded w = (Ok (), w1) →
  cache w1 = Some a →
  TaskManager.add uuid now payload w
  = (Throw (Error "Task must have a non-empty title"), w1)
  ∨ ∃ o,
      get_prop o "id" = nullish (get_prop payload "id") (VString uuid)
      ∧ get_prop o "title" = get_prop payload "title"
      ∧ get_prop o "createdAt" = nullish (get_prop payload "createdAt") (VString now)
      ∧ let t := fresh (dom (objs w1)) in
        let w2 := set_arrs <[a := arr_at w1 a ++ [t]]> (set_objs <[t := o]> w1) in
        TaskManager.add uuid now payload w
        = (Ok t, set_file (JSON_stringify (TaskRepository.snapshot w2 a)) w2).
Proof.
  intros Hload Ha. unfold TaskManager.add.
  rewrite (run_bind _ _ _ _ _ Hload). unfold Task.constructor.
  destruct (negb (truthy (get_prop payload "title"))
            || negb (String.eqb (typeof (get_prop payload "title")) "string")).
  - left. reflexivity.
  - right. eexists. split; [|split; [|split]]; cycle 3.
    + unfold_run. simpl. repeat (rewrite Ha; simpl). reflexivity.
    + simpl. by rewrite get_prop_insert.
    + simpl. by rewrite get_prop_insert_ne, get_prop_insert.
    + simpl. rewrite !get_prop_insert_ne by done. by rewrite get_prop_insert.
Qed.

(** Loading reads the file and does not write it. *)
Lemma readAll_disk (w : world) r w' :
  TaskRepository.readAll w = (r, w') → file w' = file w ∧ writes w' = writes w.
Proof.
  unfold TaskRepository.readAll, try_catch, TaskRepository.fs_readFile,
    TaskRepository.parse.
  unfold mbind at 1 2, M_bind at 1 2.
  destruct (file w) as [data|] eqn:Hfile; simpl.
  - destruct (JSON_parse data) as [parsed|]; simpl.
    + destruct parsed; simpl; try (intros [= _ <-]; done).
      destruct (new_objects_run
                  (omap TaskRepository.as_object
                     (filter (λ t, TaskRepository.minimal_shape t) elems)) w)
        as (ls & w2 & Hrun & _ & Hf & Hw & _).
      unfold mbind, M_bind. rewrite Hrun. simpl.
      intros [= _ <-]. simpl. by rewrite Hf, Hw.
    + intros [= _ <-]. done.
  - intros [= _ <-]. done.
Qed.

Lemma loadIfNeeded_disk (w : world) r w1 :
  TaskManager.loadIfNeeded w = (r, w1) → file w1 = file w ∧ writes w1 = writes w.
Proof.
  unfold TaskManager.loadIfNeeded. destruct (cache w).
  - by intros [= _ <-].
  - unfold mbind, M_bind.
    destruct (TaskRepository.readAll w) as [[c|e] w2] eqn:Hread;
      apply readAll_disk in Hread; unfold TaskManager.put_cache;
      by intros [= _ <-].
Qed.

End TaskManager_runs.

Section TaskManager_claims.
Context `{Platform}.

(** C2, as the program has it.  [hardDelete id] takes every task with
    that id out of the collection: the length goes down by the number
    of such tasks, which is one when the ids of the collection are
    distinct, and the call returns true exactly when there was at least
    one.  When no task has the id it returns false and the collection
    holds the same tasks as before.  No task is changed. *)
Theorem hardDelete_removes_every_match (id : string) (w w1 : world) :
  TaskManager.loadIfNeeded w = (Ok (), w1) →
  ∃ w',
    TaskManager.hardDelete id w
    = (Ok (bool_decide (0 < length (with_id id (records w1)))), w')
    ∧ records w' = filter (λ t, ¬ TaskManager.has_id id t) (records w1)
    ∧ length (records w') + length (with_id id (records w1)) = length (records w1)
    ∧ (NoDup (ids (records w1)) → 0 < length (with_id id (records w1)) →
       length (records w') + 1 = length (records w1))
    ∧ (length (with_id id (records w1)) = 0 → collection w' = collection w1)
    ∧ objs w' = objs w1.
Proof.
  intros Hload. destruct (loadIfNeeded_Ok _ _ Hload) as [a Ha].
  rewrite (hardDelete_run id w w1 a Hload Ha). cbv zeta.
  match goal with |- ∃ w', (_, ?w0) = _ ∧ _ => exists w0 end.
  pose proof (filter_complement_length (λ t, TaskManager.has_id id t)
                (obj_at w1 <$> arr_at w1 a)) as Hlen.
  cbv beta in Hlen.
  assert (records w1 = obj_at w1 <$> arr_at w1 a) as Hrec
    by (unfold records, collection; by rewrite Ha).
  unfold with_id. rewrite Hrec.
  unfold records, collection. simpl. autorewrite with heap.
  rewrite records_without.
  split; [|split; [|split; [|split; [|split]]]].
  - do 2 f_equal. rewrite <- records_without, !length_fmap in Hlen.
    case_bool_decide; [apply Nat.ltb_lt|apply Nat.ltb_ge]; lia.
  - done.
  - done.
  - intros Hnd Hpos. pose proof (with_id_NoDup id _ Hnd) as Hle.
    unfold with_id in Hle. lia.
  - intros Hnone. rewrite <- records_without, !length_fmap in Hlen.
    rewrite Ha. simpl. apply filter_all. lia.
  - done.
Qed.

End TaskManager_claims.

Section TaskManager_update.
Context `{Platform}.

Lemma not_true_false (b : bool) : ¬ b → b = false.
Proof. destruct b; [|done]. intros Hb. by destruct Hb. Qed.

Lemma find_none_iff id (w : world) (ls : list loc) :
  list_find (λ l, TaskManager.has_id id (obj_at w l)) ls = None
  ↔ ∀ t, t ∈ obj_at w <$> ls → TaskManager.has_id id t = false.
Proof.
  rewrite list_find_None, Forall_forall. split.
  - intros Hno t Ht. apply list_elem_of_fmap in Ht as (l & -> & Hl).
    by apply not_true_false, Hno.
  - intros Hno l Hl Hid. apply Is_true_true in Hid.
    rewrite Hno in Hid; [done|]. by apply list_elem_of_fmap_2.
Qed.

Lemma find_some_if id (w : world) (ls : list loc) :
  (∃ t, t ∈ obj_at w <$> ls ∧ TaskManager.has_id id t = true) →
  ∃ idx l, list_find (λ l, TaskManager.has_id id (obj_at w l)) ls = Some (idx, l).
Proof.
  intros (t & Ht & Hid).
  destruct (list_find _ ls) as [[idx l]|] eqn:Hfind; [eauto|].
  rewrite find_none_iff in Hfind. rewrite (Hfind t Ht) in Hid. done.
Qed.

Lemma get_prop_union (o1 o2 : object) k :
  get_prop (o1 ∪ o2) k = match o1 !! k with
                         | Some v => v
                         | None => get_prop o2 k
                         end.
Proof.
  unfold get_prop. destruct (o1 !! k) as [v|] eqn:Hk.
  - by rewrite (lookup_union_Some_l _ _ _ _ Hk).
  - by rewrite lookup_union_r.
Qed.

(** C4. [update id changes] on an id that no task has returns the
    not-found value and writes nothing: the state is the one it had
    once the collection was loaded, and the file is the one it was.
    On an id that a task has, the first such task is replaced in the
    collection by a new record, which is returned: it has the
    properties of [changes], over those of the task, except that its
    id is the id of the task; the collection is then written to the
    file. *)
Theorem update_merges_and_keeps_id (id : string) (changes : object) (w w1 : world) :
  TaskManager.loadIfNeeded w = (Ok (), w1) →
  ((∀ t, t ∈ records w1 → TaskManager.has_id id t = false) →
   TaskManager.update id changes w = (Ok None, w1)
   ∧ file w1 = file w ∧ writes w1 = writes w)
  ∧ ((∃ t, t ∈ records w1 ∧ TaskManager.has_id id t = true) →
     ∃ idx current updated w',
       TaskManager.update id changes w = (Ok (Some updated), w')
       ∧ collection w1 !! idx = Some current
       ∧ TaskManager.has_id id (obj_at w1 current) = true
       ∧ (∀ j l, collection w1 !! j = Some l → j < idx →
                 TaskManager.has_id id (obj_at w1 l) = false)
       ∧ objs w1 !! updated = None
       ∧ collection w' = <[idx := updated]> (collection w1)
       ∧ get_prop (obj_at w' updated) "id" = get_prop (obj_at w1 current) "id"
       ∧ get_prop (obj_at w' updated) "id" = VString id
       ∧ (∀ k, k ≠ "id" →
               get_prop (obj_at w' updated) k
               = match changes !! k with
                 | Some v => v
                 | None => get_prop (obj_at w1 current) k
                 end)
       ∧ writes w' = S (writes w1)
       ∧ file w' = Some (JSON_stringify (VArray (VObject <$> records w')))).
Proof.
  intros Hload. destruct (loadIfNeeded_Ok _ _ Hload) as [a Ha].
  assert (records w1 = obj_at w1 <$> arr_at w1 a) as Hrec
    by (unfold records, collection; by rewrite Ha).
  rewrite Hrec. split.
  - intros Hnone. apply find_none_iff in Hnone.
    split; [by eapply update_run_none|]. by eapply loadIfNeeded_disk.
  - intros Hsome. apply find_some_if in Hsome as (idx & current & Hfind).
    rewrite (update_run_some id changes w w1 a idx current Hload Ha Hfind). cbv zeta.
    apply list_find_Some in Hfind as (Hidx & Hid & Hfirst).
    eexists idx, current, _, _. split; [reflexivity|].
    unfold records, collection. simpl. rewrite Ha. simpl. autorewrite with heap.
    split; [done|]. split; [by apply Is_true_true|]. split.
    { intros j l Hj Hlt. by apply not_true_false, (Hfirst j l Hj Hlt). }
    split; [apply fresh_object|]. split; [done|].
    split; [by rewrite get_prop_insert|]. split.
    { rewrite get_prop_insert. by apply Is_true_true, strict_equals_string in Hid. }
    split.
    2:{ split; [done|]. unfold TaskRepository.snapshot, tasks_of.
        by autorewrite with heap. }
    intros k Hk. rewrite get_prop_insert_ne by done. apply get_prop_union.
Qed.

End TaskManager_update.

Section TaskManager_softDelete.
Context `{Platform}.

Ltac unfold_list :=
  unfold TaskManager.list, mbind, M_bind, TaskManager.this_cache, Array_filter,
    new_array, mret, M_ret.

(** C5. [softDelete id] on an id that no task has returns false and
    changes nothing.  On an id that a task has, it returns true and the
    first such task has its [deleted] flag set to true; after that,
    [list()] with no options gives an array without that task, and
    [list({includeDeleted: true})] gives an array with it. *)
Theorem softDelete_then_list (id : string) (w w1 : world) :
  TaskManager.loadIfNeeded w = (Ok (), w1) →
  ((∀ t, t ∈ records w1 → TaskManager.has_id id t = false) →
   TaskManager.softDelete id w = (Ok false, w1))
  ∧ ((∃ t, t ∈ records w1 ∧ TaskManager.has_id id t = true) →
     ∃ idx t w',
       TaskManager.softDelete id w = (Ok true, w')
       ∧ collection w1 !! idx = Some t
       ∧ TaskManager.has_id id (obj_at w1 t) = true
       ∧ (∀ j l, collection w1 !! j = Some l → j < idx →
                 TaskManager.has_id id (obj_at w1 l) = false)
       ∧ collection w' = collection w1
       ∧ obj_at w' t = <["deleted" := VBool true]> (obj_at w1 t)
       ∧ get_prop (obj_at w' t) "deleted" = VBool true
       ∧ (∃ r w'', TaskManager.list None w' = (Ok r, w'') ∧ t ∉ arr_at w'' r)
       ∧ (∃ r w'',
            TaskManager.list (Some {| includeDeleted := Some true; sortBy := None |}) w'
            = (Ok r, w'')
            ∧ t ∈ arr_at w'' r)).
Proof.
  intros Hload. destruct (loadIfNeeded_Ok _ _ Hload) as [a Ha].
  assert (records w1 = obj_at w1 <$> arr_at w1 a) as Hrec
    by (unfold records, collection; by rewrite Ha).
  rewrite Hrec. split.
  - intros Hnone. apply find_none_iff in Hnone. by eapply softDelete_run_none.
  - intros Hsome. apply find_some_if in Hsome as (idx & t & Hfind).
    rewrite (softDelete_run_some id w w1 a idx t Hload Ha Hfind). cbv zeta.
    apply list_find_Some in Hfind as (Hidx & Hid & Hfirst).
    eexists idx, t, _. split; [reflexivity|].
    unfold collection. simpl. rewrite Ha. simpl. autorewrite with heap.
    split; [done|]. split; [by apply Is_true_true|]. split.
    { intros j l Hj Hlt. by apply not_true_false, (Hfirst j l Hj Hlt). }
    split; [done|]. split; [done|]. split; [by rewrite get_prop_insert|].
    split.
    + eexists _, _. split.
      { unfold_list. unfold TaskManager.loadIfNeeded. simpl.
        repeat (rewrite Ha; simpl). reflexivity. }
      autorewrite with heap. rewrite list_elem_of_filter.
      intros [Hnot _]. revert Hnot. autorewrite with heap.
      unfold isNotDeleted. by rewrite get_prop_insert.
    + eexists _, _. split.
      { unfold_list. unfold TaskManager.loadIfNeeded. simpl.
        repeat (rewrite Ha; simpl). reflexivity. }
      autorewrite with heap. by eapply list_elem_of_lookup_2.
Qed.

End TaskManager_softDelete.

Section TaskManager_add.
Context `{Platform}.

Lemma add_run_titled (uuid now : string) (payload : object) (w w1 : world) a title :
  TaskManager.loadIfNeeded w = (Ok (), w1) →
  cache w1 = Some a →
  payload !! "title" = Some (VString title) → title ≠ "" →
  ∃ o,
    get_prop o "id" = nullish (get_prop payload "id") (VString uuid)
    ∧ get_prop o "title" = VString title
    ∧ get_prop o "createdAt" = nullish (get_prop payload "createdAt") (VString now)
    ∧ let t := fresh (dom (objs w1)) in
      let w2 := set_arrs <[a := arr_at w1 a ++ [t]]> (set_objs <[t := o]> w1) in
      TaskManager.add uuid now payload w
      = (Ok t, set_file (JSON_stringify (TaskRepository.snapshot w2 a)) w2).
Proof.
  intros Hload Ha Htitle Hne.
  destruct (add_run uuid now payload w w1 a Hload Ha) as [Hthrow|(o & Hid & Ht & Hc & Hrun)].
  - exfalso. revert Hthrow. unfold TaskManager.add.
    rewrite (run_bind _ _ _ _ _ Hload). unfold Task.constructor.
    rewrite (get_prop_present _ _ _ Htitle). simpl.
    destruct (String.eqb_spec title ""); [done|]. simpl.
    unfold mbind, M_bind, new_object, TaskManager.this_cache. simpl.
    repeat (rewrite Ha; simpl). done.
  - exists o. rewrite (get_prop_present _ _ _ Htitle) in Ht. done.
Qed.

(** C10. [add] does not look at the ids of the collection.  A payload
    that has a title and the id of a task of the collection is
    accepted: a new task with that id is appended, the task that had
    the id is still there, and the ids of the collection are no longer
    distinct. *)
Theorem add_accepts_duplicate_id
    (uuid now : string) (payload : object) (id title : string) (w w1 : world) :
  TaskManager.loadIfNeeded w = (Ok (), w1) →
  payload !! "id" = Some (VString id) →
  payload !! "title" = Some (VString title) → title ≠ "" →
  (∃ l, l ∈ collection w1 ∧ get_prop (obj_at w1 l) "id" = VString id) →
  ∃ t w',
    TaskManager.add uuid now payload w = (Ok t, w')
    ∧ objs w1 !! t = None
    ∧ collection w' = collection w1 ++ [t]
    ∧ get_prop (obj_at w' t) "id" = VString id
    ∧ (∃ l, l ∈ collection w1 ∧ l ≠ t ∧ get_prop (obj_at w' l) "id" = VString id)
    ∧ ¬ NoDup (ids (records w')).
Proof.
  intros Hload Hpid Htitle Hne (l & Hl & Hlid).
  destruct (loadIfNeeded_Ok _ _ Hload) as [a Ha].
  destruct (add_run_titled uuid now payload w w1 a title Hload Ha Htitle Hne)
    as (o & Hid & _ & _ & Hrun). cbv zeta in Hrun.
  rewrite (get_prop_present _ _ _ Hpid) in Hid. simpl in Hid.
  assert (l ≠ fresh (dom (objs w1))) as Hfresh.
  { apply allocated_not_fresh. by eapply obj_at_allocated. }
  eexists _, _. split; [exact Hrun|].
  unfold records, collection in *. simpl. rewrite Ha in *. simpl in *.
  autorewrite with heap.
  split; [apply fresh_object|]. split; [done|]. split; [done|].
  assert (get_prop (obj_at (set_objs <[fresh (dom (objs w1)) := o]> w1) l) "id"
          = VString id) as Hkept by (by rewrite obj_at_old).
  split; [by exists l|].
  unfold ids. rewrite !fmap_app. simpl. autorewrite with heap. rewrite Hid.
  intros Hnd. apply NoDup_app in Hnd as (_ & Hdisj & _).
  apply (Hdisj (VString id)); [|left].
  rewrite <- Hkept. apply list_elem_of_fmap. eexists. split; [reflexivity|].
  by apply list_elem_of_fmap_2.
Qed.

End TaskManager_add.

Section createdAt.
Context `{Platform}.

(** Assigning to another property leaves [createdAt] as it is, in
    every object. *)
Lemma createdAt_assign (w : world) l k v l' :
  k ≠ "createdAt" →
  get_prop (obj_at (set_objs <[l := <[k := v]> (obj_at w l)]> w) l') "createdAt"
  = get_prop (obj_at w l') "createdAt".
Proof.
  intros Hk. destruct (decide (l = l')) as [<-|Hne].
  - rewrite obj_at_new. by rewrite get_prop_insert_ne.
  - by rewrite obj_at_old.
Qed.

(** A new object leaves the tasks of the collection as they are. *)
Lemma records_new_object (w : world) o (ls : list loc) :
  (∀ l, l ∈ ls → is_Some (objs w !! l)) →
  obj_at (set_objs <[fresh (dom (objs w)) := o]> w) <$> ls = obj_at w <$> ls.
Proof.
  intros Hls. apply list_fmap_ext. intros i l Hl.
  apply obj_at_old. apply not_eq_sym, allocated_not_fresh, Hls.
  by eapply list_elem_of_lookup_2.
Qed.

(** C3, as the program has it.  The [createdAt] of the tasks of the
    collection is kept by [add], by [softDelete], by [hardDelete] for
    the tasks that stay, by [update] when [changes] has no [createdAt],
    and by the methods [complete], [softDelete] and [restore] of a
    task.  [update] with a [changes] that has a [createdAt] gives that
    value to the record it puts in the place of the task, and keeps the
    [createdAt] of the other tasks. *)
Theorem createdAt_kept_unless_updated (w w1 : world) :
  TaskManager.loadIfNeeded w = (Ok (), w1) →
  cache_allocated w1 →
  (∀ uuid now payload t w',
     TaskManager.add uuid now payload w = (Ok t, w') →
     createdAts (records w')
     = createdAts (records w1) ++ [get_prop (obj_at w' t) "createdAt"])
  ∧ (∀ id b w',
       TaskManager.softDelete id w = (Ok b, w') →
       createdAts (records w') = createdAts (records w1))
  ∧ (∀ id b w',
       TaskManager.hardDelete id w = (Ok b, w') →
       createdAts (records w')
       = createdAts (filter (λ t, ¬ TaskManager.has_id id t) (records w1)))
  ∧ (∀ id changes r w',
       changes !! "createdAt" = None →
       TaskManager.update id changes w = (Ok r, w') →
       createdAts (records w') = createdAts (records w1))
  ∧ (∀ id changes v r w',
       changes !! "createdAt" = Some v →
       TaskManager.update id changes w = (Ok r, w') →
       match r with
       | None => w' = w1
       | Some updated =>
           get_prop (obj_at w' updated) "createdAt" = v
           ∧ ∃ idx, collection w' !! idx = Some updated
                    ∧ createdAts (records w') = <[idx := v]> (createdAts (records w1))
       end)
  ∧ (∀ (w0 : world) this l,
       get_prop (obj_at (Task.complete this w0).2 l) "createdAt"
       = get_prop (obj_at w0 l) "createdAt"
       ∧ get_prop (obj_at (Task.softDelete this w0).2 l) "createdAt"
         = get_prop (obj_at w0 l) "createdAt"
       ∧ get_prop (obj_at (Task.restore this w0).2 l) "createdAt"
         = get_prop (obj_at w0 l) "createdAt").
Proof.
  intros Hload Halloc. destruct (loadIfNeeded_Ok _ _ Hload) as [a Ha].
  assert (collection w1 = arr_at w1 a) as Hcol by (by apply collection_loaded).
  unfold cache_allocated in Halloc. rewrite Hcol, Forall_forall in Halloc.
  assert (records w1 = obj_at w1 <$> arr_at w1 a) as Hrec
    by (unfold records; by rewrite Hcol).
  rewrite Hrec.
  split; [|split; [|split; [|split; [|split]]]].
  - intros uuid now payload t w' Hadd.
    destruct (add_run uuid now payload w w1 a Hload Ha) as [Hthrow|(o & _ & _ & _ & Hrun)].
    { rewrite Hthrow in Hadd. done. }
    cbv zeta in Hrun. rewrite Hrun in Hadd. injection Hadd as <- <-.
    unfold createdAts, records, collection. simpl. rewrite Ha. simpl.
    autorewrite with heap. rewrite !fmap_app. simpl. autorewrite with heap.
    by rewrite records_new_object.
  - intros id b w' Hdel.
    destruct (list_find (λ l, TaskManager.has_id id (obj_at w1 l)) (arr_at w1 a))
      as [[idx t]|] eqn:Hfind.
    + rewrite (softDelete_run_some id w w1 a idx t Hload Ha Hfind) in Hdel.
      cbv zeta in Hdel. injection Hdel as <- <-.
      unfold createdAts, records, collection. simpl. rewrite Ha. simpl.
      autorewrite with heap. rewrite <- !list_fmap_compose.
      apply list_fmap_ext. intros i l _. simpl. by apply createdAt_assign.
    + rewrite (softDelete_run_none id w w1 a Hload Ha Hfind) in Hdel.
      injection Hdel as <- <-. by rewrite Hrec.
  - intros id b w' Hdel.
    rewrite (hardDelete_run id w w1 a Hload Ha) in Hdel. cbv zeta in Hdel.
    injection Hdel as <- <-.
    unfold records, collection. simpl. autorewrite with heap.
    by rewrite records_without.
  - intros id changes r w' Hnone Hupd.
    destruct (list_find (λ l, TaskManager.has_id id (obj_at w1 l)) (arr_at w1 a))
      as [[idx current]|] eqn:Hfind.
    + rewrite (update_run_some id changes w w1 a idx current Hload Ha Hfind) in Hupd.
      cbv zeta in Hupd. injection Hupd as <- <-.
      apply list_find_Some in Hfind as (Hidx & _ & _).
      unfold createdAts, records, collection. simpl. rewrite Ha. simpl.
      autorewrite with heap. rewrite !list_fmap_insert. autorewrite with heap.
      rewrite get_prop_insert_ne by done. rewrite get_prop_union, Hnone.
      rewrite records_new_object by done.
      apply list_insert_id. rewrite !list_lookup_fmap, Hidx. done.
    + rewrite (update_run_none id changes w w1 a Hload Ha Hfind) in Hupd.
      injection Hupd as <- <-. by rewrite Hrec.
  - intros id changes v r w' Hsome Hupd.
    destruct (list_find (λ l, TaskManager.has_id id (obj_at w1 l)) (arr_at w1 a))
      as [[idx current]|] eqn:Hfind.
    + rewrite (update_run_some id changes w w1 a idx current Hload Ha Hfind) in Hupd.
      cbv zeta in Hupd. injection Hupd as <- <-.
      apply list_find_Some in Hfind as (Hidx & _ & _).
      unfold createdAts, records, collection. simpl. rewrite Ha. simpl.
      autorewrite with heap.
      assert (get_prop (<["id" := get_prop (obj_at w1 current) "id"]>
                          (changes ∪ obj_at w1 current)) "createdAt" = v) as Hv.
      { rewrite get_prop_insert_ne by done. by rewrite get_prop_union, Hsome. }
      split; [done|]. exists idx. split.
      * apply list_lookup_insert_eq. by eapply lookup_lt_Some.
      * rewrite !list_fmap_insert. autorewrite with heap. rewrite Hv.
        by rewrite records_new_object.
    + rewrite (update_run_none id changes w w1 a Hload Ha Hfind) in Hupd.
      by injection Hupd as <- <-.
  - intros w0 this l. unfold Task.complete, Task.softDelete, Task.restore, assign.
    simpl. repeat split; by apply createdAt_assign.
Qed.

End createdAt.

(** ** The references of the collection are objects of the heap

    This holds of a collection that was just loaded and is kept by
    every operation of the manager. *)
Section allocated.
Context `{Platform}.

Lemma readAll_allocated (w : world) c w' :
  TaskRepository.readAll w = (Ok c, w') →
  Forall (λ l, is_Some (objs w' !! l)) (arr_at w' c).
Proof.
  unfold TaskRepository.readAll, try_catch, TaskRepository.fs_readFile,
    TaskRepository.parse.
  unfold mbind at 1 2, M_bind at 1 2.
  destruct (file w) as [data|] eqn:Hfile; simpl.
  - destruct (JSON_parse data) as [parsed|]; simpl; [|done].
    destruct parsed; simpl; try done.
    destruct (new_objects_run
                (omap TaskRepository.as_object
                   (filter (λ t, TaskRepository.minimal_shape t) elems)) w)
      as (ls & w2 & Hrun & _ & _ & _ & _ & _ & _ & Hnew).
    unfold mbind, M_bind. rewrite Hrun. simpl.
    intros [= <- <-]. autorewrite with heap.
    eapply Forall_impl; [exact Hnew|]. by intros l [_ Hl].
  - intros [= <- <-]. autorewrite with heap. constructor.
Qed.

Lemma loadIfNeeded_allocated (w w1 : world) :
  cache w = None ∨ cache_allocated w →
  TaskManager.loadIfNeeded w = (Ok (), w1) →
  cache_allocated w1.
Proof.
  unfold TaskManager.loadIfNeeded. destruct (cache w) as [a|] eqn:Hc.
  - intros [?|Hw]; [done|]. by intros [= <-].
  - intros _. unfold mbind, M_bind.
    destruct (TaskRepository.readAll w) as [[c|e] w2] eqn:Hread; [|done].
    unfold TaskManager.put_cache. intros [= <-].
    apply readAll_allocated in Hread. done.
Qed.

Lemma Forall_allocated_insert (w : world) l o (ls : list loc) :
  Forall (λ l', is_Some (objs w !! l')) ls →
  Forall (λ l', is_Some (<[l := o]> (objs w) !! l')) ls.
Proof.
  intros Hls. eapply Forall_impl; [exact Hls|]. simpl.
  intros l' Hl'. rewrite lookup_insert. by case_decide.
Qed.

Lemma cache_allocated_kept (w w1 : world) :
  TaskManager.loadIfNeeded w = (Ok (), w1) →
  cache_allocated w1 →
  (∀ uuid now payload r w',
     TaskManager.add uuid now payload w = (r, w') → cache_allocated w')
  ∧ (∀ id changes r w',
       TaskManager.update id changes w = (r, w') → cache_allocated w')
  ∧ (∀ id r w', TaskManager.softDelete id w = (r, w') → cache_allocated w')
  ∧ (∀ id r w', TaskManager.hardDelete id w = (r, w') → cache_allocated w').
Proof.
  intros Hload Halloc. destruct (loadIfNeeded_Ok _ _ Hload) as [a Ha].
  unfold cache_allocated, collection in *. rewrite Ha in Halloc. simpl in Halloc.
  split; [|split; [|split]].
  - intros uuid now payload r w' Hadd.
    destruct (add_run uuid now payload w w1 a Hload Ha) as [Hthrow|(o & _ & _ & _ & Hrun)].
    + rewrite Hthrow in Hadd. injection Hadd as <- <-. by rewrite Ha.
    + cbv zeta in Hrun. rewrite Hrun in Hadd. injection Hadd as <- <-.
      simpl. rewrite Ha. simpl. autorewrite with heap.
      apply Forall_app. split; [by apply Forall_allocated_insert|].
      constructor; [|constructor]. rewrite lookup_insert_eq. eauto.
  - intros id changes r w' Hupd.
    destruct (list_find (λ l, TaskManager.has_id id (obj_at w1 l)) (arr_at w1 a))
      as [[idx current]|] eqn:Hfind.
    + rewrite (update_run_some id changes w w1 a idx current Hload Ha Hfind) in Hupd.
      cbv zeta in Hupd. injection Hupd as <- <-.
      simpl. rewrite Ha. simpl. autorewrite with heap.
      apply Forall_insert; [by apply Forall_allocated_insert|].
      rewrite lookup_insert_eq. eauto.
    + rewrite (update_run_none id changes w w1 a Hload Ha Hfind) in Hupd.
      injection Hupd as <- <-. by rewrite Ha.
  - intros id r w' Hdel.
    destruct (list_find (λ l, TaskManager.has_id id (obj_at w1 l)) (arr_at w1 a))
      as [[idx t]|] eqn:Hfind.
    + rewrite (softDelete_run_some id w w1 a idx t Hload Ha Hfind) in Hdel.
      cbv zeta in Hdel. injection Hdel as <- <-.
      simpl. rewrite Ha. simpl. autorewrite with heap.
      by apply Forall_allocated_insert.
    + rewrite (softDelete_run_none id w w1 a Hload Ha Hfind) in Hdel.
      injection Hdel as <- <-. by rewrite Ha.
  - intros id r w' Hdel.
    rewrite (hardDelete_run id w w1 a Hload Ha) in Hdel. cbv zeta in Hdel.
    injection Hdel as <- <-. simpl. autorewrite with heap.
    rewrite Forall_forall in Halloc. apply Forall_forall.
    intros l Hl. apply list_elem_of_filter in Hl as [_ Hl]. by apply Halloc.
Qed.

End allocated.

(** * More properties of the program *)

(** ** Reading the file *)
Section reading.
Context `{Platform}.

Lemma minimal_shape_object (v : value) :
  TaskRepository.minimal_shape v = true ↔ ∃ o, v = VObject o ∧ has_shape o.
Proof.
  unfold TaskRepository.minimal_shape, has_shape. split.
  - intros Hv. apply andb_true_iff in Hv as [Hv Htitle].
    apply andb_true_iff in Hv as [_ Hid].
    destruct v as [| |b|n|s|l|o]; simpl in *; try discriminate.
    exists o. split; [done|]. unfold get_prop in *.
    destruct (o !! "id") as [[| |?|?|id|?|?]|]; simpl in *; try discriminate.
    destruct (o !! "title") as [[| |?|?|title|?|?]|]; simpl in *; try discriminate.
    eauto.
  - intros (o & -> & id & title & Hid & Htitle). simpl.
    unfold get_prop. by rewrite Hid, Htitle.
Qed.

(** What [readAll] does on a file that holds an array. *)
Lemma readAll_run_array (w : world) data elems :
  file w = Some data →
  JSON_parse data = Some (VArray elems) →
  ∃ ls w2,
    let a := fresh (dom (arrs w2)) in
    TaskRepository.readAll w = (Ok a, set_arrs <[a := ls]> w2)
    ∧ arrs w2 = arrs w ∧ file w2 = file w ∧ writes w2 = writes w ∧ cache w2 = cache w
    ∧ objs w ⊆ objs w2
    ∧ obj_at w2 <$> ls
      = omap TaskRepository.as_object (filter (λ t, TaskRepository.minimal_shape t) elems)
    ∧ Forall (λ l, objs w !! l = None ∧ is_Some (objs w2 !! l)) ls.
Proof.
  intros Hfile Hparse. rewrite (readAll_array w data elems Hfile Hparse).
  destruct (new_objects_run
              (omap TaskRepository.as_object
                 (filter (λ t, TaskRepository.minimal_shape t) elems)) w)
    as (ls & w2 & Hrun & Ha & Hf & Hw & Hc & Hsub & Hos & Hnew).
  exists ls, w2. rewrite (run_bind _ _ _ _ _ Hrun). by repeat split.
Qed.

(** X1. Without a file the collection is empty: [readAll] returns a new
    empty array and [loadIfNeeded] takes it for the cache, no error is
    raised, and the file is not created. *)
Theorem load_without_file (w : world) :
  file w = None →
  (∃ a w', TaskRepository.readAll w = (Ok a, w')
           ∧ arrs w !! a = None ∧ arr_at w' a = []
           ∧ objs w' = objs w ∧ file w' = None ∧ writes w' = writes w)
  ∧ (cache w = None →
     ∃ w1, TaskManager.loadIfNeeded w = (Ok (), w1)
           ∧ collection w1 = [] ∧ objs w1 = objs w
           ∧ file w1 = None ∧ writes w1 = writes w).
Proof.
  intros Hfile.
  assert (TaskRepository.readAll w
          = (Ok (fresh (dom (arrs w))), set_arrs <[fresh (dom (arrs w)) := []]> w))
    as Hread.
  { unfold TaskRepository.readAll, try_catch, TaskRepository.fs_readFile.
    unfold mbind at 1, M_bind at 1. by rewrite Hfile. }
  split.
  - eexists _, _. split; [exact Hread|]. split; [apply fresh_array|].
    autorewrite with heap. by repeat split.
  - intros Hcache. unfold TaskManager.loadIfNeeded. rewrite Hcache.
    rewrite (run_bind _ _ _ _ _ Hread). eexists. split; [reflexivity|].
    unfold collection. simpl. autorewrite with heap. by repeat split.
Qed.

(** X2. A file that is not JSON makes [readAll] throw the error of the
    parser, and a JSON document that is not an array makes it throw a
    [TypeError].  Nothing is changed: the cache of a manager stays
    unloaded, so that each of its operations throws the same error,
    and the file is left as it is. *)
Theorem load_failure_propagates (w : world) data e :
  file w = Some data →
  (JSON_parse data = None ∧ e = SyntaxError)
  ∨ (∃ v, JSON_parse data = Some v ∧ (∀ l, v ≠ VArray l) ∧ e = TypeError) →
  TaskRepository.readAll w = (Throw e, w)
  ∧ (cache w = None →
     TaskManager.loadIfNeeded w = (Throw e, w)
     ∧ (∀ uuid now payload, TaskManager.add uuid now payload w = (Throw e, w))
     ∧ (∀ id, TaskManager.findById id w = (Throw e, w))
     ∧ (∀ id changes, TaskManager.update id changes w = (Throw e, w))
     ∧ (∀ id, TaskManager.softDelete id w = (Throw e, w))
     ∧ (∀ id, TaskManager.hardDelete id w = (Throw e, w))
     ∧ (∀ options, TaskManager.list options w = (Throw e, w))).
Proof.
  intros Hfile Hparse.
  assert (TaskRepository.readAll w = (Throw e, w)) as Hread.
  { unfold TaskRepository.readAll, try_catch, TaskRepository.fs_readFile,
      TaskRepository.parse.
    unfold mbind at 1 2, M_bind at 1 2. rewrite Hfile.
    destruct Hparse as [[-> ->]|(v & -> & Hv & ->)]; [done|].
    destruct v; try done. by destruct (Hv elems). }
  split; [done|]. intros Hcache.
  assert (TaskManager.loadIfNeeded w = (Throw e, w)) as Hload.
  { unfold TaskManager.loadIfNeeded. rewrite Hcache.
    by rewrite (run_bind_throw _ _ _ _ _ Hread). }
  split; [done|].
  unfold TaskManager.add, TaskManager.findById, TaskManager.update,
    TaskManager.softDelete, TaskManager.hardDelete, TaskManager.list.
  repeat split; intros; by rewrite (run_bind_throw _ _ _ _ _ Hload).
Qed.

Lemma kept_are_objects (elems : list value) :
  VObject <$> omap TaskRepository.as_object
                (filter (λ t, TaskRepository.minimal_shape t) elems)
  = filter (λ t, TaskRepository.minimal_shape t) elems.
Proof.
  induction elems as [|v elems IH]; [done|].
  rewrite filter_cons. destruct (decide (TaskRepository.minimal_shape v)) as [Hv|Hv];
    [|done].
  apply Is_true_true, minimal_shape_object in Hv as (o & -> & _).
  simpl. f_equal. exact IH.
Qed.

(** X3. What [readAll] returns is a new array of new objects: the
    elements of the document that are objects with a text [id] and a
    text [title], in the order of the document (a title may be the
    empty text).  Neither the file, nor the cache, nor the objects that
    were there are changed. *)
Theorem readAll_keeps_shaped_records (w : world) data elems :
  file w = Some data →
  JSON_parse data = Some (VArray elems) →
  ∃ a w',
    TaskRepository.readAll w = (Ok a, w')
    ∧ arrs w !! a = None
    ∧ VObject <$> tasks_of w' a = filter (λ v, TaskRepository.minimal_shape v) elems
    ∧ (∀ v, TaskRepository.minimal_shape v = true ↔ ∃ o, v = VObject o ∧ has_shape o)
    ∧ Forall has_shape (tasks_of w' a)
    ∧ Forall (λ l, objs w !! l = None) (arr_at w' a)
    ∧ objs w ⊆ objs w'
    ∧ file w' = file w ∧ writes w' = writes w ∧ cache w' = cache w.
Proof.
  intros Hfile Hparse.
  destruct (readAll_run_array w data elems Hfile Hparse)
    as (ls & w2 & Hrun & Ha & Hf & Hw & Hc & Hsub & Hos & Hnew).
  cbv zeta in Hrun. eexists _, _. split; [exact Hrun|].
  unfold tasks_of. autorewrite with heap. simpl.
  split; [rewrite <- Ha; apply fresh_array|].
  split; [rewrite Hos; apply kept_are_objects|].
  split; [apply minimal_shape_object|].
  split.
  { rewrite Hos. apply Forall_forall. intros o Ho.
    assert (VObject o ∈ filter (λ t, TaskRepository.minimal_shape t) elems) as Hin.
    { rewrite <- kept_are_objects. by apply list_elem_of_fmap_2. }
    apply list_elem_of_filter in Hin as [Hshape _].
    apply Is_true_true, minimal_shape_object in Hshape as (o' & [= <-] & Ho').
    done. }
  split; [eapply Forall_impl; [exact Hnew|]; by intros l [? _]|].
  by repeat split.
Qed.

End reading.

(** ** The cache and the file *)
Section cache_and_file.
Context `{Platform}.

Lemma findById_run (id : string) (w w1 : world) a :
  TaskManager.loadIfNeeded w = (Ok (), w1) →
  cache w1 = Some a →
  TaskManager.findById id w
  = (Ok (snd <$> list_find (λ l, TaskManager.has_id id (obj_at w1 l)) (arr_at w1 a)), w1).
Proof.
  intros Hload Ha. unfold TaskManager.findById.
  rewrite (run_bind _ _ _ _ _ Hload).
  unfold mbind, M_bind, TaskManager.this_cache, Array_find. by rewrite Ha.
Qed.

(** X4. The collection is loaded once: after [loadIfNeeded] a second
    call does nothing, and the queries of a loaded manager do not read
    the file, so that they return the same whatever another program
    has since left in the file. *)
Theorem loaded_manager_ignores_file (w w1 : world) (f : option text) :
  TaskManager.loadIfNeeded w = (Ok (), w1) →
  TaskManager.loadIfNeeded w1 = (Ok (), w1)
  ∧ (∀ id, TaskManager.findById id (with_file f w1)
           = ((TaskManager.findById id w1).1, with_file f w1))
  ∧ (∀ options, TaskManager.list options (with_file f w1)
                = ((TaskManager.list options w1).1,
                   with_file f (TaskManager.list options w1).2)).
Proof.
  intros Hload. destruct (loadIfNeeded_Ok _ _ Hload) as [a Ha].
  assert (∀ w : world, cache w = Some a → TaskManager.loadIfNeeded w = (Ok (), w))
    as Hloaded by (intros; by eapply loadIfNeeded_loaded).
  split; [by apply Hloaded|]. split.
  - intros id.
    rewrite (findById_run id _ _ a (Hloaded (with_file f w1) Ha) Ha).
    by rewrite (findById_run id _ _ a (Hloaded w1 Ha) Ha).
  - intros options. unfold TaskManager.list.
    rewrite (run_bind _ _ _ _ _ (Hloaded (with_file f w1) Ha)).
    rewrite (run_bind _ _ _ _ _ (Hloaded w1 Ha)).
    unfold mbind, M_bind, TaskManager.this_cache. simpl. rewrite Ha.
    destruct options as [[[[]|] [[]|]]|]; reflexivity.
Qed.

(** X5. [findById id] returns the first task of the collection whose id
    is the text [id], or nothing when no task has it; apart from
    loading the collection it changes nothing. *)
Theorem findById_first_match (id : string) (w w1 : world) :
  TaskManager.loadIfNeeded w = (Ok (), w1) →
  ∃ r,
    TaskManager.findById id w = (Ok r, w1)
    ∧ match r with
      | None => ∀ t, t ∈ records w1 → TaskManager.has_id id t = false
      | Some t =>
          ∃ idx, collection w1 !! idx = Some t
                 ∧ get_prop (obj_at w1 t) "id" = VString id
                 ∧ ∀ j l, collection w1 !! j = Some l → j < idx →
                          TaskManager.has_id id (obj_at w1 l) = false
      end.
Proof.
  intros Hload. destruct (loadIfNeeded_Ok _ _ Hload) as [a Ha].
  rewrite (findById_run id w w1 a Hload Ha). eexists. split; [reflexivity|].
  unfold records. rewrite (collection_loaded _ _ Ha).
  destruct (list_find _ (arr_at w1 a)) as [[idx t]|] eqn:Hfind; simpl.
  - apply list_find_Some in Hfind as (Hidx & Hid & Hfirst).
    exists idx. split; [done|]. split.
    + by apply Is_true_true, strict_equals_string in Hid.
    + intros j l Hj Hlt. by apply not_true_false, (Hfirst j l Hj Hlt).
  - by apply find_none_iff.
Qed.

(** X6. Every change of the collection is written at once: after [add],
    after [update] and [softDelete] on an id that a task has, and after
    every [hardDelete], even one that removes nothing, the file holds
    the collection as it is in the cache, and has been written exactly
    once.  [add] with a refused payload, and [update] and [softDelete]
    on an id that no task has, leave the state as it was once loaded. *)
Theorem changes_are_written_through (w w1 : world) :
  TaskManager.loadIfNeeded w = (Ok (), w1) →
  (∀ uuid now payload r w',
     TaskManager.add uuid now payload w = (r, w') →
     match r with
     | Ok _ => disk_in_sync w' ∧ writes w' = S (writes w1)
     | Throw _ => w' = w1
     end)
  ∧ (∀ id changes r w',
       TaskManager.update id changes w = (r, w') →
       match r with
       | Ok (Some _) => disk_in_sync w' ∧ writes w' = S (writes w1)
       | _ => w' = w1
       end)
  ∧ (∀ id r w',
       TaskManager.softDelete id w = (r, w') →
       match r with
       | Ok true => disk_in_sync w' ∧ writes w' = S (writes w1)
       | _ => w' = w1
       end)
  ∧ (∀ id r w',
       TaskManager.hardDelete id w = (r, w') →
       disk_in_sync w' ∧ writes w' = S (writes w1)).
Proof.
  intros Hload. destruct (loadIfNeeded_Ok _ _ Hload) as [a Ha].
  split; [|split; [|split]].
  - intros uuid now payload r w' Hadd.
    destruct (add_run uuid now payload w w1 a Hload Ha) as [Hthrow|(o & _ & _ & _ & Hrun)].
    + rewrite Hthrow in Hadd. by injection Hadd as <- <-.
    + cbv zeta in Hrun. rewrite Hrun in Hadd. injection Hadd as <- <-.
      split; [|done]. exists a. by split.
  - intros id changes r w' Hupd.
    destruct (list_find (λ l, TaskManager.has_id id (obj_at w1 l)) (arr_at w1 a))
      as [[idx current]|] eqn:Hfind.
    + rewrite (update_run_some id changes w w1 a idx current Hload Ha Hfind) in Hupd.
      cbv zeta in Hupd. injection Hupd as <- <-.
      split; [|done]. exists a. by split.
    + rewrite (update_run_none id changes w w1 a Hload Ha Hfind) in Hupd.
      by injection Hupd as <- <-.
  - intros id r w' Hdel.
    destruct (list_find (λ l, TaskManager.has_id id (obj_at w1 l)) (arr_at w1 a))
      as [[idx t]|] eqn:Hfind.
    + rewrite (softDelete_run_some id w w1 a idx t Hload Ha Hfind) in Hdel.
      cbv zeta in Hdel. injection Hdel as <- <-.
      split; [|done]. exists a. by split.
    + rewrite (softDelete_run_none id w w1 a Hload Ha Hfind) in Hdel.
      by injection Hdel as <- <-.
  - intros id r w' Hdel.
    rewrite (hardDelete_run id w w1 a Hload Ha) in Hdel. cbv zeta in Hdel.
    injection Hdel as <- <-. split; [|done].
    exists (fresh (dom (arrs w1))). by split.
Qed.

End cache_and_file.

(** ** How the operations of the manager compose *)
Section composing.
Context `{Platform}.

Lemma list_find_agree {A B} (p : B → bool) (f g : A → B) (l : list A) :
  (∀ x, x ∈ l → f x = g x) →
  list_find (λ x, p (f x)) l = list_find (λ x, p (g x)) l.
Proof.
  induction l as [|x l IH]; intros Hfg; [done|]. simpl.
  rewrite (Hfg x) by left. rewrite IH; [done|]. intros y Hy. apply Hfg. by right.
Qed.

Lemma filter_Forall_id {A} (P : A → Prop) `{!∀ x, Decision (P x)} (l : list A) :
  Forall P l → filter P l = l.
Proof.
  induction 1 as [|x l Hx Hl IH]; [done|].
  rewrite filter_cons, decide_True by done. by rewrite IH.
Qed.

(** X7. [reload] reads back what was written: when the file holds the
    collection of the cache, the collection after [reload] is made of
    new objects, one for each task that had a text [id] and a text
    [title], in the same order, and each task that a JSON document can
    hold is read back with the same value at every property.  The file
    is not written, and the objects of the old cache are left as they
    were, no longer part of the collection. *)
Theorem reload_reads_back (w : world) :
  (∀ l, JSON_parse (JSON_stringify (VArray l)) = Some (jsonify (VArray l))) →
  disk_in_sync w →
  ∃ w',
    TaskManager.reload w = (Ok (), w')
    ∧ records w'
      = reread <$> filter (λ t, TaskRepository.minimal_shape (VObject t)) (records w)
    ∧ (Forall has_shape (records w) → Forall serialisable (records w) →
       Forall2 same_props (records w) (records w'))
    ∧ Forall (λ l, objs w !! l = None) (collection w')
    ∧ objs w ⊆ objs w' ∧ arrs w ⊆ arrs w'
    ∧ file w' = file w ∧ writes w' = writes w.
Proof.
  intros Hjson (a & Hcache & Hfile).
  destruct (readAll_run_array w _ (jsonify <$> (VObject <$> tasks_of w a)) Hfile (Hjson _))
    as (ls & w2 & Hrun & Ha & Hf & Hw & Hc & Hsub & Hos & Hnew).
  cbv zeta in Hrun. unfold TaskManager.reload.
  rewrite (run_bind _ _ _ _ _ Hrun).
  set (w' := set_cache (Some (fresh (dom (arrs w2))))
               (set_arrs <[fresh (dom (arrs w2)) := ls]> w2)).
  exists w'. split; [reflexivity|].
  assert (collection w' = ls) as Hcol
    by (unfold collection, w'; simpl; by autorewrite with heap).
  assert (records w' = obj_at w2 <$> ls) as Hrec'
    by (unfold records; by rewrite Hcol).
  assert (records w = tasks_of w a) as Hrec.
  { unfold records, collection, tasks_of. by rewrite Hcache. }
  rewrite Hrec', Hcol, Hrec, Hos, kept_records.
  split; [done|]. split.
  { intros Hshape Hser.
    rewrite filter_Forall_id.
    - apply Forall2_fmap_r, Forall_Forall2_diag.
      eapply Forall_impl; [exact Hser|]. apply same_props_reread.
    - eapply Forall_impl; [exact Hshape|]. intros t Ht. apply Is_true_true.
      apply minimal_shape_object. eauto. }
  split; [eapply Forall_impl; [exact Hnew|]; by intros l [? _]|].
  split; [exact Hsub|]. split; [|by split].
  unfold w'. simpl. rewrite Ha. apply insert_subseteq. rewrite <- Ha. apply fresh_array.
Qed.

(** X8. [add] then [findById]: the task that [add] returns has the id of
    the payload, or the new uuid when the payload has none, and
    [findById] of that id returns this very task when no task of the
    collection had the id; when one had it, [findById] returns a task
    that was there before. *)
Theorem add_then_findById
    (uuid now : string) (payload : object) (id title : string) (w w1 : world) :
  TaskManager.loadIfNeeded w = (Ok (), w1) →
  cache_allocated w1 →
  payload !! "title" = Some (VString title) → title ≠ "" →
  nullish (get_prop payload "id") (VString uuid) = VString id →
  ∃ t w',
    TaskManager.add uuid now payload w = (Ok t, w')
    ∧ get_prop (obj_at w' t) "id" = VString id
    ∧ ((∀ u, u ∈ records w1 → TaskManager.has_id id u = false) →
       TaskManager.findById id w' = (Ok (Some t), w'))
    ∧ ((∃ u, u ∈ records w1 ∧ TaskManager.has_id id u = true) →
       ∃ l, TaskManager.findById id w' = (Ok (Some l), w')
            ∧ l ∈ collection w1 ∧ l ≠ t).
Proof.
  intros Hload Halloc Htitle Hne Hid.
  destruct (loadIfNeeded_Ok _ _ Hload) as [a Ha].
  destruct (add_run_titled uuid now payload w w1 a title Hload Ha Htitle Hne)
    as (o & Hoid & _ & _ & Hrun). cbv zeta in Hrun. rewrite Hid in Hoid.
  unfold cache_allocated in Halloc. rewrite (collection_loaded _ _ Ha) in Halloc.
  rewrite Forall_forall in Halloc.
  eexists _, _. split; [exact Hrun|].
  set (t := fresh (dom (objs w1))) in *.
  set (w' := set_file _ _).
  assert (cache w' = Some a) as Ha' by done.
  assert (TaskManager.loadIfNeeded w' = (Ok (), w')) as Hload'
    by (by eapply loadIfNeeded_loaded).
  assert (arr_at w' a = arr_at w1 a ++ [t]) as Harr
    by (unfold w'; by autorewrite with heap).
  assert (obj_at w' t = o) as Ht by (unfold w'; by autorewrite with heap).
  assert (∀ l, l ∈ arr_at w1 a → obj_at w' l = obj_at w1 l) as Hold.
  { intros l Hl. unfold w'. autorewrite with heap. apply obj_at_old.
    apply not_eq_sym, allocated_not_fresh, Halloc, Hl. }
  assert (list_find (λ l, TaskManager.has_id id (obj_at w' l)) (arr_at w1 a)
          = list_find (λ l, TaskManager.has_id id (obj_at w1 l)) (arr_at w1 a)) as Hfind
    by (by apply list_find_agree).
  rewrite Ht. split; [done|].
  rewrite (findById_run id w' w' a Hload' Ha'), Harr.
  unfold records. rewrite (collection_loaded _ _ Ha). split.
  - intros Hnone. apply find_none_iff in Hnone.
    rewrite list_find_app_r by (by rewrite Hfind). simpl.
    rewrite Ht. rewrite decide_True; [done|].
    apply Is_true_true. unfold TaskManager.has_id. rewrite Hoid. simpl.
    apply String.eqb_refl.
  - intros Hsome. apply find_some_if in Hsome as (idx & l & Hl).
    exists l. rewrite (list_find_app_l _ _ _ idx l) by (by rewrite Hfind).
    apply list_find_Some in Hl as (Hidx & _ & _).
    assert (l ∈ arr_at w1 a) as Hin by (by eapply list_elem_of_lookup_2).
    split; [done|]. split; [done|].
    unfold t. apply allocated_not_fresh, Halloc, Hin.
Qed.

(** X9. After [hardDelete id] no task has the id: [findById], [update]
    and [softDelete] of that id find nothing and change nothing, and a
    second [hardDelete] returns false and leaves the collection as it
    is. *)
Theorem hardDelete_then_gone (id : string) (w w1 : world) r w' :
  TaskManager.loadIfNeeded w = (Ok (), w1) →
  TaskManager.hardDelete id w = (r, w') →
  (∀ t, t ∈ records w' → TaskManager.has_id id t = false)
  ∧ TaskManager.findById id w' = (Ok None, w')
  ∧ (∀ changes, TaskManager.update id changes w' = (Ok None, w'))
  ∧ TaskManager.softDelete id w' = (Ok false, w')
  ∧ ∃ w'', TaskManager.hardDelete id w' = (Ok false, w'')
           ∧ collection w'' = collection w'.
Proof.
  intros Hload Hdel. destruct (loadIfNeeded_Ok _ _ Hload) as [a Ha].
  rewrite (hardDelete_run id w w1 a Hload Ha) in Hdel. cbv zeta in Hdel.
  injection Hdel as <- <-.
  set (c := fresh (dom (arrs w1))).
  set (kept := filter (λ l, negb (TaskManager.has_id id (obj_at w1 l))) (arr_at w1 a)).
  set (w' := set_file _ _).
  assert (cache w' = Some c) as Hc by done.
  assert (TaskManager.loadIfNeeded w' = (Ok (), w')) as Hload'
    by (by eapply loadIfNeeded_loaded).
  assert (arr_at w' c = kept) as Harr by (unfold w'; by autorewrite with heap).
  assert (∀ t, t ∈ obj_at w' <$> arr_at w' c → TaskManager.has_id id t = false) as Hnone.
  { intros t Ht. rewrite Harr in Ht. apply list_elem_of_fmap in Ht as (l & -> & Hl).
    apply list_elem_of_filter in Hl as [Hl _].
    unfold w'. autorewrite with heap.
    by destruct (TaskManager.has_id id (obj_at w1 l)). }
  pose proof Hnone as Hfind. apply find_none_iff in Hfind.
  split; [unfold records; rewrite (collection_loaded _ _ Hc); exact Hnone|].
  split; [by rewrite (findById_run id w' w' c Hload' Hc), Hfind|].
  split; [intros; by eapply update_run_none|].
  split; [by eapply softDelete_run_none|].
  rewrite (hardDelete_run id w' w' c Hload' Hc). cbv zeta.
  eexists. split.
  - f_equal. f_equal. apply Nat.ltb_ge. apply Nat.eq_le_incl. f_equal.
    symmetry. apply filter_Forall_id. apply Forall_forall. intros l Hl.
    rewrite (Hnone (obj_at w' l)); [done|]. by apply list_elem_of_fmap_2.
  - unfold collection. simpl. autorewrite with heap.
    apply filter_Forall_id. apply Forall_forall. intros l Hl.
    rewrite (Hnone (obj_at w' l)); [done|]. by apply list_elem_of_fmap_2.
Qed.

End composing.

(** * Listing and sorting *)
Section listing.
Context `{Platform}.

Lemma list_run (options : option ListOptions) (w w1 : world) a :
  TaskManager.loadIfNeeded w = (Ok (), w1) →
  cache w1 = Some a →
  TaskManager.list options w
  = (let shown :=
       if default false (options ≫= includeDeleted) then (a, w1)
       else (fresh (dom (arrs w1)),
             set_arrs <[fresh (dom (arrs w1)) :=
                          filter (λ l, isNotDeleted (obj_at w1 l)) (arr_at w1 a)]> w1) in
     match options ≫= sortBy with
     | None => (Ok shown.1, shown.2)
     | Some s =>
         (Ok (fresh (dom (arrs shown.2))),
          set_arrs <[fresh (dom (arrs shown.2)) :=
                       Array_sort (λ x y, comparison s (obj_at shown.2 x) (obj_at shown.2 y))
                         (arr_at shown.2 shown.1)]> shown.2)
     end).
Proof.
  intros Hload Ha. unfold TaskManager.list.
  rewrite (run_bind _ _ _ _ _ Hload).
  rewrite (run_bind _ _ _ _ _ (this_cache_run _ _ Ha)).
  destruct (default false (options ≫= includeDeleted)); simpl.
  - unfold mbind at 1, M_bind at 1, mret at 1, M_ret at 1.
    destruct (options ≫= sortBy) as [[]|]; first [apply sort_copy_run|reflexivity].
  - unfold mbind at 1, M_bind at 1, Array_filter, new_array.
    destruct (options ≫= sortBy) as [[]|]; first [apply sort_copy_run|reflexivity].
Qed.

Lemma fresh_array_subseteq (w : world) ls :
  arrs w ⊆ arrs (set_arrs <[fresh (dom (arrs w)) := ls]> w).
Proof. simpl. apply insert_subseteq, fresh_array. Qed.

Lemma arr_at_subseteq (w w' : world) a :
  arrs w ⊆ arrs w' → is_Some (arrs w !! a) → arr_at w' a = arr_at w a.
Proof.
  intros Hsub [ls Hls]. unfold arr_at.
  by rewrite (lookup_weaken _ _ _ _ Hls Hsub), Hls.
Qed.

(** X10. [list] only reads: whatever the options, it returns an array
    that holds the tasks of the collection, without the deleted ones
    unless [includeDeleted] is set, in the order of the collection
    when no sort is asked for.  The tasks, the file and the cache are
    as they were, every array that was there is as it was, and so the
    collection keeps its order even when the result is sorted. *)
Theorem list_only_reads (options : option ListOptions) (w w1 : world) :
  TaskManager.loadIfNeeded w = (Ok (), w1) →
  cache_array w1 →
  ∃ r w',
    TaskManager.list options w = (Ok r, w')
    ∧ arr_at w' r ≡ₚ listed options w1
    ∧ (options ≫= sortBy = None → arr_at w' r = listed options w1)
    ∧ objs w' = objs w1 ∧ file w' = file w1 ∧ writes w' = writes w1
    ∧ cache w' = cache w1
    ∧ arrs w1 ⊆ arrs w'
    ∧ collection w' = collection w1.
Proof.
  intros Hload (a & Ha & Harr).
  rewrite (list_run options w w1 a Hload Ha). cbv zeta.
  set (shown := if default false (options ≫= includeDeleted) then _ else _).
  assert (arr_at shown.2 shown.1
          = (if default false (options ≫= includeDeleted) then arr_at w1 a
             else filter (λ l, isNotDeleted (obj_at w1 l)) (arr_at w1 a))
          ∧ objs shown.2 = objs w1 ∧ file shown.2 = file w1
          ∧ writes shown.2 = writes w1 ∧ cache shown.2 = cache w1
          ∧ arrs w1 ⊆ arrs shown.2) as (Hshown & Hobjs & Hfile & Hwrites & Hcache & Hsub).
  { unfold shown. destruct (default false (options ≫= includeDeleted)); simpl.
    - done.
    - split; [by rewrite arr_at_new|]. repeat (split; [done|]).
      apply insert_subseteq, fresh_array. }
  assert (listed options w1 = arr_at shown.2 shown.1) as ->.
  { rewrite Hshown. unfold listed. by rewrite (collection_loaded _ _ Ha). }
  clear Hshown.
  assert (∀ w' : world, cache w' = cache w1 → arrs w1 ⊆ arrs w' →
                        collection w' = collection w1) as Hcol.
  { intros w' Hc Hs. unfold collection. rewrite Hc, Ha. simpl.
    by apply arr_at_subseteq. }
  destruct (options ≫= sortBy) as [s|].
  - eexists _, _. split; [reflexivity|]. autorewrite with heap.
    split; [by rewrite Array_sort_perm|]. split; [done|].
    simpl. repeat (split; [done|]).
    assert (arrs w1 ⊆ <[fresh (dom (arrs shown.2)) :=
                          Array_sort (λ x y, comparison s (obj_at shown.2 x) (obj_at shown.2 y))
                            (arr_at shown.2 shown.1)]> (arrs shown.2)) as Hsub'.
    { etrans; [exact Hsub|]. apply insert_subseteq, fresh_array. }
    split; [exact Hsub'|]. by apply Hcol.
  - eexists _, _. split; [reflexivity|]. simpl.
    split; [done|]. split; [done|].
    repeat (split; [done|]). by apply Hcol.
Qed.


End listing.

(** * The order of sorted tasks *)
Section stable.
Context {A : Type} (cmp : A → A → number) (P : A → Prop) `{!∀ x, Decision (P x)}.

(** [sort] is stable: elements that the comparison never puts one
    after the other keep their order. *)
Lemma sort_insert_stable a l :
  (∀ b, b ∈ l → goes_after cmp a b = true → P a → P b → False) →
  filter P (sort_insert cmp a l) = filter P (a :: l).
Proof.
  induction l as [|b l IH]; intros Hab; [done|]. simpl.
  destruct (goes_after cmp a b) eqn:Hgo; [|done].
  rewrite (filter_cons _ b), IH by (intros c Hc; apply Hab; by right).
  rewrite (filter_cons _ a), (filter_cons _ a), (filter_cons _ b).
  destruct (decide (P b)) as [Hb|Hb], (decide (P a)) as [Ha|Ha]; try done.
  exfalso. by apply (Hab b); [left|..].
Qed.

Lemma Array_sort_stable l :
  (∀ a b, a ∈ l → b ∈ l → goes_after cmp a b = true → P a → P b → False) →
  filter P (Array_sort cmp l) = filter P l.
Proof.
  induction l as [|a l IH]; intros Hab; [done|].
  change (Array_sort cmp (a :: l)) with (sort_insert cmp a (Array_sort cmp l)).
  rewrite sort_insert_stable.
  - rewrite !(filter_cons _ a), IH; [done|].
    intros x y Hx Hy. apply Hab; by right.
  - intros b Hb. rewrite Array_sort_perm in Hb. apply Hab; [left|by right].
Qed.

End stable.

Section sorting.
Context `{Platform}.

(** X12. [sortByDifficulty] is stable: the tasks of one rank come in the
    copy in the order they had in the array, so that sorting a list
    that is sorted by another key keeps that order within each
    difficulty. *)
Theorem sortByDifficulty_is_stable (w : world) (tasks : loc) :
  ∃ copy w',
    sortByDifficulty tasks w = (Ok copy, w')
    ∧ objs w' = objs w
    ∧ ∀ r : Z, filter (λ l, rank (obj_at w' l) = r) (arr_at w' copy)
               = filter (λ l, rank (obj_at w l) = r) (arr_at w tasks).
Proof.
  eexists _, _. unfold sortByDifficulty. split; [apply sort_copy_run|].
  split; [done|]. intros r. autorewrite with heap.
  apply (Array_sort_stable _ (λ l, rank (obj_at w l) = r)).
  intros a b _ _ Hgo Ha Hb. revert Hgo.
  unfold goes_after, byDifficulty, rank in *. simpl. rewrite Ha, Hb.
  by rewrite Z.sub_diag.
Qed.

#[local] Instance created_le_trans : Transitive created_le.
Proof.
  intros t u v (zt & zu & Hzt & Hzu & Hle) (zu' & zv & Hzu' & Hzv & Hle').
  exists zt, zv. split; [done|]. split; [done|].
  unfold created_at in *. rewrite Hzu in Hzu'. injection Hzu' as <-. lia.
Qed.

Lemma byCreation_decides t u zt zu :
  created_at t zt → created_at u zu →
  goes_after byCreation t u = bool_decide (zu < zt)%Z.
Proof.
  unfold created_at, goes_after, byCreation. intros -> ->. simpl.
  destruct (Z.ltb_spec 0 (zt - zu));
    [rewrite bool_decide_eq_true_2|rewrite bool_decide_eq_false_2]; lia.
Qed.

(** X13. When every [createdAt] is a date, [sortByCreation] returns a
    new array and leaves its argument as it was; the new array holds
    the same tasks from the earliest to the latest, and the tasks
    created at the same time come in the order they had. *)
Theorem sortByCreation_copy_sorted (w : world) (tasks : loc) :
  is_Some (arrs w !! tasks) →
  Forall (λ t, ∃ z, created_at t z) (tasks_of w tasks) →
  ∃ copy w',
    sortByCreation tasks w = (Ok copy, w')
    ∧ copy ≠ tasks
    ∧ arrs w !! copy = None
    ∧ arrs w' !! tasks = arrs w !! tasks
    ∧ objs w' = objs w
    ∧ arr_at w' copy ≡ₚ arr_at w tasks
    ∧ StronglySorted created_le (tasks_of w' copy)
    ∧ ∀ z, filter (λ l, created_at (obj_at w' l) z) (arr_at w' copy)
           = filter (λ l, created_at (obj_at w l) z) (arr_at w tasks).
Proof.
  intros Harr Hok. eexists _, _. unfold sortByCreation.
  split; [apply sort_copy_run|].
  destruct (sort_copy_fresh w tasks
              (Array_sort (λ x y, byCreation (obj_at w x) (obj_at w y)) (arr_at w tasks))
              Harr) as [Hne Hsame].
  split; [done|]. split; [apply fresh_array|]. split; [done|]. split; [done|].
  split; [rewrite arr_at_new; apply Array_sort_perm|].
  assert (∀ l, l ∈ arr_at w tasks → ∃ z, created_at (obj_at w l) z) as Hat.
  { intros l Hl. rewrite Forall_forall in Hok. apply Hok. unfold tasks_of.
    by apply list_elem_of_fmap_2. }
  split.
  - rewrite tasks_of_sorted. apply StronglySorted_fmap, Array_sort_sorted.
    + intros x y z Hxy Hyz. exact (created_le_trans _ _ _ Hxy Hyz).
    + intros a b Ha Hb. destruct (Hat a Ha) as [za Hza], (Hat b Hb) as [zb Hzb].
      change (goes_after _ a b) with (goes_after byCreation (obj_at w a) (obj_at w b)).
      rewrite (byCreation_decides _ _ _ _ Hza Hzb).
      destruct (decide (zb < za)%Z).
      * rewrite bool_decide_eq_true_2 by done. exists zb, za. repeat split; try done. lia.
      * rewrite bool_decide_eq_false_2 by done. exists za, zb. repeat split; try done. lia.
  - intros z. autorewrite with heap.
    apply (Array_sort_stable _ (λ l, created_at (obj_at w l) z)).
    intros a b _ _ Hgo Hza Hzb.
    change (goes_after _ a b) with (goes_after byCreation (obj_at w a) (obj_at w b)) in Hgo.
    rewrite (byCreation_decides _ _ _ _ Hza Hzb) in Hgo.
    apply bool_decide_eq_true_1 in Hgo. lia.
Qed.


End sorting.

(** * Counting the tasks *)
Section counting.
Context `{Platform} `{Coercions}.

Lemma count_of_app field s (ts us : list object) :
  count_of field s (ts ++ us) = count_of field s ts + count_of field s us.
Proof. unfold count_of. by rewrite filter_app, length_app. Qed.

Lemma count_of_one field s (t : object) k :
  get_prop t field = VString k →
  count_of field s [t] = if String.eqb k s then 1 else 0.
Proof.
  intros Hk. unfold count_of. rewrite filter_cons, Hk. simpl.
  by destruct (String.eqb k s).
Qed.

Lemma counted_succ (acc : object) (s : string) (n : nat) :
  inherited_plus_one s = None → s ≠ "__proto__" → acc !! s = counted n →
  tally acc (VString s) = Ok (<[s := VNumber (Finite (Z.of_nat (S n)))]> acc).
Proof.
  intros Hplain Hne Hacc. unfold tally. rewrite Hacc.
  apply String.eqb_neq in Hne. unfold counted.
  destruct (decide (n = 0)) as [->|Hn].
  - by rewrite Hplain, Hne.
  - unfold plus_one. simpl.
    destruct (Z.eqb_spec (Z.of_nat n) 0) as [|_]; [lia|]. simpl. rewrite Hne.
    do 4 f_equal. lia.
Qed.

Lemma tally_proto (acc : object) :
  acc !! "__proto__" = None → tally acc (VString "__proto__") = Ok acc.
Proof. intros Hacc. unfold tally. by rewrite Hacc. Qed.

(** The accumulator after the tasks [ts]. *)
Lemma tally_all_counts field (ts seen : list object) (acc : object) :
  Forall (keyed_by field) ts →
  (∀ s, acc !! s = if decide (s = "__proto__") then None
                   else counted (count_of field s seen)) →
  ∃ m, tally_all field ts acc = Ok m
       ∧ ∀ s, m !! s = if decide (s = "__proto__") then None
                       else counted (count_of field s (seen ++ ts)).
Proof.
  revert seen acc. induction ts as [|t ts IH]; intros seen acc Hkeys Hacc.
  - exists acc. split; [done|]. by rewrite app_nil_r.
  - apply Forall_cons in Hkeys as [(k & Hk & Hown) Hkeys]. simpl. rewrite Hk.
    assert (∃ acc', tally acc (VString k) = Ok acc'
                    ∧ ∀ s, acc' !! s = if decide (s = "__proto__") then None
                                       else counted (count_of field s (seen ++ [t])))
      as (acc' & -> & Hacc').
    { destruct (decide (k = "__proto__")) as [->|Hne].
      - exists acc. split.
        + apply tally_proto. by rewrite Hacc.
        + intros s. rewrite Hacc. destruct (decide (s = "__proto__")) as [|Hs]; [done|].
          rewrite count_of_app, (count_of_one _ _ _ _ Hk).
          destruct (String.eqb_spec "__proto__" s); [done|]. by rewrite Nat.add_0_r.
      - destruct Hown as [|Hown]; [done|].
        eexists. split.
        + apply (counted_succ _ _ (count_of field k seen)); [done..|].
          rewrite Hacc. by rewrite decide_False.
        + intros s. rewrite count_of_app, (count_of_one _ _ _ _ Hk).
          destruct (String.eqb_spec k s) as [<-|Hks].
          * rewrite lookup_insert_eq, decide_False by done. unfold counted.
            rewrite decide_False by lia. do 3 f_equal. lia.
          * rewrite lookup_insert_ne by done. by rewrite Hacc, Nat.add_0_r. }
    destruct (IH (seen ++ [t]) acc' Hkeys Hacc') as (m & Hm & Hcount).
    exists m. split; [done|]. intros s. by rewrite Hcount, <- app_assoc.
Qed.

Lemma stats_by_run field (tasks : loc) (w : world) :
  stats_by field tasks w
  = (tally_all field (not_deleted (tasks_of w tasks)) ∅,
     set_arrs <[fresh (dom (arrs w)) :=
                  filter (λ l, isNotDeleted (obj_at w l)) (arr_at w tasks)]> w).
Proof.
  unfold stats_by, mbind, M_bind, Array_filter, new_array, Array_elements, from_result.
  simpl. rewrite tasks_of_sorted. unfold not_deleted, tasks_of.
  by rewrite <- (filter_fmap_comm (obj_at w) (λ t, isNotDeleted t)).
Qed.

Lemma kept_array (tasks : loc) (w : world) ls :
  is_Some (arrs w !! tasks) →
  arr_at (set_arrs <[fresh (dom (arrs w)) := ls]> w) tasks = arr_at w tasks.
Proof. intros Harr. apply arr_at_old. by apply (sort_copy_fresh w tasks ls). Qed.

Lemma stats_by_counts field (tasks : loc) (w : world) :
  Forall (keyed_by field) (not_deleted (tasks_of w tasks)) →
  ∃ m w', stats_by field tasks w = (Ok m, w')
          ∧ (∀ s, m !! s = if decide (s = "__proto__") then None
                          else counted (count_of field s (not_deleted (tasks_of w tasks))))
          ∧ objs w' = objs w
          ∧ (is_Some (arrs w !! tasks) → arr_at w' tasks = arr_at w tasks).
Proof.
  intros Hkeys. rewrite stats_by_run.
  destruct (tally_all_counts field (not_deleted (tasks_of w tasks)) [] ∅ Hkeys)
    as (m & Hm & Hcount).
  { intros s. rewrite lookup_empty. by destruct (decide (s = "__proto__")). }
  exists m. eexists. rewrite Hm. split; [reflexivity|].
  split; [exact Hcount|]. split; [done|]. apply kept_array.
Qed.

Lemma statsTotal_run (tasks : loc) (w : world) :
  statsTotal tasks w
  = (Ok (length (not_deleted (tasks_of w tasks))),
     set_arrs <[fresh (dom (arrs w)) :=
                  filter (λ l, isNotDeleted (obj_at w l)) (arr_at w tasks)]> w).
Proof.
  unfold statsTotal, mbind, M_bind, Array_filter, new_array, Array_length.
  simpl. rewrite arr_at_new. unfold not_deleted, tasks_of.
  by rewrite <- (filter_fmap_comm (obj_at w) (λ t, isNotDeleted t)), length_fmap.
Qed.

(** X15. The three counts are over the tasks that are not deleted.
    [statsTotal] is their number.  When the status of each of them is
    a text that is a key of its own in the accumulator,
    [statsByStatus] has, for each status, the number of tasks with
    that status, and no key for a status that no task has; the text
    [__proto__] is never a key, so that a task with this status is
    counted by [statsTotal] only.  [statsByDifficulty] does the same
    with the difficulty.  The array is left as it was. *)
Theorem stats_count_the_live_tasks (tasks : loc) (w : world) :
  (∃ w', statsTotal tasks w = (Ok (length (not_deleted (tasks_of w tasks))), w')
         ∧ objs w' = objs w
         ∧ (is_Some (arrs w !! tasks) → arr_at w' tasks = arr_at w tasks))
  ∧ (Forall (keyed_by "status") (not_deleted (tasks_of w tasks)) →
     ∃ m w', statsByStatus tasks w = (Ok m, w')
             ∧ (∀ s, m !! s = if decide (s = "__proto__") then None
                             else counted (count_of "status" s
                                             (not_deleted (tasks_of w tasks))))
             ∧ objs w' = objs w
             ∧ (is_Some (arrs w !! tasks) → arr_at w' tasks = arr_at w tasks))
  ∧ (Forall (keyed_by "difficulty") (not_deleted (tasks_of w tasks)) →
     ∃ m w', statsByDifficulty tasks w = (Ok m, w')
             ∧ (∀ s, m !! s = if decide (s = "__proto__") then None
                             else counted (count_of "difficulty" s
                                             (not_deleted (tasks_of w tasks))))
             ∧ objs w' = objs w
             ∧ (is_Some (arrs w !! tasks) → arr_at w' tasks = arr_at w tasks)).
Proof.
  split; [|split].
  - eexists. split; [apply statsTotal_run|]. split; [done|]. apply kept_array.
  - apply stats_by_counts.
  - apply stats_by_counts.
Qed.

Lemma tasks_of_subseteq (w w' : world) a :
  objs w' = objs w → arrs w ⊆ arrs w' → is_Some (arrs w !! a) →
  tasks_of w' a = tasks_of w a.
Proof.
  intros Hobjs Hsub Harr. unfold tasks_of. rewrite (arr_at_subseteq _ _ _ Hsub Harr).
  unfold obj_at. by rewrite Hobjs.
Qed.

(** X16. [statistics] counts the tasks of the collection that are not
    deleted: [total] is the number of tasks that [list()] returns, and
    [byStatus] and [byDifficulty] hold the number of them for each
    status and each difficulty, so that no count is above [total].
    Nothing but new arrays is made: the tasks, the collection and the
    file are as they were. *)
Theorem statistics_counts (w w1 : world) :
  TaskManager.loadIfNeeded w = (Ok (), w1) →
  cache_array w1 →
  Forall (keyed_by "status") (live w1) →
  Forall (keyed_by "difficulty") (live w1) →
  ∃ byStatus byDifficulty w',
    TaskManager.statistics w
    = (Ok (VObject {[ "total" := VNumber (Finite (Z.of_nat (length (live w1))));
                      "byStatus" := VObject byStatus;
                      "byDifficulty" := VObject byDifficulty ]}), w')
    ∧ (∀ s, byStatus !! s = if decide (s = "__proto__") then None
                            else counted (count_of "status" s (live w1)))
    ∧ (∀ s, byDifficulty !! s = if decide (s = "__proto__") then None
                                else counted (count_of "difficulty" s (live w1)))
    ∧ (∀ s, count_of "status" s (live w1) ≤ length (live w1)
            ∧ count_of "difficulty" s (live w1) ≤ length (live w1))
    ∧ (∃ r w'', TaskManager.list None w = (Ok r, w'')
                ∧ length (arr_at w'' r) = length (live w1))
    ∧ objs w' = objs w1 ∧ file w' = file w1 ∧ writes w' = writes w1
    ∧ cache w' = cache w1 ∧ collection w' = collection w1.
Proof.
  intros Hload (a & Ha & Harr) Hstatus Hdifficulty.
  assert (live w1 = not_deleted (tasks_of w1 a)) as Hlive
    by (unfold live, records; by rewrite (collection_loaded _ _ Ha)).
  rewrite Hlive in *.
  unfold TaskManager.statistics. rewrite (run_bind _ _ _ _ _ Hload).
  rewrite (run_bind _ _ _ _ _ (this_cache_run _ _ Ha)).
  rewrite (run_bind _ _ _ _ _ (statsTotal_run a w1)).
  set (w2 := set_arrs _ w1).
  assert (arrs w1 ⊆ arrs w2) as Hsub2 by apply fresh_array_subseteq.
  assert (tasks_of w2 a = tasks_of w1 a) as Hts2 by (by apply tasks_of_subseteq).
  unfold statsByStatus, statsByDifficulty.
  unfold mbind at 1, M_bind at 1. rewrite stats_by_run, Hts2.
  destruct (tally_all_counts "status" (not_deleted (tasks_of w1 a)) [] ∅ Hstatus)
    as (byStatus & -> & HbyStatus).
  { intros s. rewrite lookup_empty. by destruct (decide (s = "__proto__")). }
  set (w3 := set_arrs _ w2).
  assert (arrs w1 ⊆ arrs w3) as Hsub3
    by (etrans; [exact Hsub2|apply fresh_array_subseteq]).
  assert (tasks_of w3 a = tasks_of w1 a) as Hts3 by (by apply tasks_of_subseteq).
  unfold mbind at 1, M_bind at 1. rewrite stats_by_run, Hts3.
  destruct (tally_all_counts "difficulty" (not_deleted (tasks_of w1 a)) [] ∅ Hdifficulty)
    as (byDifficulty & -> & HbyDifficulty).
  { intros s. rewrite lookup_empty. by destruct (decide (s = "__proto__")). }
  set (w4 := set_arrs _ w3).
  assert (arrs w1 ⊆ arrs w4) as Hsub4
    by (etrans; [exact Hsub3|apply fresh_array_subseteq]).
  exists byStatus, byDifficulty, w4. split; [reflexivity|].
  split; [exact HbyStatus|]. split; [exact HbyDifficulty|].
  split.
  { intros s. unfold count_of. split; apply length_filter. }
  split.
  { destruct (list_only_reads None w w1 Hload) as (r & w'' & Hrun & Hperm & _);
      [by exists a|].
    exists r, w''. split; [exact Hrun|]. rewrite Hperm. unfold listed. simpl.
    rewrite (collection_loaded _ _ Ha). unfold not_deleted, tasks_of.
    by rewrite <- (filter_fmap_comm (obj_at w1) (λ t, isNotDeleted t)), length_fmap. }
  do 4 (split; [done|]).
  unfold collection. change (cache w4) with (cache w1). rewrite Ha. simpl.
  by apply arr_at_subseteq.
Qed.

End counting.

(** * The queries of the manager *)
Section queries.
Context `{Platform} `{Coercions}.


Lemma filter_result_Throw {A} (p : A → result bool) e (l : list A) x :
  x ∈ l → p x = Throw e →
  (∀ y e', y ∈ l → p y = Throw e' → e' = e) →
  filter_result p l = Throw e.
Proof.
  induction l as [|y l IH]; intros Hx Hpx Hall; [by apply elem_of_nil in Hx|].
  simpl. destruct (p y) as [b|e'] eqn:Hpy.
  - apply elem_of_cons in Hx as [->|Hx]; [congruence|].
    rewrite IH; [done|done|done|]. intros z e' Hz. apply Hall. by right.
  - f_equal. apply (Hall y); [left|done].
Qed.


Lemma query_run (p : object → result bool) (w w1 : world) a :
  TaskManager.loadIfNeeded w = (Ok (), w1) →
  cache w1 = Some a →
  (TaskManager.loadIfNeeded;; c ← TaskManager.this_cache; Array_filter_with p c) w
  = match filter_result (λ l, p (obj_at w1 l)) (arr_at w1 a) with
    | Ok ls => (Ok (fresh (dom (arrs w1))), set_arrs <[fresh (dom (arrs w1)) := ls]> w1)
    | Throw e => (Throw e, w1)
    end.
Proof.
  intros Hload Ha. rewrite (run_bind _ _ _ _ _ Hload).
  rewrite (run_bind _ _ _ _ _ (this_cache_run _ _ Ha)).
  unfold Array_filter_with, new_array. by destruct (filter_result _ _).
Qed.





Lemma existsb_strict_equals (elems : list value) x :
  existsb (λ e, strict_equals e (VString x)) elems = true ↔ VString x ∈ elems.
Proof.
  induction elems as [|e elems IH]; simpl.
  - split; [done|]. by intros ?%elem_of_nil.
  - rewrite orb_true_iff, IH, elem_of_cons, strict_equals_string. split.
    + intros [->|?]; [by left|by right].
    + intros [<-|?]; [by left|by right].
Qed.

Lemma member_of (v : value) (x : string) :
  texts_or_absent v →
  ∃ b, (if truthy v then includes v x else Ok false) = Ok b
       ∧ (b = true ↔ texts_in v x).
Proof.
  unfold texts_in. intros [->|[elems ->]]; simpl.
  - exists false. split; [done|]. split; [done|]. by intros (elems & ? & _).
  - eexists. split; [done|]. rewrite existsb_strict_equals. split.
    + intros Hin. by exists elems.
    + by intros (elems' & [= <-] & Hin).
Qed.

Lemma no_includes (v : value) (x : string) :
  truthy v = true → (∀ elems, v ≠ VArray elems) → (∀ s, v ≠ VString s) →
  (if truthy v then includes v x else Ok false) = Throw TypeError.
Proof.
  intros -> Harr Hstr. destruct v; try done.
  - by destruct (Hstr s).
  - by destruct (Harr elems).
Qed.

Lemma relatedTo_error (id : string) (t : object) e :
  relatedTo id t = Throw e → e = TypeError.
Proof.
  unfold relatedTo, includes.
  destruct (get_prop t "relatedIds"); simpl; intros Heq;
    repeat case_match; by simplify_eq.
Qed.

(** X19. [predicate.hasTag] and [predicate.relatedTo] on a task whose
    [tags] and [relatedIds] are arrays or are absent, as [ITask]
    declares them: they do not throw, and they hold exactly when the
    text is an element of the array.  On a task that holds there a
    number other than 0, [true] or an object, they throw a
    [TypeError]. *)
Theorem predicate_membership (x : string) (t : object) :
  (texts_or_absent (get_prop t "tags") →
   ∃ b, hasTag x t = Ok b ∧ (b = true ↔ texts_in (get_prop t "tags") x))
  ∧ (texts_or_absent (get_prop t "relatedIds") →
     ∃ b, relatedTo x t = Ok b ∧ (b = true ↔ texts_in (get_prop t "relatedIds") x))
  ∧ (truthy (get_prop t "tags") = true →
     (∀ elems, get_prop t "tags" ≠ VArray elems) →
     (∀ s, get_prop t "tags" ≠ VString s) →
     hasTag x t = Throw TypeError)
  ∧ (truthy (get_prop t "relatedIds") = true →
     (∀ elems, get_prop t "relatedIds" ≠ VArray elems) →
     (∀ s, get_prop t "relatedIds" ≠ VString s) →
     relatedTo x t = Throw TypeError).
Proof.
  split; [apply member_of|]. split; [apply member_of|].
  split; apply no_includes.
Qed.


(** X21. One task whose [relatedIds] are neither an array nor a text
    makes [relatedTasks] fail for every id: the call throws a
    [TypeError] and returns no task.  Such a task can come from the
    file, where only its [id] and its [title] are looked at. *)
Theorem relatedTasks_fails_on_a_malformed_task (taskId : string) (w w1 : world) t :
  TaskManager.loadIfNeeded w = (Ok (), w1) →
  t ∈ records w1 →
  truthy (get_prop t "relatedIds") = true →
  (∀ elems, get_prop t "relatedIds" ≠ VArray elems) →
  (∀ s, get_prop t "relatedIds" ≠ VString s) →
  TaskManager.relatedTasks taskId w = (Throw TypeError, w1).
Proof.
  intros Hload Ht Htruthy Harr Hstr. destruct (loadIfNeeded_Ok _ _ Hload) as [a Ha].
  unfold records in Ht. rewrite (collection_loaded _ _ Ha) in Ht.
  apply list_elem_of_fmap in Ht as (l & -> & Hl).
  unfold TaskManager.relatedTasks. rewrite (query_run _ w w1 a Hload Ha).
  rewrite (filter_result_Throw _ TypeError _ l Hl); [done| |].
  - by apply no_includes.
  - intros y e _. apply relatedTo_error.
Qed.

End queries.

(** * The tasks behind the references *)
Section references.
Context `{Platform}.

Lemma prop_assign_ne (w : world) l k v l' k' :
  k ≠ k' →
  get_prop (obj_at (set_objs <[l := <[k := v]> (obj_at w l)]> w) l') k'
  = get_prop (obj_at w l') k'.
Proof.
  intros Hk. destruct (decide (l = l')) as [<-|Hne].
  - rewrite obj_at_new. by rewrite get_prop_insert_ne.
  - by rewrite obj_at_old.
Qed.

(** X22. [update] then [findById]: the record that [update] returns is
    the one that [findById] of the same id now returns.  The task that
    had the id is not changed: it is another object, which by then is
    out of a collection of distinct references, so that a reference
    taken before the update shows none of the changes. *)
Theorem update_then_findById (id : string) (changes : object) (w w1 : world) updated w' :
  TaskManager.loadIfNeeded w = (Ok (), w1) →
  cache_allocated w1 →
  TaskManager.update id changes w = (Ok (Some updated), w') →
  TaskManager.findById id w' = (Ok (Some updated), w')
  ∧ ∃ current,
      TaskManager.findById id w = (Ok (Some current), w1)
      ∧ current ≠ updated
      ∧ obj_at w' current = obj_at w1 current
      ∧ (cache_distinct w1 → current ∉ collection w').
Proof.
  intros Hload Halloc Hupd. destruct (loadIfNeeded_Ok _ _ Hload) as [a Ha].
  unfold cache_allocated, cache_distinct in *.
  rewrite (collection_loaded _ _ Ha), ?Forall_forall in *.
  destruct (list_find (λ l, TaskManager.has_id id (obj_at w1 l)) (arr_at w1 a))
    as [[idx current]|] eqn:Hfind;
    [|by rewrite (update_run_none id changes w w1 a Hload Ha Hfind) in Hupd].
  rewrite (update_run_some id changes w w1 a idx current Hload Ha Hfind) in Hupd.
  cbv zeta in Hupd. injection Hupd as <- <-.
  set (updated := fresh (dom (objs w1))).
  set (w' := set_file _ _).
  assert (cache w' = Some a) as Ha' by done.
  assert (TaskManager.loadIfNeeded w' = (Ok (), w')) as Hload'
    by (by eapply loadIfNeeded_loaded).
  assert (arr_at w' a = <[idx := updated]> (arr_at w1 a)) as Harr
    by (unfold w'; by autorewrite with heap).
  assert (∀ l, l ∈ arr_at w1 a → l ≠ updated ∧ obj_at w' l = obj_at w1 l) as Hold.
  { intros l Hl. assert (l ≠ updated) as Hne by (by apply allocated_not_fresh, Halloc).
    split; [done|]. unfold w'. autorewrite with heap. by apply obj_at_old. }
  pose proof Hfind as Hfound. apply list_find_Some in Hfound as (Hidx & Hid & Hfirst).
  assert (current ∈ arr_at w1 a) as Hcur by (by eapply list_elem_of_lookup_2).
  split.
  - rewrite (findById_run id w' w' a Hload' Ha'), Harr.
    assert (list_find (λ l, TaskManager.has_id id (obj_at w' l))
              (<[idx := updated]> (arr_at w1 a)) = Some (idx, updated)) as ->; [|done].
    apply list_find_Some. split; [|split].
    + apply list_lookup_insert_eq. by eapply lookup_lt_Some.
    + unfold w'. autorewrite with heap. unfold TaskManager.has_id.
      by rewrite get_prop_insert.
    + intros j y Hj Hlt. rewrite list_lookup_insert_ne in Hj by lia.
      rewrite (proj2 (Hold y (list_elem_of_lookup_2 _ _ _ Hj))).
      by apply (Hfirst j).
  - exists current. rewrite (findById_run id w w1 a Hload Ha), Hfind.
    split; [done|]. destruct (Hold current Hcur) as [Hne Hsame].
    split; [done|]. split; [done|].
    intros Hnd. unfold collection. rewrite Ha'. simpl. rewrite Harr.
    intros Hin. apply list_elem_of_lookup in Hin as [j Hj].
    destruct (decide (j = idx)) as [->|Hji].
    + rewrite list_lookup_insert_eq in Hj by (by eapply lookup_lt_Some).
      injection Hj as <-. done.
    + rewrite list_lookup_insert_ne in Hj by done.
      apply Hji. by eapply NoDup_lookup.
Qed.

(** X23. The ids of the collection change by [add] and [hardDelete]
    only: [update], whatever the changes, and [softDelete] leave the
    list of ids as it is, [hardDelete] takes the given id out of it,
    and [add] puts the id of the new task at its end.  Distinct ids
    stay distinct, except by [add]. *)
Theorem ids_are_kept (w w1 : world) :
  TaskManager.loadIfNeeded w = (Ok (), w1) →
  cache_allocated w1 →
  (∀ id changes r w',
     TaskManager.update id changes w = (r, w') → ids (records w') = ids (records w1))
  ∧ (∀ id r w',
       TaskManager.softDelete id w = (r, w') → ids (records w') = ids (records w1))
  ∧ (∀ id r w',
       TaskManager.hardDelete id w = (r, w') →
       ids (records w') = ids (filter (λ t, ¬ TaskManager.has_id id t) (records w1))
       ∧ (VString id ∉ ids (records w'))
       ∧ (NoDup (ids (records w1)) → NoDup (ids (records w'))))
  ∧ (∀ uuid now payload t w',
       TaskManager.add uuid now payload w = (Ok t, w') →
       ids (records w')
       = ids (records w1) ++ [nullish (get_prop payload "id") (VString uuid)]).
Proof.
  intros Hload Halloc. destruct (loadIfNeeded_Ok _ _ Hload) as [a Ha].
  assert (collection w1 = arr_at w1 a) as Hcol by (by apply collection_loaded).
  unfold cache_allocated in Halloc. rewrite Hcol, Forall_forall in Halloc.
  assert (records w1 = obj_at w1 <$> arr_at w1 a) as Hrec
    by (unfold records; by rewrite Hcol).
  rewrite Hrec.
  split; [|split; [|split]].
  - intros id changes r w' Hupd.
    destruct (list_find (λ l, TaskManager.has_id id (obj_at w1 l)) (arr_at w1 a))
      as [[idx current]|] eqn:Hfind.
    + rewrite (update_run_some id changes w w1 a idx current Hload Ha Hfind) in Hupd.
      cbv zeta in Hupd. injection Hupd as <- <-.
      apply list_find_Some in Hfind as (Hidx & _ & _).
      unfold ids, records, collection. simpl. rewrite Ha. simpl.
      autorewrite with heap. rewrite !list_fmap_insert. autorewrite with heap.
      rewrite get_prop_insert. rewrite records_new_object by done.
      apply list_insert_id. rewrite !list_lookup_fmap, Hidx. done.
    + rewrite (update_run_none id changes w w1 a Hload Ha Hfind) in Hupd.
      injection Hupd as <- <-. by rewrite Hrec.
  - intros id r w' Hdel.
    destruct (list_find (λ l, TaskManager.has_id id (obj_at w1 l)) (arr_at w1 a))
      as [[idx t]|] eqn:Hfind.
    + rewrite (softDelete_run_some id w w1 a idx t Hload Ha Hfind) in Hdel.
      cbv zeta in Hdel. injection Hdel as <- <-.
      unfold ids, records, collection. simpl. rewrite Ha. simpl.
      autorewrite with heap. rewrite <- !list_fmap_compose.
      apply list_fmap_ext. intros i l _. simpl. by apply prop_assign_ne.
    + rewrite (softDelete_run_none id w w1 a Hload Ha Hfind) in Hdel.
      injection Hdel as <- <-. by rewrite Hrec.
  - intros id r w' Hdel.
    rewrite (hardDelete_run id w w1 a Hload Ha) in Hdel. cbv zeta in Hdel.
    injection Hdel as <- <-.
    assert (records
              (set_file
                 (JSON_stringify
                    (TaskRepository.snapshot
                       (set_cache (Some (fresh (dom (arrs w1))))
                          (set_arrs
                             <[fresh (dom (arrs w1)) :=
                                 filter (λ l, negb (TaskManager.has_id id (obj_at w1 l)))
                                   (arr_at w1 a)]> w1))
                       (fresh (dom (arrs w1)))))
                 (set_cache (Some (fresh (dom (arrs w1))))
                    (set_arrs
                       <[fresh (dom (arrs w1)) :=
                           filter (λ l, negb (TaskManager.has_id id (obj_at w1 l)))
                             (arr_at w1 a)]> w1)))
            = filter (λ t, ¬ TaskManager.has_id id t) (obj_at w1 <$> arr_at w1 a)) as ->.
    { unfold records, collection. simpl. autorewrite with heap.
      by rewrite records_without. }
    split; [done|]. split.
    + unfold ids. intros Hin. apply list_elem_of_fmap in Hin as (t & Ht & Hin).
      apply list_elem_of_filter in Hin as [Hno _]. apply Hno.
      unfold TaskManager.has_id. rewrite <- Ht. simpl. by rewrite String.eqb_refl.
    + intros Hnd.
      apply (sublist_NoDup _ _ Hnd). unfold ids. apply fmap_sublist, sublist_filter.
  - intros uuid now payload t w' Hadd.
    destruct (add_run uuid now payload w w1 a Hload Ha) as [Hthrow|(o & Hid & _ & _ & Hrun)].
    { rewrite Hthrow in Hadd. done. }
    cbv zeta in Hrun. rewrite Hrun in Hadd. injection Hadd as <- <-.
    unfold ids, records, collection. simpl. rewrite Ha. simpl.
    autorewrite with heap. rewrite !fmap_app. simpl. autorewrite with heap.
    by rewrite records_new_object, Hid.
Qed.

End references.

(** * The methods of a task and the file *)
Section methods.
Context `{Platform}.

Lemma reload_from_file (w0 w : world) a :
  (∀ l, JSON_parse (JSON_stringify (VArray l)) = Some (jsonify (VArray l))) →
  file w = Some (JSON_stringify (TaskRepository.snapshot w0 a)) →
  ∃ w', TaskManager.reload w = (Ok (), w')
        ∧ records w'
          = reread <$> filter (λ t, TaskRepository.minimal_shape (VObject t)) (tasks_of w0 a)
        ∧ file w' = file w ∧ writes w' = writes w.
Proof.
  intros Hjson Hfile.
  destruct (readAll_run_array w _ (jsonify <$> (VObject <$> tasks_of w0 a)) Hfile (Hjson _))
    as (ls & w2 & Hrun & Ha & Hf & Hw & Hc & Hsub & Hos & Hnew).
  cbv zeta in Hrun. unfold TaskManager.reload.
  rewrite (run_bind _ _ _ _ _ Hrun).
  eexists. split; [reflexivity|].
  unfold records, collection. simpl. autorewrite with heap.
  by rewrite Hos, kept_records.
Qed.

Lemma method_is_assign (m : loc → M unit) :
  m ∈ Task_methods → ∃ k v, ∀ this, m this = assign this k v.
Proof.
  unfold Task_methods. rewrite !elem_of_cons, elem_of_nil.
  intros [->|[->|[->|[]]]]; eexists _, _; intros this; reflexivity.
Qed.

(** X24. The methods [complete], [softDelete] and [restore] of a task
    change the object they are called on, and nothing else: a task of
    the collection is changed in the cache, so that [list()] no longer
    shows a task after its [softDelete], but the file is not written.
    A [reload] then gives the tasks as they were before the call. *)
Theorem Task_methods_are_not_written (w : world) (this : loc) :
  (∀ l, JSON_parse (JSON_stringify (VArray l)) = Some (jsonify (VArray l))) →
  disk_in_sync w →
  cache_array w →
  (∀ m, m ∈ Task_methods →
        ∃ w1, m this w = (Ok (), w1)
              ∧ (∀ l, l ≠ this → obj_at w1 l = obj_at w l)
              ∧ arrs w1 = arrs w ∧ cache w1 = cache w
              ∧ file w1 = file w ∧ writes w1 = writes w
              ∧ ∃ w', TaskManager.reload w1 = (Ok (), w')
                      ∧ records w'
                        = reread <$> filter (λ t, TaskRepository.minimal_shape (VObject t))
                                       (records w))
  ∧ get_prop (obj_at (Task.complete this w).2 this) "status" = TaskStatus.DONE
  ∧ obj_at (Task.restore this (Task.softDelete this w).2).2 this
    = <["deleted" := VBool false]> (obj_at w this)
  ∧ (∃ r w', TaskManager.list None (Task.softDelete this w).2 = (Ok r, w')
             ∧ this ∉ arr_at w' r)
  ∧ (this ∈ collection w →
     ∃ r w', TaskManager.list None (Task.restore this w).2 = (Ok r, w')
             ∧ this ∈ arr_at w' r).
Proof.
  intros Hjson (a & Ha & Hfile) Harr.
  assert (records w = tasks_of w a) as Hrec
    by (unfold records; by rewrite (collection_loaded _ _ Ha)).
  assert (∀ v, ∃ r w',
            TaskManager.list None (assign this "deleted" v w).2 = (Ok r, w')
            ∧ arr_at w' r
              = filter (λ l, isNotDeleted (obj_at (assign this "deleted" v w).2 l))
                  (collection w)) as Hlist.
  { intros v.
    destruct (list_only_reads None (assign this "deleted" v w).2
                (assign this "deleted" v w).2) as (r & w' & Hrun & _ & Hres & _).
    - by apply (loadIfNeeded_loaded _ a).
    - exact Harr.
    - exists r, w'. split; [exact Hrun|]. by rewrite Hres. }
  split; [|split; [|split; [|split]]].
  - intros m Hm. destruct (method_is_assign m Hm) as (k & v & ->).
    eexists. split; [reflexivity|]. split.
    { intros l Hl. by apply obj_at_old. }
    do 4 (split; [done|]).
    destruct (reload_from_file w (set_objs <[this := <[k := v]> (obj_at w this)]> w) a
                Hjson Hfile) as (w' & Hrun & Hrecs & _).
    exists w'. split; [exact Hrun|]. by rewrite Hrec.
  - unfold Task.complete, assign. simpl. by rewrite obj_at_new, get_prop_insert.
  - unfold Task.restore, Task.softDelete, assign. simpl.
    rewrite !obj_at_new. apply insert_insert_eq.
  - destruct (Hlist (VBool true)) as (r & w' & Hrun & Hres).
    exists r, w'. split; [exact Hrun|]. rewrite Hres, list_elem_of_filter.
    intros [Hnot _]. revert Hnot. unfold assign, isNotDeleted. simpl.
    by rewrite obj_at_new, get_prop_insert.
  - intros Hin. destruct (Hlist (VBool false)) as (r & w' & Hrun & Hres).
    exists r, w'. split; [exact Hrun|]. rewrite Hres, list_elem_of_filter.
    split; [|done]. unfold assign, isNotDeleted. simpl.
    by rewrite obj_at_new, get_prop_insert.
Qed.

End methods.

(** * The shape of a new task *)
Section shape.
Context `{Platform}.

(** X25. [new Task] looks at the title only.  A title that is not a
    text is refused like a missing one.  The task has the eleven
    properties of [ITask] and no other, whatever else the payload
    holds.  A priority that is a number is taken as it is, in the
    range from 1 to 5 or not, and any other priority gives 3.  A
    [null] in the payload counts as an absent property where there is
    a default. *)
Theorem Task_constructor_checks_the_title_only
    (uuid now : string) (payload : object) (w : world) :
  ((∀ s, get_prop payload "title" ≠ VString s) →
   Task.constructor uuid now payload w
   = (Throw (Error "Task must have a non-empty title"), w))
  ∧ (∀ s, get_prop payload "title" = VString s → s ≠ "" →
     ∃ t o,
       Task.constructor uuid now payload w = (Ok t, set_objs <[t := o]> w)
       ∧ dom o = list_to_set ["id"; "title"; "description"; "createdAt"; "dueDate";
                              "difficulty"; "priority"; "status"; "tags"; "relatedIds";
                              "deleted"]
       ∧ (∀ n, get_prop payload "priority" = VNumber n → get_prop o "priority" = VNumber n)
       ∧ ((∀ n, get_prop payload "priority" ≠ VNumber n) →
          get_prop o "priority" = VNumber (Finite 3))
       ∧ (get_prop payload "difficulty" = VNull →
          get_prop o "difficulty" = TaskDifficulty.MEDIUM)
       ∧ (get_prop payload "status" = VNull → get_prop o "status" = TaskStatus.TODO)
       ∧ (get_prop payload "deleted" = VNull → get_prop o "deleted" = VBool false)
       ∧ (get_prop payload "id" = VNull → get_prop o "id" = VString uuid)
       ∧ (get_prop payload "createdAt" = VNull → get_prop o "createdAt" = VString now)).
Proof.
  split.
  - intros Hno. unfold Task.constructor.
    destruct (get_prop payload "title") as [| |b|n|s|l|o] eqn:Ht; simpl;
      rewrite ?orb_true_r; try done.
    by destruct (Hno s).
  - intros s Ht Hs. unfold Task.constructor. rewrite Ht. simpl.
    destruct (String.eqb_spec s ""); [done|]. simpl.
    eexists _, _. split; [reflexivity|]. split.
    { rewrite !dom_insert_L, dom_empty_L. simpl. by rewrite (right_id_L ∅ (∪)). }
    split.
    { intros p Hp. rewrite !get_prop_insert_ne by done.
      by rewrite get_prop_insert, Hp. }
    split.
    { intros Hn. rewrite !get_prop_insert_ne by done. rewrite get_prop_insert.
      destruct (get_prop payload "priority") as [| |?|k|?|?|?]; try done.
      by destruct (Hn k). }
    repeat split; intros Hd; rewrite ?get_prop_insert_ne by done;
      by rewrite get_prop_insert, Hd.
Qed.

End shape.

(** * The collection in the heap *)
Section heap.
Context `{Platform}.

Lemma new_objects_distinct (os : list object) (w : world) :
  ∃ ls w', TaskRepository.new_objects os w = (Ok ls, w')
           ∧ NoDup ls ∧ Forall (λ l, objs w !! l = None) ls.
Proof.
  revert w. induction os as [|o os IH]; intros w; simpl.
  - exists [], w. split; [done|]. split; constructor.
  - destruct (IH (set_objs <[fresh (dom (objs w)) := o]> w))
      as (ls & w' & Hrun & Hnd & Hnew).
    exists (fresh (dom (objs w)) :: ls), w'. split.
    { unfold mbind, M_bind, new_object. simpl. by rewrite Hrun. }
    simpl in Hnew. rewrite Forall_forall in Hnew. split.
    + apply NoDup_cons. split; [|done]. intros Hin. apply Hnew in Hin.
      by rewrite lookup_insert_eq in Hin.
    + constructor; [apply fresh_object|]. apply Forall_forall. intros l Hl.
      apply Hnew in Hl. by apply lookup_insert_None in Hl as [Hl _].
Qed.

Lemma readAll_distinct (w : world) c w' :
  TaskRepository.readAll w = (Ok c, w') →
  is_Some (arrs w' !! c) ∧ NoDup (arr_at w' c).
Proof.
  unfold TaskRepository.readAll, try_catch, TaskRepository.fs_readFile,
    TaskRepository.parse.
  unfold mbind at 1 2, M_bind at 1 2.
  destruct (file w) as [data|] eqn:Hfile; simpl.
  - destruct (JSON_parse data) as [parsed|]; simpl; [|done].
    destruct parsed; simpl; try done.
    destruct (new_objects_distinct
                (omap TaskRepository.as_object
                   (filter (λ t, TaskRepository.minimal_shape t) elems)) w)
      as (ls & w2 & Hrun & Hnd & _).
    unfold mbind, M_bind. rewrite Hrun. simpl.
    intros [= <- <-]. autorewrite with heap. simpl.
    rewrite lookup_insert_eq. split; [eauto|done].
  - intros [= <- <-]. autorewrite with heap. simpl.
    rewrite lookup_insert_eq. split; [eauto|constructor].
Qed.

Lemma NoDup_insert_new (l : list loc) idx x :
  NoDup l → x ∉ l → NoDup (<[idx := x]> l).
Proof.
  revert idx. induction l as [|y l IH]; intros idx Hnd Hx; [done|].
  apply NoDup_cons in Hnd as [Hy Hnd]. destruct idx as [|idx]; simpl.
  - apply NoDup_cons. split; [|done]. intros Hin. apply Hx. by right.
  - apply NoDup_cons. split.
    + intros Hin. apply list_elem_of_lookup in Hin as [j Hj].
      apply list_lookup_insert_Some in Hj as [(_ & <- & _)|[_ Hj]].
      * apply Hx. by left.
      * apply Hy. by eapply list_elem_of_lookup_2.
    + apply IH; [done|]. intros Hin. apply Hx. by right.
Qed.

(** X26. The collection that a manager loads is an array of the heap
    whose references are distinct and are objects of the heap, and
    [add], [update], [softDelete] and [hardDelete] keep it so: no task
    is twice in the collection. *)
Theorem collection_is_well_formed (w w1 : world) :
  TaskManager.loadIfNeeded w = (Ok (), w1) →
  (cache w = None → well_formed w1)
  ∧ (well_formed w1 →
     (∀ uuid now payload r w',
        TaskManager.add uuid now payload w = (r, w') → well_formed w')
     ∧ (∀ id changes r w',
          TaskManager.update id changes w = (r, w') → well_formed w')
     ∧ (∀ id r w', TaskManager.softDelete id w = (r, w') → well_formed w')
     ∧ (∀ id r w', TaskManager.hardDelete id w = (r, w') → well_formed w')).
Proof.
  intros Hload. split.
  - intros Hnone. split; [|split].
    + revert Hload. unfold TaskManager.loadIfNeeded. rewrite Hnone.
      unfold mbind, M_bind.
      destruct (TaskRepository.readAll w) as [[c|e] w2] eqn:Hread; [|done].
      unfold TaskManager.put_cache. intros [= <-].
      exists c. split; [done|]. by apply readAll_distinct in Hread as [? _].
    + eapply loadIfNeeded_allocated; [by left|exact Hload].
    + revert Hload. unfold TaskManager.loadIfNeeded. rewrite Hnone.
      unfold mbind, M_bind.
      destruct (TaskRepository.readAll w) as [[c|e] w2] eqn:Hread; [|done].
      unfold TaskManager.put_cache. intros [= <-].
      unfold cache_distinct, collection. simpl. autorewrite with heap.
      by apply readAll_distinct in Hread as [_ ?].
  - intros ((a & Ha & Harr) & Halloc & Hnd).
    destruct (cache_allocated_kept w w1 Hload Halloc) as (Hadd & Hupd & Hsoft & Hhard).
    unfold cache_allocated, cache_distinct in Halloc, Hnd.
    rewrite (collection_loaded _ _ Ha) in Halloc, Hnd. rewrite Forall_forall in Halloc.
    assert (well_formed w1) as Hw1.
    { split; [by exists a|]. unfold cache_allocated, cache_distinct.
      rewrite (collection_loaded _ _ Ha), Forall_forall. done. }
    split; [|split; [|split]].
    + intros uuid now payload r w' Hrun. split; [|split; [by eapply Hadd|]];
        destruct (add_run uuid now payload w w1 a Hload Ha)
          as [Hthrow|(o & _ & _ & _ & Hok)];
        try (rewrite Hthrow in Hrun; injection Hrun as <- <-; apply Hw1);
        cbv zeta in Hok; rewrite Hok in Hrun; injection Hrun as <- <-.
      * exists a. split; [done|]. simpl. rewrite lookup_insert_eq. eauto.
      * unfold cache_distinct, collection. simpl. rewrite Ha. simpl.
        autorewrite with heap. apply NoDup_app. split; [done|].
        split; [|apply NoDup_singleton].
        intros l Hl Hin. apply list_elem_of_singleton in Hin.
        by apply (allocated_not_fresh w1 l (Halloc l Hl)).
    + intros id changes r w' Hrun. split; [|split; [by eapply Hupd|]];
        (destruct (list_find (λ l, TaskManager.has_id id (obj_at w1 l)) (arr_at w1 a))
           as [[idx current]|] eqn:Hfind;
         [rewrite (update_run_some id changes w w1 a idx current Hload Ha Hfind) in Hrun;
          cbv zeta in Hrun; injection Hrun as <- <-
         |rewrite (update_run_none id changes w w1 a Hload Ha Hfind) in Hrun;
          injection Hrun as <- <-; apply Hw1]).
      * exists a. split; [done|]. simpl. rewrite lookup_insert_eq. eauto.
      * unfold cache_distinct, collection. simpl. rewrite Ha. simpl.
        autorewrite with heap. apply NoDup_insert_new; [done|].
        intros Hin. by apply (allocated_not_fresh w1 _ (Halloc _ Hin)).
    + intros id r w' Hrun. split; [|split; [by eapply Hsoft|]];
        (destruct (list_find (λ l, TaskManager.has_id id (obj_at w1 l)) (arr_at w1 a))
           as [[idx t]|] eqn:Hfind;
         [rewrite (softDelete_run_some id w w1 a idx t Hload Ha Hfind) in Hrun;
          cbv zeta in Hrun; injection Hrun as <- <-
         |rewrite (softDelete_run_none id w w1 a Hload Ha Hfind) in Hrun;
          injection Hrun as <- <-; apply Hw1]).
      * by exists a.
      * unfold cache_distinct, collection. simpl. rewrite Ha. simpl.
        by autorewrite with heap.
    + intros id r w' Hrun. split; [|split; [by eapply Hhard|]];
        rewrite (hardDelete_run id w w1 a Hload Ha) in Hrun; cbv zeta in Hrun;
        injection Hrun as <- <-.
      * eexists. split; [reflexivity|]. simpl. rewrite lookup_insert_eq. eauto.
      * unfold cache_distinct, collection. simpl. autorewrite with heap.
        by apply NoDup_filter.
Qed.

End heap.

(** * Deleted tasks *)
Section deleted.
Context `{Platform}.

(** X27. A deleted task stays in the collection, and the operations
    that look for an id do not look at the flag: after [softDelete id]
    has returned true, [findById id] returns the deleted task, a second
    [softDelete id] returns true again and writes the file again
    without changing any task, and [update id] gives a record that is
    deleted too unless the changes say otherwise. *)
Theorem deleted_tasks_are_still_found (id : string) (w w1 w' : world) :
  TaskManager.loadIfNeeded w = (Ok (), w1) →
  TaskManager.softDelete id w = (Ok true, w') →
  ∃ t,
    TaskManager.findById id w = (Ok (Some t), w1)
    ∧ TaskManager.findById id w' = (Ok (Some t), w')
    ∧ isNotDeleted (obj_at w' t) = false
    ∧ (∃ w'', TaskManager.softDelete id w' = (Ok true, w'')
              ∧ objs w'' = objs w' ∧ collection w'' = collection w'
              ∧ writes w'' = S (writes w'))
    ∧ (∀ changes, changes !! "deleted" = None →
         ∃ u w'', TaskManager.update id changes w' = (Ok (Some u), w'')
                  ∧ get_prop (obj_at w'' u) "deleted" = VBool true).
Proof.
  intros Hload Hdel. destruct (loadIfNeeded_Ok _ _ Hload) as [a Ha].
  destruct (list_find (λ l, TaskManager.has_id id (obj_at w1 l)) (arr_at w1 a))
    as [[idx t]|] eqn:Hfind;
    [|by rewrite (softDelete_run_none id w w1 a Hload Ha Hfind) in Hdel].
  rewrite (softDelete_run_some id w w1 a idx t Hload Ha Hfind) in Hdel.
  cbv zeta in Hdel. injection Hdel as <-.
  set (w' := set_file _ _).
  assert (cache w' = Some a) as Ha' by done.
  assert (TaskManager.loadIfNeeded w' = (Ok (), w')) as Hload'
    by (by eapply loadIfNeeded_loaded).
  assert (arr_at w' a = arr_at w1 a) as Harr by (unfold w'; by autorewrite with heap).
  assert (obj_at w' t = <["deleted" := VBool true]> (obj_at w1 t)) as Ht
    by (unfold w'; by autorewrite with heap).
  assert (list_find (λ l, TaskManager.has_id id (obj_at w' l)) (arr_at w' a)
          = Some (idx, t)) as Hfind'.
  { rewrite Harr, <- Hfind.
    apply (list_find_agree (λ v, strict_equals v (VString id))
             (λ l, get_prop (obj_at w' l) "id") (λ l, get_prop (obj_at w1 l) "id")).
    intros l _.
    unfold w'. autorewrite with heap. by apply prop_assign_ne. }
  exists t. split; [by rewrite (findById_run id w w1 a Hload Ha), Hfind|].
  split; [by rewrite (findById_run id w' w' a Hload' Ha'), Hfind'|].
  split; [unfold isNotDeleted; by rewrite Ht, get_prop_insert|]. split.
  - rewrite (softDelete_run_some id w' w' a idx t Hload' Ha' Hfind'). cbv zeta.
    eexists. split; [reflexivity|]. split; [|split; [|done]].
    + simpl. rewrite Ht, insert_insert_eq.
      unfold w'. simpl. by rewrite insert_insert_eq.
    + unfold collection. simpl. by autorewrite with heap.
  - intros changes Hnone.
    rewrite (update_run_some id changes w' w' a idx t Hload' Ha' Hfind'). cbv zeta.
    eexists _, _. split; [reflexivity|]. autorewrite with heap.
    rewrite get_prop_insert_ne by done.
    by rewrite get_prop_union, Hnone, Ht, get_prop_insert.
Qed.

End deleted.

(** * The properties on the sample runs *)

Lemma run_result `{Platform} {A} (m : M A) (w : world) a w' :
  m w = (Ok a, w') → (m w).1 = Ok a ∧ w' = (m w).2.
Proof. by intros ->. Qed.

Lemma Task_constructor_title_and_defaults_witness :
  Task.constructor "u1" Run.now ∅ Sample.start
  = (Throw (Error "Task must have a non-empty title"), Sample.start)
  ∧ ∃ t o,
      Task.constructor "u1" Run.now {[ "title" := VString "first" ]} Sample.start
      = (Ok t, set_objs <[t := o]> Sample.start)
      ∧ get_prop o "title" = VString "first"
      ∧ get_prop o "difficulty" = TaskDifficulty.MEDIUM
      ∧ get_prop o "priority" = VNumber (Finite 3)
      ∧ get_prop o "status" = TaskStatus.TODO
      ∧ get_prop o "deleted" = VBool false.
Proof.
  split.
  - apply (Task_constructor_title_and_defaults "u1" Run.now ∅ Sample.start).
    left. reflexivity.
  - edestruct (proj2 (Task_constructor_title_and_defaults "u1" Run.now
                        {[ "title" := VString "first" ]} Sample.start) "first")
      as (t & o & Hrun & _ & Ht & Hd & Hp & Hs & Hdel & _);
      [reflexivity|discriminate|].
    exists t, o. split; [exact Hrun|]. split; [exact Ht|].
    split; [apply Hd; reflexivity|]. split; [apply Hp; reflexivity|].
    split; [apply Hs; reflexivity|apply Hdel; reflexivity].
Defined.

(** C2 as it was stated does not hold: with two tasks of the same id in
    the collection, [hardDelete] takes both out. *)
Lemma hardDelete_not_exactly_one :
  ids (records Run.twins) = [VString "u1"; VString "u1"]
  ∧ (TaskManager.hardDelete "u1" Run.twins).1 = Ok true
  ∧ length (records (TaskManager.hardDelete "u1" Run.twins).2) = 0
  ∧ length (records (TaskManager.hardDelete "u1" Run.twins).2) + 1
    ≠ length (records Run.twins).
Proof.
  split; [vm_compute; reflexivity|]. split; [vm_compute; reflexivity|].
  split; [vm_compute; reflexivity|]. vm_compute. discriminate.
Qed.

Lemma hardDelete_removes_every_match_witness :
  TaskManager.loadIfNeeded Run.restarted = (Ok (), Run.reloaded)
  ∧ length (records Run.reloaded) = 2
  ∧ (∃ w',
       TaskManager.hardDelete "u1" Run.restarted = (Ok true, w')
       ∧ length (records w') + 2 = length (records Run.reloaded)
       ∧ objs w' = objs Run.reloaded)
  ∧ (∃ w',
       TaskManager.hardDelete "nobody" Run.restarted = (Ok false, w')
       ∧ collection w' = collection Run.reloaded).
Proof.
  assert (TaskManager.loadIfNeeded Run.restarted = (Ok (), Run.reloaded)) as Hload
    by reflexivity.
  split; [exact Hload|]. split; [vm_compute; reflexivity|]. split.
  - destruct (hardDelete_removes_every_match "u1" Run.restarted Run.reloaded Hload)
      as (w' & Hrun & _ & Hlen & _ & _ & Hobjs).
    exists w'. split; [exact Hrun|]. split; [exact Hlen|exact Hobjs].
  - destruct (hardDelete_removes_every_match "nobody" Run.restarted Run.reloaded Hload)
      as (w' & Hrun & _ & _ & _ & Hnone & _).
    exists w'. split; [exact Hrun|]. apply Hnone. vm_compute. reflexivity.
Defined.

(** C3 as it was stated does not hold: [update] with a [createdAt] in
    [changes] gives it to the task. *)
Lemma update_overwrites_createdAt :
  ids (records Run.one) = [VString "u1"]
  ∧ createdAts (records Run.one) = [VString "2025-01-01T00:00:00Z"]
  ∧ ids (records (TaskManager.update "u1"
                    {[ "createdAt" := VString "1999-12-31T00:00:00Z" ]} Run.one).2)
    = [VString "u1"]
  ∧ createdAts (records (TaskManager.update "u1"
                           {[ "createdAt" := VString "1999-12-31T00:00:00Z" ]} Run.one).2)
    = [VString "1999-12-31T00:00:00Z"]
  ∧ createdAts (records (TaskManager.update "u1"
                           {[ "createdAt" := VString "1999-12-31T00:00:00Z" ]} Run.one).2)
    ≠ createdAts (records Run.one).
Proof.
  split; [vm_compute; reflexivity|]. split; [vm_compute; reflexivity|].
  split; [vm_compute; reflexivity|]. split; [vm_compute; reflexivity|].
  vm_compute. discriminate.
Qed.

Lemma createdAt_kept_unless_updated_witness :
  TaskManager.loadIfNeeded Run.twins = (Ok (), Run.twins)
  ∧ cache_allocated Run.twins
  ∧ createdAts (records (TaskManager.softDelete "u1" Run.twins).2)
    = createdAts (records Run.twins)
  ∧ createdAts (records (TaskManager.update "u1" {[ "title" := VString "renamed" ]}
                           Run.twins).2)
    = createdAts (records Run.twins)
  ∧ createdAts (records (TaskManager.hardDelete "nobody" Run.twins).2)
    = createdAts (records Run.twins).
Proof.
  assert (cache_allocated Run.twins) as Halloc.
  { unfold cache_allocated. apply (bool_decide_unpack _). vm_compute. exact I. }
  destruct (createdAt_kept_unless_updated Run.twins Run.twins eq_refl Halloc)
    as (_ & Hsoft & Hhard & Hupd & _).
  split; [reflexivity|]. split; [exact Halloc|]. split; [|split].
  - apply (Hsoft "u1" true). reflexivity.
  - apply (Hupd "u1" {[ "title" := VString "renamed" ]} (Some 3%positive));
      reflexivity.
  - apply (Hhard "nobody" false). reflexivity.
Defined.

Lemma update_merges_and_keeps_id_witness :
  TaskManager.loadIfNeeded Run.one = (Ok (), Run.one)
  ∧ TaskManager.update "nobody" {[ "title" := VString "renamed" ]} Run.one
    = (Ok None, Run.one)
  ∧ ∃ updated w',
      TaskManager.update "u1" {[ "title" := VString "renamed"; "id" := VString "other" ]}
        Run.one
      = (Ok (Some updated), w')
      ∧ collection w' = [updated]
      ∧ get_prop (obj_at w' updated) "id" = VString "u1"
      ∧ get_prop (obj_at w' updated) "title" = VString "renamed"
      ∧ get_prop (obj_at w' updated) "status" = TaskStatus.TODO
      ∧ writes w' = S (writes Run.one).
Proof.
  split; [reflexivity|]. split.
  - apply (update_merges_and_keeps_id "nobody" _ Run.one Run.one eq_refl).
    intros t Ht. apply list_elem_of_singleton in Ht as ->. reflexivity.
  - edestruct (proj2 (update_merges_and_keeps_id "u1"
                        {[ "title" := VString "renamed"; "id" := VString "other" ]}
                        Run.one Run.one eq_refl))
      as (idx & current & updated & w' & Hrun & Hidx & _ & _ & _ & Hcol & _ & Hid & Hk & Hw & _).
    { exists (obj_at Run.one 1%positive). split; [left|reflexivity]. }
    exists updated, w'. split; [exact Hrun|].
    assert (idx = 0 ∧ current = 1%positive) as [-> ->].
    { destruct idx as [|idx]; [|destruct idx; discriminate Hidx].
      injection Hidx as <-. done. }
    split; [exact Hcol|]. split; [exact Hid|].
    split; [exact (Hk "title" ltac:(discriminate))|].
    split; [exact (Hk "status" ltac:(discriminate))|exact Hw].
Defined.

Lemma softDelete_then_list_witness :
  TaskManager.loadIfNeeded Run.one = (Ok (), Run.one)
  ∧ TaskManager.softDelete "nobody" Run.one = (Ok false, Run.one)
  ∧ ∃ t w',
      TaskManager.softDelete "u1" Run.one = (Ok true, w')
      ∧ get_prop (obj_at w' t) "deleted" = VBool true
      ∧ (∃ r w'', TaskManager.list None w' = (Ok r, w'') ∧ t ∉ arr_at w'' r)
      ∧ (∃ r w'',
           TaskManager.list (Some {| includeDeleted := Some true; sortBy := None |}) w'
           = (Ok r, w'')
           ∧ t ∈ arr_at w'' r).
Proof.
  split; [reflexivity|]. split.
  - apply (softDelete_then_list "nobody" Run.one Run.one eq_refl).
    intros t Ht. apply list_elem_of_singleton in Ht as ->. reflexivity.
  - edestruct (proj2 (softDelete_then_list "u1" Run.one Run.one eq_refl))
      as (idx & t & w' & Hrun & _ & _ & _ & _ & _ & Hdel & Hlist & Hall).
    { exists (obj_at Run.one 1%positive). split; [left|reflexivity]. }
    exists t, w'. split; [exact Hrun|]. split; [exact Hdel|].
    split; [exact Hlist|exact Hall].
Defined.

Lemma isOverdue_iff_witness :
  @Date_getTime Sample.platform (VString "") = NaN
  ∧ @isOverdue Sample.platform "2025-01-02T00:00:00Z"
      {[ "dueDate" := VString "2025-01-01T00:00:00Z" ]} = true
  ∧ ∀ now, @isOverdue Sample.platform now {[ "title" := VString "no date" ]} = false.
Proof.
  split; [reflexivity|]. split.
  - apply (@isOverdue_iff Sample.platform "2025-01-02T00:00:00Z"
             {[ "dueDate" := VString "2025-01-01T00:00:00Z" ]}).
    + reflexivity.
    + right. eexists. reflexivity.
    + eexists. split; reflexivity.
  - apply (@isOverdue_iff Sample.platform "2025-01-02T00:00:00Z"
             {[ "title" := VString "no date" ]}).
    + reflexivity.
    + left. reflexivity.
    + reflexivity.
Defined.

Lemma three_dueDate_ok : Forall (@dueDate_ok Sample.platform) (tasks_of Run.three 1%positive).
Proof.
  change (tasks_of Run.three 1%positive)
    with (obj_at Run.three <$> [1%positive; 2%positive; 3%positive]).
  repeat apply Forall_cons_2; [| | |apply Forall_nil_2].
  - right. eexists _, _. split; [reflexivity|]. split; [discriminate|].
    vm_compute. reflexivity.
  - left. reflexivity.
  - right. eexists _, _. split; [reflexivity|]. split; [discriminate|].
    vm_compute. reflexivity.
Qed.

Lemma three_by_dueDate :
  (sortByDueDate 1%positive Run.three).1 = Ok 2%positive
  ∧ (λ t, get_prop t "title") <$> tasks_of (sortByDueDate 1%positive Run.three).2 2%positive
    = [VString "late"; VString "later"; VString "some day"].
Proof. split; vm_compute; reflexivity. Qed.

Lemma three_by_difficulty :
  (sortByDifficulty 1%positive Run.three).1 = Ok 2%positive
  ∧ (λ t, get_prop t "difficulty")
      <$> tasks_of (sortByDifficulty 1%positive Run.three).2 2%positive
    = [VString "low"; VString "unknown"; VString "high"].
Proof. split; vm_compute; reflexivity. Qed.

Lemma sortByDueDate_copy_sorted_witness :
  is_Some (arrs Run.three !! 1%positive)
  ∧ Forall (@dueDate_ok Sample.platform) (tasks_of Run.three 1%positive)
  ∧ ∃ copy w',
      sortByDueDate 1%positive Run.three = (Ok copy, w')
      ∧ copy ≠ 1%positive
      ∧ arrs w' !! 1%positive = arrs Run.three !! 1%positive
      ∧ arr_at w' copy ≡ₚ arr_at Run.three 1%positive
      ∧ (λ t, get_prop t "title") <$> tasks_of w' copy
        = [VString "late"; VString "later"; VString "some day"].
Proof.
  assert (is_Some (arrs Run.three !! 1%positive)) as Harr
    by (apply (bool_decide_unpack _); vm_compute; exact I).
  split; [exact Harr|]. split; [exact three_dueDate_ok|].
  destruct (sortByDueDate_copy_sorted Run.three 1%positive Harr three_dueDate_ok)
    as (copy & w' & Hrun & Hne & _ & Hsame & _ & Hperm & _).
  exists copy, w'. split; [exact Hrun|]. split; [exact Hne|].
  split; [exact Hsame|]. split; [exact Hperm|].
  apply run_result in Hrun as [Hcopy ->].
  destruct three_by_dueDate as [Hcopy' Htitles].
  rewrite Hcopy' in Hcopy. injection Hcopy as <-. exact Htitles.
Defined.

Lemma sortByDifficulty_copy_sorted_witness :
  is_Some (arrs Run.three !! 1%positive)
  ∧ ∃ copy w',
      sortByDifficulty 1%positive Run.three = (Ok copy, w')
      ∧ copy ≠ 1%positive
      ∧ arrs w' !! 1%positive = arrs Run.three !! 1%positive
      ∧ StronglySorted (λ t u, (rank t ≤ rank u)%Z) (tasks_of w' copy)
      ∧ (λ t, get_prop t "difficulty") <$> tasks_of w' copy
        = [VString "low"; VString "unknown"; VString "high"].
Proof.
  assert (is_Some (arrs Run.three !! 1%positive)) as Harr
    by (apply (bool_decide_unpack _); vm_compute; exact I).
  split; [exact Harr|].
  destruct (sortByDifficulty_copy_sorted Run.three 1%positive Harr)
    as (copy & w' & Hrun & Hne & _ & Hsame & _ & _ & Hsorted & _).
  exists copy, w'. split; [exact Hrun|]. split; [exact Hne|].
  split; [exact Hsame|]. split; [exact Hsorted|].
  apply run_result in Hrun as [Hcopy ->].
  destruct three_by_difficulty as [Hcopy' Hranks].
  rewrite Hcopy' in Hcopy. injection Hcopy as <-. exact Hranks.
Defined.

(** C7 as it was stated does not hold when a due date is not a date: the
    comparison with it is [NaN], which [sort] takes for equal, and the
    array stays as it was, the task without a due date first. *)
Lemma sortByDueDate_not_a_date :
  (sortByDueDate 1%positive Run.undated).1 = Ok 2%positive
  ∧ (λ t, (get_prop t "title", get_prop t "dueDate"))
      <$> tasks_of (sortByDueDate 1%positive Run.undated).2 2%positive
    = [(VString "no date", VUndefined);
       (VString "bad date", VString "garbage");
       (VString "dated", VString "2025-01-02T00:00:00Z")]
  ∧ ¬ (∀ i j t u,
         tasks_of (sortByDueDate 1%positive Run.undated).2 2%positive !! i = Some t →
         tasks_of (sortByDueDate 1%positive Run.undated).2 2%positive !! j = Some u →
         get_prop t "dueDate" = VUndefined →
         (∃ s, get_prop u "dueDate" = VString s) → j < i).
Proof.
  split; [vm_compute; reflexivity|]. split; [vm_compute; reflexivity|].
  intros Hafter.
  assert (2 < 0) as Hlt; [|lia].
  apply (Hafter 0 2 (obj_at Run.undated 1%positive) (obj_at Run.undated 3%positive)).
  - reflexivity.
  - reflexivity.
  - reflexivity.
  - eexists. reflexivity.
Qed.

Lemma three_serialisable : Forall serialisable (tasks_of Run.three 1%positive).
Proof.
  change (tasks_of Run.three 1%positive)
    with (obj_at Run.three <$> [1%positive; 2%positive; 3%positive]).
  repeat apply Forall_cons_2; [| | |apply Forall_nil_2];
    intros k v Hk; apply elem_of_map_to_list in Hk; vm_compute in Hk;
    repeat (apply elem_of_cons in Hk as [[= -> ->]|Hk];
            [first [by left|by right]|]);
    by apply elem_of_nil in Hk.
Qed.

Lemma three_reread :
  (λ t, get_prop t "title")
    <$> (reread <$> filter (λ t, TaskRepository.minimal_shape (VObject t))
                      (tasks_of Run.three 1%positive))
  = [VString "later"; VString "some day"; VString "late"].
Proof. vm_compute. reflexivity. Qed.

Lemma writeAll_readAll_roundtrip_witness :
  (∀ l, @JSON_parse Sample.platform (JSON_stringify (VArray l)) = Some (jsonify (VArray l)))
  ∧ ∃ r w',
      (TaskRepository.writeAll 1%positive;; TaskRepository.readAll) Run.three = (Ok r, w')
      ∧ length (tasks_of w' r) = 3
      ∧ Forall2 same_props (tasks_of Run.three 1%positive) (tasks_of w' r)
      ∧ (λ t, get_prop t "title") <$> tasks_of w' r
        = [VString "later"; VString "some day"; VString "late"].
Proof.
  split; [reflexivity|].
  destruct (writeAll_readAll_roundtrip Run.three 1%positive (λ l, eq_refl))
    as (r & w' & Hrun & Hback & Hsame & _).
  exists r, w'. split; [exact Hrun|].
  split; [rewrite Hback; vm_compute; reflexivity|].
  split; [exact (Hsame three_serialisable)|].
  rewrite Hback. exact three_reread.
Defined.

(** C9 as it was stated does not hold for a value that JSON cannot
    write: a priority that is [NaN] is read back as [null]. *)
Lemma roundtrip_loses_NaN :
  (λ t, (TaskRepository.minimal_shape (VObject t), get_prop t "priority"))
    <$> tasks_of Run.unrated 1%positive
  = [(true, VNumber NaN)]
  ∧ ((TaskRepository.writeAll 1%positive;; TaskRepository.readAll) Run.unrated).1
    = Ok 2%positive
  ∧ (λ t, get_prop t "priority")
      <$> tasks_of ((TaskRepository.writeAll 1%positive;; TaskRepository.readAll)
                      Run.unrated).2 2%positive
    = [VNull].
Proof. repeat split; vm_compute; reflexivity. Qed.

Lemma add_accepts_duplicate_id_witness :
  TaskManager.loadIfNeeded Run.one = (Ok (), Run.one)
  ∧ Sample.payload "u1" "second" !! "id" = Some (VString "u1")
  ∧ Sample.payload "u1" "second" !! "title" = Some (VString "second")
  ∧ "second" ≠ ""
  ∧ (∃ l, l ∈ collection Run.one ∧ get_prop (obj_at Run.one l) "id" = VString "u1")
  ∧ ∃ t w',
      TaskManager.add "u2" Run.now (Sample.payload "u1" "second") Run.one = (Ok t, w')
      ∧ collection w' = collection Run.one ++ [t]
      ∧ get_prop (obj_at w' t) "id" = VString "u1"
      ∧ ¬ NoDup (ids (records w')).
Proof.
  assert (∃ l, l ∈ collection Run.one ∧ get_prop (obj_at Run.one l) "id" = VString "u1")
    as Hold.
  { exists 1%positive. split; [left|reflexivity]. }
  split; [reflexivity|]. split; [reflexivity|]. split; [reflexivity|].
  split; [discriminate|]. split; [exact Hold|].
  destruct (add_accepts_duplicate_id "u2" Run.now (Sample.payload "u1" "second")
              "u1" "second" Run.one Run.one eq_refl eq_refl eq_refl
              ltac:(discriminate) Hold)
    as (t & w' & Hrun & _ & Hcol & Hid & _ & Hdup).
  exists t, w'. split; [exact Hrun|]. split; [exact Hcol|]. split; [exact Hid|exact Hdup].
Defined.

(** * More properties on the sample runs *)

Lemma load_without_file_witness :
  file Sample.start = None
  ∧ cache Sample.start = None
  ∧ ∃ w1, TaskManager.loadIfNeeded Sample.start = (Ok (), w1)
          ∧ collection w1 = [] ∧ file w1 = None.
Proof.
  destruct (load_without_file Sample.start eq_refl) as [_ Hload].
  destruct (Hload eq_refl) as (w1 & Hrun & Hcol & _ & Hfile & _).
  split; [reflexivity|]. split; [reflexivity|].
  exists w1. split; [exact Hrun|]. split; [exact Hcol|exact Hfile].
Defined.

Lemma load_failure_propagates_witness :
  file Scenario.garbled = Some (VString "tasks" : @text Sample.platform)
  ∧ @JSON_parse Sample.platform (VString "tasks") = Some (VString "tasks")
  ∧ TaskRepository.readAll Scenario.garbled = (Throw TypeError, Scenario.garbled)
  ∧ TaskManager.findById "a" Scenario.garbled = (Throw TypeError, Scenario.garbled)
  ∧ TaskManager.list None Scenario.garbled = (Throw TypeError, Scenario.garbled).
Proof.
  destruct (load_failure_propagates Scenario.garbled
              (VString "tasks" : @text Sample.platform) TypeError eq_refl)
    as [Hread Hrest].
  { right. exists (VString "tasks"). split; [reflexivity|].
    split; [intros l; discriminate|reflexivity]. }
  destruct (Hrest eq_refl) as (_ & _ & Hfind & _ & _ & _ & Hlist).
  split; [reflexivity|]. split; [reflexivity|]. split; [exact Hread|].
  split; [apply Hfind|apply Hlist].
Defined.

Lemma readAll_keeps_shaped_records_witness :
  file Scenario.by_hand = Some (Scenario.document : @text Sample.platform)
  ∧ ∃ a w',
      TaskRepository.readAll Scenario.by_hand = (Ok a, w')
      ∧ (λ v, (prop_of v "id", prop_of v "title")) <$> (VObject <$> tasks_of w' a)
        = [(VString "a", VString "kept"); (VString "b", VString "")]
      ∧ file w' = file Scenario.by_hand.
Proof.
  split; [reflexivity|].
  destruct (readAll_keeps_shaped_records Scenario.by_hand
              (Scenario.document : @text Sample.platform)
              [VObject {[ "id" := VString "a"; "title" := VString "kept" ]};
               VNull;
               VObject {[ "title" := VString "no id" ]};
               VObject {[ "id" := VString "b"; "title" := VString "";
                          "relatedIds" := VNumber (Finite 5) ]}]
              eq_refl eq_refl)
    as (a & w' & Hrun & _ & Hkept & _ & _ & _ & _ & Hfile & _).
  exists a, w'. split; [exact Hrun|]. split; [|exact Hfile].
  rewrite Hkept. vm_compute. reflexivity.
Defined.

Lemma loaded_manager_ignores_file_witness :
  TaskManager.loadIfNeeded Run.restarted = (Ok (), Run.reloaded)
  ∧ TaskManager.loadIfNeeded Run.reloaded = (Ok (), Run.reloaded)
  ∧ TaskManager.findById "u1" (with_file None Run.reloaded)
    = ((TaskManager.findById "u1" Run.reloaded).1, with_file None Run.reloaded).
Proof.
  assert (TaskManager.loadIfNeeded Run.restarted = (Ok (), Run.reloaded)) as Hload
    by reflexivity.
  destruct (loaded_manager_ignores_file Run.restarted Run.reloaded None Hload)
    as (Hagain & Hfind & _).
  split; [exact Hload|]. split; [exact Hagain|apply Hfind].
Defined.

Lemma findById_first_match_witness :
  TaskManager.loadIfNeeded Run.twins = (Ok (), Run.twins)
  ∧ ids (records Run.twins) = [VString "u1"; VString "u1"]
  ∧ ∃ t, TaskManager.findById "u1" Run.twins = (Ok (Some t), Run.twins)
         ∧ collection Run.twins !! 0 = Some t.
Proof.
  split; [reflexivity|]. split; [vm_compute; reflexivity|].
  destruct (findById_first_match "u1" Run.twins Run.twins eq_refl) as ([t|] & Hrun & Hr).
  - exists t. split; [exact Hrun|].
    destruct Hr as (idx & Hidx & _ & Hfirst).
    destruct idx as [|idx]; [exact Hidx|].
    assert (TaskManager.has_id "u1" (obj_at Run.twins 1%positive) = false) as Hno
      by (apply (Hfirst 0); [reflexivity|lia]).
    discriminate Hno.
  - assert (TaskManager.has_id "u1" (obj_at Run.twins 1%positive) = false) as Hno
      by (apply Hr; left).
    discriminate Hno.
Defined.

Lemma changes_are_written_through_witness :
  TaskManager.loadIfNeeded Run.one = (Ok (), Run.one)
  ∧ disk_in_sync (TaskManager.hardDelete "nobody" Run.one).2
  ∧ writes (TaskManager.hardDelete "nobody" Run.one).2 = S (writes Run.one)
  ∧ (TaskManager.update "nobody" ∅ Run.one).2 = Run.one.
Proof.
  destruct (changes_are_written_through Run.one Run.one eq_refl)
    as (_ & Hupd & _ & Hhard).
  destruct (Hhard "nobody" _ _ (surjective_pairing _)) as [Hsync Hwrites].
  split; [reflexivity|]. split; [exact Hsync|]. split; [exact Hwrites|].
  exact (Hupd "nobody" ∅ (Ok None) _ eq_refl).
Defined.

Lemma reload_reads_back_witness :
  (∀ l, @JSON_parse Sample.platform (JSON_stringify (VArray l)) = Some (jsonify (VArray l)))
  ∧ disk_in_sync Run.twins
  ∧ ∃ w', TaskManager.reload Run.twins = (Ok (), w')
          ∧ (λ t, get_prop t "title") <$> records w' = [VString "first"; VString "second"]
          ∧ writes w' = writes Run.twins.
Proof.
  assert (disk_in_sync Run.twins) as Hsync.
  { exists 1%positive. split; reflexivity. }
  split; [reflexivity|]. split; [exact Hsync|].
  destruct (reload_reads_back Run.twins (λ l, eq_refl) Hsync)
    as (w' & Hrun & Hrec & _ & _ & _ & _ & _ & Hwrites).
  exists w'. split; [exact Hrun|]. split; [|exact Hwrites].
  rewrite Hrec. vm_compute. reflexivity.
Defined.

Lemma add_then_findById_witness :
  TaskManager.loadIfNeeded Run.one = (Ok (), Run.one)
  ∧ cache_allocated Run.one
  ∧ ∃ t w',
      TaskManager.add "u2" Run.now {[ "title" := VString "second" ]} Run.one = (Ok t, w')
      ∧ get_prop (obj_at w' t) "id" = VString "u2"
      ∧ TaskManager.findById "u2" w' = (Ok (Some t), w').
Proof.
  assert (cache_allocated Run.one) as Halloc.
  { unfold cache_allocated. apply (bool_decide_unpack _). vm_compute. exact I. }
  split; [reflexivity|]. split; [exact Halloc|].
  assert (({[ "title" := VString "second" ]} : object) !! "title"
          = Some (VString "second")) as Htitle by reflexivity.
  destruct (add_then_findById "u2" Run.now {[ "title" := VString "second" ]}
              "u2" "second" Run.one Run.one eq_refl Halloc Htitle
              ltac:(discriminate) eq_refl)
    as (t & w' & Hrun & Hid & Hnew & _).
  exists t, w'. split; [exact Hrun|]. split; [exact Hid|].
  apply Hnew. intros u Hu. apply list_elem_of_singleton in Hu as ->. reflexivity.
Defined.

Lemma hardDelete_then_gone_witness :
  TaskManager.loadIfNeeded Run.twins = (Ok (), Run.twins)
  ∧ TaskManager.findById "u1" (TaskManager.hardDelete "u1" Run.twins).2
    = (Ok None, (TaskManager.hardDelete "u1" Run.twins).2)
  ∧ TaskManager.softDelete "u1" (TaskManager.hardDelete "u1" Run.twins).2
    = (Ok false, (TaskManager.hardDelete "u1" Run.twins).2).
Proof.
  destruct (hardDelete_then_gone "u1" Run.twins Run.twins _ _ eq_refl
              (surjective_pairing _))
    as (_ & Hfind & _ & Hsoft & _).
  split; [reflexivity|]. split; [exact Hfind|exact Hsoft].
Defined.

Lemma list_only_reads_witness :
  TaskManager.loadIfNeeded Scenario.trimmed = (Ok (), Scenario.trimmed)
  ∧ cache_array Scenario.trimmed
  ∧ ∃ r w',
      TaskManager.list (Some {| includeDeleted := None; sortBy := Some by_dueDate |})
        Scenario.trimmed = (Ok r, w')
      ∧ arr_at w' r ≡ₚ [1%positive; 3%positive]
      ∧ collection w' = [1%positive; 2%positive; 3%positive]
      ∧ file w' = file Scenario.trimmed.
Proof.
  assert (cache_array Scenario.trimmed) as Harr.
  { exists 1%positive. split; [reflexivity|].
    apply (bool_decide_unpack _). vm_compute. exact I. }
  split; [reflexivity|]. split; [exact Harr|].
  destruct (list_only_reads (Some {| includeDeleted := None; sortBy := Some by_dueDate |})
              Scenario.trimmed Scenario.trimmed eq_refl Harr)
    as (r & w' & Hrun & Hperm & _ & _ & Hfile & _ & _ & _ & Hcol).
  exists r, w'. split; [exact Hrun|]. split; [|split; [|exact Hfile]].
  - rewrite Hperm. vm_compute. reflexivity.
  - rewrite Hcol. vm_compute. reflexivity.
Defined.


Lemma scenario_by_creation :
  (sortByCreation 1%positive Scenario.tasks).1 = Ok 2%positive
  ∧ (λ t, get_prop t "title")
      <$> tasks_of (sortByCreation 1%positive Scenario.tasks).2 2%positive
    = [VString "never"; VString "yesterday"; VString "tomorrow"].
Proof. split; vm_compute; reflexivity. Qed.

Lemma sortByCreation_copy_sorted_witness :
  is_Some (arrs Scenario.tasks !! 1%positive)
  ∧ Forall (λ t, ∃ z, @created_at Sample.platform t z) (tasks_of Scenario.tasks 1%positive)
  ∧ ∃ copy w',
      sortByCreation 1%positive Scenario.tasks = (Ok copy, w')
      ∧ copy ≠ 1%positive
      ∧ StronglySorted (@created_le Sample.platform) (tasks_of w' copy)
      ∧ (λ t, get_prop t "title") <$> tasks_of w' copy
        = [VString "never"; VString "yesterday"; VString "tomorrow"].
Proof.
  assert (is_Some (arrs Scenario.tasks !! 1%positive)) as Harr
    by (apply (bool_decide_unpack _); vm_compute; exact I).
  assert (Forall (λ t, ∃ z, @created_at Sample.platform t z)
            (tasks_of Scenario.tasks 1%positive)) as Hdates.
  { change (tasks_of Scenario.tasks 1%positive)
      with (obj_at Scenario.tasks <$> [1%positive; 2%positive; 3%positive]).
    repeat apply Forall_cons_2; [| | |apply Forall_nil_2];
      eexists; unfold created_at; vm_compute; reflexivity. }
  split; [exact Harr|]. split; [exact Hdates|].
  destruct (sortByCreation_copy_sorted Scenario.tasks 1%positive Harr Hdates)
    as (copy & w' & Hrun & Hne & _ & _ & _ & _ & Hsorted & _).
  exists copy, w'. split; [exact Hrun|]. split; [exact Hne|]. split; [exact Hsorted|].
  apply run_result in Hrun as [Hcopy ->].
  destruct scenario_by_creation as [Hcopy' Htitles].
  rewrite Hcopy' in Hcopy. injection Hcopy as <-. exact Htitles.
Defined.


Lemma scenario_keyed field :
  (field = "status" ∨ field = "difficulty") →
  Forall (@keyed_by Runtime.coercions field)
    (not_deleted (tasks_of Scenario.trimmed 1%positive)).
Proof.
  change (not_deleted (tasks_of Scenario.trimmed 1%positive))
    with (obj_at Scenario.trimmed <$> [1%positive; 3%positive]).
  intros [->| ->]; repeat apply Forall_cons_2; try apply Forall_nil_2;
    eexists; (split; [reflexivity|right; reflexivity]).
Qed.

Lemma stats_count_the_live_tasks_witness :
  Forall (@keyed_by Runtime.coercions "status")
    (not_deleted (tasks_of Scenario.trimmed 1%positive))
  ∧ length (tasks_of Scenario.trimmed 1%positive) = 3
  ∧ (∃ w', statsTotal 1%positive Scenario.trimmed = (Ok 2, w'))
  ∧ ∃ m w',
      @statsByStatus Sample.platform Runtime.coercions 1%positive Scenario.trimmed = (Ok m, w')
      ∧ m !! "todo" = Some (VNumber (Finite 2))
      ∧ m !! "done" = None.
Proof.
  assert (Forall (@keyed_by Runtime.coercions "status")
            (not_deleted (tasks_of Scenario.trimmed 1%positive))) as Hkeys.
  { change (not_deleted (tasks_of Scenario.trimmed 1%positive))
      with (obj_at Scenario.trimmed <$> [1%positive; 3%positive]).
    repeat apply Forall_cons_2; [| |apply Forall_nil_2];
      exists "todo"; (split; [reflexivity|right; reflexivity]). }
  split; [exact Hkeys|]. split; [vm_compute; reflexivity|].
  destruct (@stats_count_the_live_tasks Sample.platform Runtime.coercions
              1%positive Scenario.trimmed) as ((w' & Htotal & _) & Hstatus & _).
  split; [exists w'; exact Htotal|].
  destruct (Hstatus Hkeys) as (m & w'' & Hrun & Hcount & _).
  exists m, w''. split; [exact Hrun|]. split.
  - rewrite Hcount. vm_compute. reflexivity.
  - rewrite Hcount. vm_compute. reflexivity.
Defined.

Lemma statistics_counts_witness :
  TaskManager.loadIfNeeded Scenario.trimmed = (Ok (), Scenario.trimmed)
  ∧ cache_array Scenario.trimmed
  ∧ length (records Scenario.trimmed) = 3
  ∧ length (live Scenario.trimmed) = 2
  ∧ ∃ byStatus byDifficulty w',
      @TaskManager.statistics Sample.platform Runtime.coercions Scenario.trimmed
      = (Ok (VObject {[ "total" := VNumber (Finite (Z.of_nat (length (live Scenario.trimmed))));
                        "byStatus" := VObject byStatus;
                        "byDifficulty" := VObject byDifficulty ]}), w')
      ∧ byStatus !! "todo" = Some (VNumber (Finite 2))
      ∧ byDifficulty !! "medium" = Some (VNumber (Finite 2))
      ∧ file w' = file Scenario.trimmed.
Proof.
  assert (cache_array Scenario.trimmed) as Harr.
  { exists 1%positive. split; [reflexivity|].
    apply (bool_decide_unpack _). vm_compute. exact I. }
  split; [reflexivity|]. split; [exact Harr|].
  split; [vm_compute; reflexivity|]. split; [vm_compute; reflexivity|].
  destruct (@statistics_counts Sample.platform Runtime.coercions
              Scenario.trimmed Scenario.trimmed eq_refl Harr
              (scenario_keyed "status" (or_introl eq_refl))
              (scenario_keyed "difficulty" (or_intror eq_refl)))
    as (byStatus & byDifficulty & w' & Hrun & HbyStatus & HbyDifficulty & _ & _ & _ & Hfile & _).
  exists byStatus, byDifficulty, w'. split; [exact Hrun|].
  split; [rewrite HbyStatus; vm_compute; reflexivity|].
  split; [rewrite HbyDifficulty; vm_compute; reflexivity|exact Hfile].
Defined.




Lemma predicate_membership_witness :
  texts_or_absent (get_prop (obj_at Scenario.tasks 3%positive) "relatedIds")
  ∧ relatedTo "a" (obj_at Scenario.tasks 3%positive) = Ok true
  ∧ relatedTo "a" (obj_at Scenario.read 2%positive) = Throw TypeError.
Proof.
  assert (texts_or_absent (get_prop (obj_at Scenario.tasks 3%positive) "relatedIds"))
    as Harr.
  { right. exists [VString "a"]. reflexivity. }
  split; [exact Harr|].
  destruct (predicate_membership "a" (obj_at Scenario.tasks 3%positive))
    as (_ & Hrel & _).
  destruct (predicate_membership "a" (obj_at Scenario.read 2%positive))
    as (_ & _ & _ & Hthrow).
  split.
  - destruct (Hrel Harr) as (b & Hb & Hiff). rewrite Hb. f_equal. apply Hiff.
    exists [VString "a"]. split; [reflexivity|left].
  - apply Hthrow; [reflexivity| |].
    + intros elems.
      change (get_prop (obj_at Scenario.read 2%positive) "relatedIds")
        with (VNumber (Finite 5)). discriminate.
    + intros s.
      change (get_prop (obj_at Scenario.read 2%positive) "relatedIds")
        with (VNumber (Finite 5)). discriminate.
Defined.


Lemma relatedTasks_fails_on_a_malformed_task_witness :
  TaskManager.loadIfNeeded Scenario.by_hand = (Ok (), Scenario.read)
  ∧ (λ t, (get_prop t "id", get_prop t "relatedIds")) <$> records Scenario.read
    = [(VString "a", VUndefined); (VString "b", VNumber (Finite 5))]
  ∧ TaskManager.relatedTasks "a" Scenario.by_hand
    = (Throw TypeError, Scenario.read).
Proof.
  split; [reflexivity|]. split; [vm_compute; reflexivity|].
  apply (relatedTasks_fails_on_a_malformed_task "a"
           Scenario.by_hand Scenario.read (obj_at Scenario.read 2%positive)).
  - reflexivity.
  - apply (list_elem_of_lookup_2 _ 1). reflexivity.
  - reflexivity.
  - intros elems.
    change (get_prop (obj_at Scenario.read 2%positive) "relatedIds")
      with (VNumber (Finite 5)). discriminate.
  - intros s.
    change (get_prop (obj_at Scenario.read 2%positive) "relatedIds")
      with (VNumber (Finite 5)). discriminate.
Defined.

Lemma update_then_findById_witness :
  TaskManager.loadIfNeeded Run.one = (Ok (), Run.one)
  ∧ cache_allocated Run.one
  ∧ (TaskManager.update "u1" {[ "title" := VString "renamed" ]} Run.one).1
    = Ok (Some 2%positive)
  ∧ TaskManager.findById "u1" Run.one = (Ok (Some 1%positive), Run.one)
  ∧ TaskManager.findById "u1"
      (TaskManager.update "u1" {[ "title" := VString "renamed" ]} Run.one).2
    = (Ok (Some 2%positive),
       (TaskManager.update "u1" {[ "title" := VString "renamed" ]} Run.one).2)
  ∧ get_prop (obj_at (TaskManager.update "u1" {[ "title" := VString "renamed" ]} Run.one).2
                1%positive) "title" = VString "first".
Proof.
  assert (cache_allocated Run.one) as Halloc.
  { unfold cache_allocated. apply (bool_decide_unpack _). vm_compute. exact I. }
  split; [reflexivity|]. split; [exact Halloc|]. split; [reflexivity|].
  destruct (update_then_findById "u1" {[ "title" := VString "renamed" ]}
              Run.one Run.one 2%positive
              (TaskManager.update "u1" {[ "title" := VString "renamed" ]} Run.one).2
              eq_refl Halloc eq_refl)
    as (Hfound & current & Hbefore & _ & Hsame & _).
  assert (TaskManager.findById "u1" Run.one = (Ok (Some 1%positive), Run.one)) as Hfirst
    by reflexivity.
  rewrite Hfirst in Hbefore. injection Hbefore as <-.
  split; [exact Hfirst|]. split; [exact Hfound|].
  rewrite Hsame. reflexivity.
Defined.

Lemma ids_are_kept_witness :
  TaskManager.loadIfNeeded Run.twins = (Ok (), Run.twins)
  ∧ cache_allocated Run.twins
  ∧ ids (records (TaskManager.update "u1" {[ "id" := VString "other" ]} Run.twins).2)
    = ids (records Run.twins)
  ∧ ids (records (TaskManager.hardDelete "u1" Run.twins).2) = [].
Proof.
  assert (cache_allocated Run.twins) as Halloc.
  { unfold cache_allocated. apply (bool_decide_unpack _). vm_compute. exact I. }
  destruct (ids_are_kept Run.twins Run.twins eq_refl Halloc) as (Hupd & _ & Hhard & _).
  split; [reflexivity|]. split; [exact Halloc|]. split.
  - exact (Hupd "u1" {[ "id" := VString "other" ]} _ _ (surjective_pairing _)).
  - destruct (Hhard "u1" _ _ (surjective_pairing _)) as (Hids & _).
    rewrite Hids. vm_compute. reflexivity.
Defined.

Lemma Task_methods_are_not_written_witness :
  (∀ l, @JSON_parse Sample.platform (JSON_stringify (VArray l)) = Some (jsonify (VArray l)))
  ∧ disk_in_sync Run.one
  ∧ cache_array Run.one
  ∧ file (Task.softDelete 1%positive Run.one).2 = file Run.one
  ∧ (∃ r w', TaskManager.list None (Task.softDelete 1%positive Run.one).2 = (Ok r, w')
             ∧ 1%positive ∉ arr_at w' r)
  ∧ ∃ w', TaskManager.reload (Task.softDelete 1%positive Run.one).2 = (Ok (), w')
          ∧ (λ t, get_prop t "deleted") <$> records w' = [VBool false].
Proof.
  assert (disk_in_sync Run.one) as Hsync.
  { exists 1%positive. split; reflexivity. }
  assert (cache_array Run.one) as Harr.
  { exists 1%positive. split; [reflexivity|].
    apply (bool_decide_unpack _). vm_compute. exact I. }
  split; [reflexivity|]. split; [exact Hsync|]. split; [exact Harr|].
  destruct (Task_methods_are_not_written Run.one 1%positive (λ l, eq_refl) Hsync Harr)
    as (Hall & _ & _ & Hlist & _).
  destruct (Hall Task.softDelete) as (w1 & Hrun & _ & _ & _ & Hfile & _ & w' & Hreload & Hrec).
  { right. left. }
  injection Hrun as <-.
  split; [exact Hfile|]. split; [exact Hlist|].
  exists w'. split; [exact Hreload|]. rewrite Hrec. vm_compute. reflexivity.
Defined.

Lemma Task_constructor_checks_the_title_only_witness :
  Task.constructor "u1" Run.now {[ "title" := VNumber (Finite 5) ]} Sample.start
  = (Throw (Error "Task must have a non-empty title"), Sample.start)
  ∧ ∃ t o,
      Task.constructor "u1" Run.now
        {[ "title" := VString "urgent"; "priority" := VNumber (Finite 9);
           "status" := VNull; "owner" := VString "me" ]} Sample.start
      = (Ok t, set_objs <[t := o]> Sample.start)
      ∧ get_prop o "priority" = VNumber (Finite 9)
      ∧ get_prop o "status" = TaskStatus.TODO
      ∧ o !! "owner" = None.
Proof.
  split.
  - apply (Task_constructor_checks_the_title_only "u1" Run.now
             {[ "title" := VNumber (Finite 5) ]} Sample.start).
    intros s.
    change (get_prop {[ "title" := VNumber (Finite 5) ]} "title") with (VNumber (Finite 5)).
    discriminate.
  - edestruct (proj2 (Task_constructor_checks_the_title_only "u1" Run.now
                        {[ "title" := VString "urgent"; "priority" := VNumber (Finite 9);
                           "status" := VNull; "owner" := VString "me" ]} Sample.start)
                 "urgent")
      as (t & o & Hrun & Hdom & Hnum & _ & _ & Hstatus & _);
      [reflexivity|discriminate|].
    exists t, o. split; [exact Hrun|]. split; [exact (Hnum _ eq_refl)|].
    split; [exact (Hstatus eq_refl)|].
    apply not_elem_of_dom. rewrite Hdom. apply (bool_decide_unpack _). vm_compute. exact I.
Defined.

Lemma collection_is_well_formed_witness :
  cache Sample.start = None
  ∧ well_formed (TaskManager.loadIfNeeded Sample.start).2
  ∧ well_formed Run.one.
Proof.
  destruct (collection_is_well_formed Sample.start (TaskManager.loadIfNeeded Sample.start).2
              eq_refl) as [Hloaded Hkept].
  split; [reflexivity|]. split; [exact (Hloaded eq_refl)|].
  destruct (Hkept (Hloaded eq_refl)) as (Hadd & _).
  exact (Hadd "u1" Run.now {[ "title" := VString "first" ]} _ _ (surjective_pairing _)).
Defined.

Lemma deleted_tasks_are_still_found_witness :
  TaskManager.loadIfNeeded Run.one = (Ok (), Run.one)
  ∧ (TaskManager.softDelete "u1" Run.one).1 = Ok true
  ∧ ∃ t, TaskManager.findById "u1" (TaskManager.softDelete "u1" Run.one).2
         = (Ok (Some t), (TaskManager.softDelete "u1" Run.one).2)
         ∧ isNotDeleted (obj_at (TaskManager.softDelete "u1" Run.one).2 t) = false
         ∧ ∃ w'', TaskManager.softDelete "u1" (TaskManager.softDelete "u1" Run.one).2
                  = (Ok true, w'')
                  ∧ writes w'' = 3.
Proof.
  split; [reflexivity|]. split; [reflexivity|].
  destruct (deleted_tasks_are_still_found "u1" Run.one Run.one
              (TaskManager.softDelete "u1" Run.one).2 eq_refl eq_refl)
    as (t & _ & Hfound & Hdeleted & (w'' & Hagain & _ & _ & Hwrites) & _).
  exists t. split; [exact Hfound|]. split; [exact Hdeleted|].
  exists w''. split; [exact Hagain|]. rewrite Hwrites. vm_compute. reflexivity.
Defined.
